(** * The dashboard data pipeline of msr_dashboard_clasping

    A shallow embedding of the data-transformation functions of the two
    script files of the repository, [src/Code.js] and the second script file
    (kept here as [Part000]), and the properties the specification states
    about them; then the pipeline around them ([getDataForDashboard]), the
    missing-dates report, the sheets of the exports and the cleanup list,
    with the properties the code itself shows.

    The script runs on Google Apps Script; calls into that platform
    ([Utilities.parseDate], [Utilities.formatDate], the [Date] constructor,
    [String.prototype.localeCompare], [Array.prototype.sort], [parseFloat],
    [Number.prototype.toFixed]) are collected in the record [Platform] and
    every function of the script is a function of a platform.  Logging has no
    effect on any returned value and is left out. *)

From Stdlib Require Import ZArith QArith Qround Qabs List String Ascii Bool.
From Stdlib Require Import Lia Lqa Permutation Sorted OrderedTypeEx PeanoNat DecimalString.
Import ListNotations.

Local Open Scope string_scope.
Local Open Scope Z_scope.

(** ** Values *)

(** An underlying cell value as [getValues()] hands it over.  A [Date] holds
    a time value in milliseconds, or no time value when it is an invalid
    date; numbers are exact rationals (the rounding of IEEE doubles is not
    part of the model). *)
Inductive value : Type :=
| VUndefined
| VNull
| VBool (b : bool)
| VNum (x : Q)
| VStr (s : string)
| VDate (t : option Z).

(** A display cell as [getDisplayValues()] hands it over: a string; the
    script also guards against [null] and [undefined]. *)
Inductive cell : Type :=
| CUndefined
| CNull
| CText (s : string).

(** What a call of [Utilities.parseDate] can do: raise, or return a [Date]
    (with or without a time value). *)
Inductive parsed : Type :=
| Raised
| Parsed (t : option Z).

(** A function of the script either returns or lets an exception escape. *)
Inductive outcome (A : Type) : Type :=
| Returned (a : A)
| Threw (msg : string).
Arguments Returned {A} a.
Arguments Threw {A} msg.

Definition bind {A B : Type} (m : outcome A) (f : A -> outcome B) : outcome B :=
  match m with
  | Returned a => f a
  | Threw msg => Threw msg
  end.

(** ** The platform *)

Record Platform : Type := {
  (** [Session.getScriptTimeZone()] *)
  sessionTimeZone : string;
  (** [Utilities.parseDate(text, timeZone, format)] *)
  utilParseDate : string -> string -> string -> parsed;
  (** [Utilities.formatDate(date, timeZone, format)] on a valid date; [None]
      when it raises *)
  utilFormatDate : Z -> string -> string -> option string;
  (** [new Date(text).getTime()] *)
  dateOfString : string -> option Z;
  (** [new Date(year, month, day).getTime()], an argument being [None] when
      it is NaN *)
  dateOfFields : option Z -> option Z -> option Z -> option Z;
  (** [getFullYear()] and [getTimezoneOffset()] of a valid date *)
  getFullYear : Z -> Z;
  getTimezoneOffset : Z -> Z;
  (** the sign of [a.localeCompare(b)] *)
  localeCompare : string -> string -> comparison;
  (** [array.sort(compare)], the comparator giving the sign of its result *)
  arraySort : forall A : Type, (A -> A -> comparison) -> list A -> list A;
  (** [parseFloat(text)], [None] for NaN *)
  parseFloat : string -> option Q;
  (** [x.toFixed(1)] *)
  toFixed1 : Q -> string
}.

(** ** Strings, numbers and dates of the language *)

Definition isWhiteSpace (a : ascii) : bool :=
  let n := nat_of_ascii a in
  ((9 <=? n)%nat && (n <=? 13)%nat) || (n =? 32)%nat.

Fixpoint trimStart (s : string) : string :=
  match s with
  | EmptyString => EmptyString
  | String a r => if isWhiteSpace a then trimStart r else s
  end.

Fixpoint trimEnd (s : string) : string :=
  match s with
  | EmptyString => EmptyString
  | String a r =>
      match trimEnd r with
      | EmptyString => if isWhiteSpace a then EmptyString else String a EmptyString
      | r' => String a r'
      end
  end.

(** [s.trim()], strings being byte strings and white space the ASCII one. *)
Definition trim (s : string) : string := trimEnd (trimStart s).

Definition Qltb (x y : Q) : bool := negb (Qle_bool y x).

Definition Qtrunc (x : Q) : Z :=
  if Qle_bool 0 x then Qfloor x else Qceiling x.

Definition maxTime : Z := 8640000000000000.

(** The time value of [new Date(x)] for a finite number [x]. *)
Definition timeClip (x : Q) : option Z :=
  if Qle_bool (Qabs x) (inject_Z maxTime) then Some (Qtrunc x) else None.

(** ** Configuration *)

Definition SHEET_NAME : string := "Dashboard".
Definition HEADER_ROWS : nat := 1.
Definition SCRIPT_TIMEZONE : string := "GMT+5:30".

Definition COL_DAY : nat := 1.
Definition COL_DATE : nat := 2.
Definition COL_CENTRE : nat := 3.
Definition COL_SANGAT : nat := 4.
Definition COL_MODE : nat := 5.
Definition COL_NAME : nat := 6.
Definition COL_ARRIVAL : nat := 7.
Definition COL_SATSANG : nat := 8.
Definition COL_SAINT : nat := 9.
Definition COL_BOOK : nat := 10.
Definition COL_START : nat := 11.
Definition COL_END : nat := 12.

Record column : Type := { key : string; index : nat }.

Definition eventDetailColumns : list column :=
  [ {| key := "totalSangat"; index := COL_SANGAT - 1 |};
    {| key := "mode"; index := COL_MODE - 1 |};
    {| key := "name"; index := COL_NAME - 1 |};
    {| key := "arrival"; index := COL_ARRIVAL - 1 |};
    {| key := "satsang"; index := COL_SATSANG - 1 |};
    {| key := "saint"; index := COL_SAINT - 1 |};
    {| key := "book"; index := COL_BOOK - 1 |};
    {| key := "start"; index := COL_START - 1 |};
    {| key := "end"; index := COL_END - 1 |} ].

Definition specialEventHeaders : list column :=
  [ {| key := "date"; index := COL_DATE - 1 |};
    {| key := "day"; index := COL_DAY - 1 |};
    {| key := "centre"; index := COL_CENTRE - 1 |} ] ++ eventDetailColumns.

Definition customCentreOrder : list string :=
  [ "ALWAR"; "ALWAR-2"; "BEHROR"; "BHIWADI"; "BHOJRAJKA"; "CHIKANI"; "DESULA";
    "FATEHPUR"; "GOBINDGARH"; "GUNTASHAPUR"; "HALDEENA"; "HAZIPUR";
    "JHALATALA"; "KARANA"; "KARNIKOT"; "KASBA DEHRA"; "KAYSA"; "KHAIRTHAL";
    "KISHANGARH BAS"; "LAXMANGARH"; "MUBARIKPUR"; "MUNDAWAR"; "PAHADI";
    "PARVENI"; "PAWTI"; "PEPEAL KHERA"; "PRATAPGARH"; "RAJGARH"; "RAMGARH";
    "RATA KHURD"; "SHAHBAD"; "SHAJHANPUR"; "TAPUKARA"; "TATARPUR" ].

Definition boldCentres : list string :=
  [ "ALWAR"; "ALWAR-2"; "RAMGARH"; "KHAIRTHAL"; "CHIKANI" ].

(** [list.includes(s)] *)
Definition includes (l : list string) (s : string) : bool :=
  existsb (String.eqb s) l.

(** ** Objects used as maps *)

(** An object of the script that serves as a map: its own properties in the
    order of their creation.  Only own properties are modelled; a key that
    names a property inherited from [Object.prototype] is outside the model. *)
Definition jsobject (V : Type) : Type := list (string * V).

Section Objects.
Context {V : Type}.

(** [o[k]], [None] for [undefined] *)
Fixpoint getProp (k : string) (o : jsobject V) : option V :=
  match o with
  | [] => None
  | (k', v) :: rest => if (k' =? k)%string then Some v else getProp k rest
  end.

(** [o[k] = v]: an existing property keeps its place. *)
Fixpoint setProp (k : string) (v : V) (o : jsobject V) : jsobject V :=
  match o with
  | [] => [(k, v)]
  | (k', v') :: rest =>
      if (k' =? k)%string then (k, v) :: rest else (k', v') :: setProp k v rest
  end.
End Objects.

Definition digitValue (a : ascii) : option N :=
  let n := N_of_ascii a in
  if ((48 <=? n) && (n <=? 57))%N then Some (n - 48)%N else None.

Fixpoint digitsValue (acc : N) (s : string) : option N :=
  match s with
  | EmptyString => Some acc
  | String a r =>
      match digitValue a with
      | Some d => digitsValue (10 * acc + d)%N r
      | None => None
      end
  end.

(** The array index a property key denotes, if it is the canonical decimal
    form of an integer below 2^32 - 1. *)
Definition arrayIndex (s : string) : option N :=
  match s with
  | EmptyString => None
  | String "0" EmptyString => Some 0%N
  | String "0" _ => None
  | _ =>
      match digitsValue 0 s with
      | Some n => if (n <=? 4294967294)%N then Some n else None
      | None => None
      end
  end.

Fixpoint insertIndexKey (n : N) (k : string) (l : list (N * string))
  : list (N * string) :=
  match l with
  | [] => [(n, k)]
  | (m, k') :: rest =>
      if (n <=? m)%N then (n, k) :: l else (m, k') :: insertIndexKey n k rest
  end.

Fixpoint indexKeys (keys : list string) : list (N * string) :=
  match keys with
  | [] => []
  | k :: rest =>
      match arrayIndex k with
      | Some n => insertIndexKey n k (indexKeys rest)
      | None => indexKeys rest
      end
  end.

Definition isIndexKey (k : string) : bool :=
  match arrayIndex k with Some _ => true | None => false end.

(** [Object.keys(o)]: the keys that are array indices in ascending numeric
    order, then the other keys in the order of their creation. *)
Definition ownKeys {V : Type} (o : jsobject V) : list string :=
  let keys := map fst o in
  map snd (indexKeys keys) ++ filter (fun k => negb (isIndexKey k)) keys.

(** ** Rows *)

Record dataItem : Type := {
  valueRow : list value;
  displayRow : list cell;
  ymd : option string
}.

(** [row[i]] *)
Definition cellAt (row : list cell) (i : nat) : cell := nth i row CUndefined.
Definition valueAt (row : list value) (i : nat) : value := nth i row VUndefined.

(** The truth value of a string or missing field. *)
Definition truthyText (o : option string) : bool :=
  match o with
  | Some s => negb (s =? "")%string
  | None => false
  end.

Definition truthyCell (c : cell) : bool :=
  match c with
  | CText s => negb (s =? "")%string
  | _ => false
  end.

(** [cellDisplayValue === null || cellDisplayValue === undefined ? "" :
    cellDisplayValue] *)
Definition orEmpty (cellDisplayValue : cell) : cell :=
  match cellDisplayValue with
  | CNull | CUndefined => CText ""
  | _ => cellDisplayValue
  end.

(** The object a [forEach] over a list of columns fills from a display row. *)
Definition displayFields (columns : list column) (row : list cell)
  (start : jsobject cell) : jsobject cell :=
  fold_left (fun o col => setProp (key col) (orEmpty (cellAt row (index col))) o)
    columns start.

Definition decimal (n : nat) : string :=
  DecimalString.NilEmpty.string_of_uint (Nat.to_uint n).

(** [s.split("-")] *)
Fixpoint splitOn (sep : ascii) (s : string) : list string :=
  match s with
  | EmptyString => [EmptyString]
  | String a r =>
      if Ascii.eqb a sep then EmptyString :: splitOn sep r
      else
        match splitOn sep r with
        | [] => [String a EmptyString]
        | p :: ps => String a p :: ps
        end
  end.

Fixpoint leadingDigits (acc : option Z) (s : string) : option Z :=
  match s with
  | EmptyString => acc
  | String a r =>
      match digitValue a with
      | Some d =>
          leadingDigits
            (Some (10 * (match acc with Some n => n | None => 0 end) + Z.of_N d)) r
      | None => acc
      end
  end.

(** [parseInt(text, 10)], [None] for NaN; an absent element reads as the
    text [undefined]. *)
Definition parseInt10 (text : option string) : option Z :=
  match text with
  | None => None
  | Some s =>
      match trimStart s with
      | String "-" r => option_map Z.opp (leadingDigits None r)
      | String "+" r => leadingDigits None r
      | r => leadingDigits None r
      end
  end.

(** [s.replace(/,/g, "")] *)
Fixpoint stripCommas (s : string) : string :=
  match s with
  | EmptyString => EmptyString
  | String a r => if Ascii.eqb a "," then stripCommas r else String a (stripCommas r)
  end.

(** An element of an array inside a template literal. *)
Definition templateText (part : option string) : string :=
  match part with
  | Some s => s
  | None => "undefined"
  end.

(** ** The pivot aggregator: what both script files share *)

(** The aggregate kept for a centre while the rows are folded in. *)
Record centreData : Type := {
  dateData : jsobject (jsobject cell);
  totalSangatSum : Q;
  sangatCount : nat
}.

(** A row of [templateData] ([rowDateData] is its [dateData]). *)
Record templateRow : Type := {
  centre : string;
  isBold : bool;
  rowDateData : jsobject (jsobject cell);
  averageSangat : string;
  isMissingData : bool
}.

Record pivotResult : Type := {
  templateData : list templateRow;
  sortedDates : list string
}.

(** An event of the special list: [ymdForSort] and the display fields. *)
Record specialEvent : Type := {
  ymdForSort : option string;
  eventFields : jsobject cell
}.

Section Pivot.
Variable P : Platform.

(** The centre a row is filed under. *)
Definition centreNameOf (displayRow : list cell) (index : nat) : string :=
  match cellAt displayRow (COL_CENTRE - 1) with
  | CText s => if (s =? "")%string then "_UnknownCentre_" ++ decimal index else trim s
  | _ => "_UnknownCentre_" ++ decimal index
  end.

(** The date the pivot key is formatted from: the parsed [ymd], or, when
    the parse raises or returns an invalid date, the date built from the
    three numbers of [ymd]; [None] when that one is invalid too. *)
Definition originalDateOf (ymd : string) : option Z :=
  match utilParseDate P ymd (sessionTimeZone P) "yyyy-MM-dd" with
  | Parsed (Some originalDate) => Some originalDate
  | _ =>
      let parts := splitOn "-" ymd in
      let year := parseInt10 (nth_error parts 0) in
      let month := option_map (fun m => m - 1) (parseInt10 (nth_error parts 1)) in
      let day := parseInt10 (nth_error parts 2) in
      dateOfFields P year month day
  end.

(** The key of the handler that takes over when no date could be formatted. *)
Definition fallbackKey (ymd : string) : string :=
  let parts := splitOn "-" ymd in
  templateText (nth_error parts 2) ++ "-" ++ templateText (nth_error parts 1)
    ++ "-" ++ templateText (nth_error parts 0).

Definition datePivotKeyOf (ymd : string) : string :=
  match originalDateOf ymd with
  | Some originalDate =>
      match utilFormatDate P originalDate (sessionTimeZone P) "dd-MM-yyyy" with
      | Some datePivotKey => datePivotKey
      | None => fallbackKey ymd
      end
  | None => fallbackKey ymd
  end.

Definition eventDetailsOf (displayRow : list cell) : jsobject cell :=
  displayFields eventDetailColumns displayRow [].

(** The number taken from the underlying attendance cell, [None] for NaN. *)
Definition numericSangatOf (sangatValue : value) : option Q :=
  match sangatValue with
  | VNum x => Some x
  | VStr s => parseFloat P (stripCommas s)
  | _ => None
  end.

Definition newCentre : centreData :=
  {| dateData := []; totalSangatSum := 0%Q; sangatCount := 0 |}.

(** The first row of a (centre, date key) pair stores its cell and adds
    its attendance; a later row of the pair changes nothing. *)
Definition addRow (datePivotKey : string) (item : dataItem) (c : centreData)
  : centreData :=
  match getProp datePivotKey (dateData c) with
  | Some _ => c
  | None =>
      let stored := setProp datePivotKey (eventDetailsOf (displayRow item)) (dateData c) in
      match numericSangatOf (valueAt (valueRow item) (COL_SANGAT - 1)) with
      | Some numericSangat =>
          {| dateData := stored;
             totalSangatSum := (totalSangatSum c + numericSangat)%Q;
             sangatCount := S (sangatCount c) |}
      | None =>
          {| dateData := stored;
             totalSangatSum := totalSangatSum c;
             sangatCount := sangatCount c |}
      end
  end.

(** The state of the loop: [processedData] and [uniqueDateInfo]. *)
Definition pivotState : Type := (jsobject centreData * jsobject string)%type.

(** The body of [dataItems.forEach((item, index) => ...)]. *)
Definition foldItem (st : pivotState) (index : nat) (item : dataItem)
  : pivotState :=
  let (processedData, uniqueDateInfo) := st in
  match ymd item with
  | None => st
  | Some ymd =>
      if (ymd =? "")%string then st
      else
        let centreName := centreNameOf (displayRow item) index in
        let datePivotKey := datePivotKeyOf ymd in
        let uniqueDateInfo' :=
          if truthyText (getProp datePivotKey uniqueDateInfo) then uniqueDateInfo
          else setProp datePivotKey ymd uniqueDateInfo in
        let c :=
          match getProp centreName processedData with
          | Some c => c
          | None => newCentre
          end in
        (setProp centreName (addRow datePivotKey item c) processedData,
         uniqueDateInfo')
  end.

Fixpoint forEachItem (dataItems : list dataItem) (index : nat) (st : pivotState)
  : pivotState :=
  match dataItems with
  | [] => st
  | item :: rest => forEachItem rest (S index) (foldItem st index item)
  end.

(** The ISO date kept for a display key. *)
Definition sortKeyOf (uniqueDateInfo : jsobject string) (k : string) : string :=
  match getProp k uniqueDateInfo with
  | Some sortKey => sortKey
  | None => ""
  end.

Definition sortedDateKeysOf (uniqueDateInfo : jsobject string) : list string :=
  arraySort P string
    (fun a b => localeCompare P (sortKeyOf uniqueDateInfo a) (sortKeyOf uniqueDateInfo b))
    (ownKeys uniqueDateInfo).

(** The loop over the date keys that stops at the first key without a cell. *)
Definition lacksSomeDate (sortedDateKeys : list string)
  (cells : jsobject (jsobject cell)) : bool :=
  existsb (fun dateKey =>
             match getProp dateKey cells with Some _ => false | None => true end)
    sortedDateKeys.

Definition averageOf (c : centreData) : string :=
  if (0 <? sangatCount c)%nat
  then toFixed1 P (totalSangatSum c / inject_Z (Z.of_nat (sangatCount c)))%Q
  else "N/A".

(** The row pushed for a centre of the fixed list. *)
Definition listedRow (processedData : jsobject centreData)
  (sortedDateKeys : list string) (centreName : string) : templateRow :=
  let centreDataFromProcessed := getProp centreName processedData in
  let isMissingData :=
    match sortedDateKeys with
    | [] => false
    | _ =>
        match centreDataFromProcessed with
        | None => true
        | Some c => lacksSomeDate sortedDateKeys (dateData c)
        end
    end in
  {| centre := centreName;
     isBold := includes boldCentres centreName;
     rowDateData :=
       match centreDataFromProcessed with Some c => dateData c | None => [] end;
     averageSangat :=
       match centreDataFromProcessed with Some c => averageOf c | None => "N/A" end;
     isMissingData := isMissingData |}.

(** The sorted names of the centres that have data. *)
Definition sortedCentreNames (processedData : jsobject centreData) : list string :=
  arraySort P string (localeCompare P) (ownKeys processedData).

(** ** The special-event list builder (the same in both script files) *)

Definition eventObjectOf (item : dataItem) : specialEvent :=
  {| ymdForSort := ymd item;
     eventFields := displayFields specialEventHeaders (displayRow item) [] |}.

Definition compareEvents (a b : specialEvent) : comparison :=
  if negb (truthyText (ymdForSort a)) || negb (truthyText (ymdForSort b)) then Eq
  else
    match ymdForSort a, ymdForSort b with
    | Some ya, Some yb => localeCompare P ya yb
    | _, _ => Eq
    end.

Definition processSpecialSatsangList (dataItems : list dataItem)
  : list specialEvent :=
  match dataItems with
  | [] => []
  | _ => arraySort P specialEvent compareEvents (map eventObjectOf dataItems)
  end.

End Pivot.


(** ** The dashboard pipeline: what both script files share *)

(** The sheet as [getValues()] and [getDisplayValues()] hand it over: each
    row in its underlying and in its display form, the header row first. *)
Definition table : Type := list (list value * list cell).

(** What [getDataForDashboard] returns.  [sunday] and [wednesday] are [None]
    when they are [null]; [staticWednesdayCentersList] is [None] when the
    object has no such property. *)
Record dashboard : Type := {
  sunday : option pivotResult;
  wednesday : option pivotResult;
  special : list specialEvent;
  error : option string;
  availableMonths : list string;
  selectedMonth : option string;
  staticWednesdayCentersList : option (list string)
}.

(** The three arrays the rows of the selected month are pushed on. *)
Record buckets : Type := {
  sundayRows : list dataItem;
  wednesdayRows : list dataItem;
  specialRows : list dataItem
}.

(** The state of the first pass: the set of months and the valid items. *)
Record passState : Type := {
  availableMonthsSet : list string;
  allValidDataItems : list dataItem
}.

(** The first pass runs to its end, or an exception leaves it with the
    state it had reached. *)
Inductive passResult : Type :=
| PassDone (st : passState)
| PassFailed (st : passState) (thrown : string).

Definition lowerAscii (a : ascii) : ascii :=
  let n := nat_of_ascii a in
  if ((65 <=? n) && (n <=? 90))%nat then ascii_of_nat (n + 32) else a.

(** [s.toLowerCase()], strings being byte strings: the ASCII letters are
    lowered, every other byte is kept.  The result is only compared with
    the labels below and with the empty string; the letters of Devanagari
    have no case, and no character outside ASCII is lowered to a letter of
    the two English labels, so these comparisons come out as in the
    language. *)
Fixpoint toLowerCase (s : string) : string :=
  match s with
  | EmptyString => EmptyString
  | String a r => String (lowerAscii a) (toLowerCase r)
  end.

(** [(displayRow[COL_DAY - 1] || "").toString().trim().toLowerCase()] *)
Definition dayValueOf (displayRow : list cell) : string :=
  toLowerCase
    (trim (match cellAt displayRow (COL_DAY - 1) with
           | CText s => s
           | _ => ""
           end)).

(** [!centreName || centreName.trim() === ""] *)
Definition centreIsBlank (displayRow : list cell) : bool :=
  match cellAt displayRow (COL_CENTRE - 1) with
  | CText centreName => (centreName =? "")%string || (trim centreName =? "")%string
  | _ => true
  end.

Definition isSundayLabel (dayValue : string) : bool :=
  (dayValue =? "sunday")%string || (dayValue =? "रविवार")%string.

Definition isWednesdayLabel (dayValue : string) : bool :=
  (dayValue =? "wednesday")%string || (dayValue =? "बुधवार")%string.

(** The body of the loop that sorts the rows of the month into the three
    arrays. *)
Definition categorizeItem (b : buckets) (item : dataItem) : buckets :=
  let dayValue := dayValueOf (displayRow item) in
  if centreIsBlank (displayRow item) then b
  else if isSundayLabel dayValue then
    {| sundayRows := sundayRows b ++ [item];
       wednesdayRows := wednesdayRows b;
       specialRows := specialRows b |}
  else if isWednesdayLabel dayValue then
    {| sundayRows := sundayRows b;
       wednesdayRows := wednesdayRows b ++ [item];
       specialRows := specialRows b |}
  else if negb (dayValue =? "")%string then
    {| sundayRows := sundayRows b;
       wednesdayRows := wednesdayRows b;
       specialRows := specialRows b ++ [item] |}
  else b.

Definition categorize (filteredDataItems : list dataItem) : buckets :=
  fold_left categorizeItem filteredDataItems
    {| sundayRows := []; wednesdayRows := []; specialRows := [] |}.

(** [set.add(s)] on a set kept in the order of insertion. *)
Definition setAdd (s : string) (set : list string) : list string :=
  if includes set s then set else set ++ [s].

(** [ymd.substring(0, 7)] and [ymd.startsWith(month)] *)
Definition monthOf (ymd : string) : string := String.substring 0 7 ymd.

Definition startsWith (ymd month : string) : bool := String.prefix month ymd.

(** The first pass: a row whose date normalizes to a non-empty string adds
    its month to the set and becomes an item. *)
Fixpoint firstPassLoop (parseDateValue : value -> nat -> outcome (option string))
  (i : nat) (rows : table) (st : passState) : passResult :=
  match rows with
  | [] => PassDone st
  | row :: rest =>
      match parseDateValue (valueAt (fst row) (COL_DATE - 1)) i with
      | Threw thrown => PassFailed st thrown
      | Returned None => firstPassLoop parseDateValue (S i) rest st
      | Returned (Some parsedYMD) =>
          if (parsedYMD =? "")%string then firstPassLoop parseDateValue (S i) rest st
          else
            firstPassLoop parseDateValue (S i) rest
              {| availableMonthsSet := setAdd (monthOf parsedYMD) (availableMonthsSet st);
                 allValidDataItems :=
                   allValidDataItems st
                   ++ [ {| valueRow := fst row; displayRow := snd row;
                           ymd := Some parsedYMD |} ] |}
      end
  end.

(** [err.message] of an exception that escaped as the text [Name: message]. *)
Fixpoint errorMessage (thrown : string) : string :=
  match thrown with
  | EmptyString => EmptyString
  | String ":" (String " " message) => message
  | String _ rest => errorMessage rest
  end.

(** The month to display: the requested month if it has data, else the
    current month if it has data, else the first of the months sorted
    downwards. *)
Definition selectMonth (requestedMonth : option string)
  (availableMonthsSet : list string) (currentMonth : string)
  (sortedAvailableMonths : list string) : option string :=
  match requestedMonth with
  | Some requested =>
      if negb (requested =? "")%string && includes availableMonthsSet requested
      then Some requested
      else if includes availableMonthsSet currentMonth then Some currentMonth
      else hd_error sortedAvailableMonths
  | None =>
      if includes availableMonthsSet currentMonth then Some currentMonth
      else hd_error sortedAvailableMonths
  end.

(** The rows of the selected month; every item of the first pass has a
    date. *)
Definition ofMonth (actualSelectedMonth : string) (item : dataItem) : bool :=
  match ymd item with
  | Some y => startsWith y actualSelectedMonth
  | None => false
  end.

(** The dates of a list for which a row has no cell. *)
Definition missingDatesOf (dates : list string) (cells : jsobject (jsobject cell))
  : list string :=
  filter (fun date => match getProp date cells with Some _ => false | None => true end)
    dates.

Section Pipeline.
Variable P : Platform.

(** [Array.from(set).sort().reverse()]: the default order of [sort] is that
    of the code units. *)
Definition sortedDownwards (availableMonthsSet : list string) : list string :=
  rev (arraySort P string String.compare availableMonthsSet).

(** The result of the handler that catches whatever the pipeline raises. *)
Definition loadFailure (availableMonthsSet : list string)
  (actualSelectedMonth : option string) (message : string) : dashboard :=
  {| sunday := None;
     wednesday := None;
     special := [];
     error := Some ("Failed to load data: " ++ message);
     availableMonths := rev (sortedDownwards availableMonthsSet);
     selectedMonth := actualSelectedMonth;
     staticWednesdayCentersList := None |}.

Definition noData (message : string) : dashboard :=
  {| sunday := None;
     wednesday := None;
     special := [];
     error := Some message;
     availableMonths := [];
     selectedMonth := None;
     staticWednesdayCentersList := None |}.

End Pipeline.

(** ** Cell values as text *)

(** The texts the platform gives to numbers and to dates. *)
Record Texts : Type := {
  numberText : Q -> string;
  dateText : option Z -> string
}.

(** [v.toString()] *)
Definition toStringOf (T : Texts) (v : value) : outcome string :=
  match v with
  | VUndefined =>
      Threw "TypeError: Cannot read properties of undefined (reading 'toString')"
  | VNull => Threw "TypeError: Cannot read properties of null (reading 'toString')"
  | VBool b => Returned (if b then "true" else "false")
  | VNum x => Returned (numberText T x)
  | VStr s => Returned s
  | VDate t => Returned (dateText T t)
  end.

(** [String(row)] on the one-cell row [[v]] is truthy: an array joins the
    texts of its elements, [undefined] and [null] giving the empty text. *)
Definition hasText (T : Texts) (v : value) : bool :=
  match toStringOf T v with
  | Returned s => negb (s =? "")%string
  | Threw _ => false
  end.

(** [values.map(f)] for an [f] that may raise. *)
Fixpoint mapOutcome {A B : Type} (f : A -> outcome B) (l : list A) : outcome (list B) :=
  match l with
  | [] => Returned []
  | x :: rest =>
      bind (f x) (fun y => bind (mapOutcome f rest) (fun ys => Returned (y :: ys)))
  end.

(** An entry of the missing-dates report of the second script file. *)
Record missingEntry : Type := {
  centerName : string;
  day : string;
  dates : list string
}.

(** ** The cleanup list of the exports *)

(** The script property [fileToDeleteId] after an export: the identifiers
    of the temporary spreadsheet and of the Excel file are appended,
    separated by commas.  [prop] is [None] when the property is not set. *)
Definition addToCleanupList (prop : option string) (spreadsheetId excelFileId : string)
  : string :=
  let prop := match prop with Some p => p | None => "" end in
  if (prop =? "")%string then spreadsheetId ++ "," ++ excelFileId
  else prop ++ "," ++ spreadsheetId ++ "," ++ excelFileId.

(** [deleteTemporaryFile]: the identifiers handed to [DriveApp.getFileById]
    to be trashed, in order, and the property afterwards.  A file that
    cannot be trashed is logged and skipped. *)
Definition deleteTemporaryFile (prop : option string) : list string * option string :=
  match prop with
  | None => ([], None)
  | Some p => if (p =? "")%string then ([], Some p) else (splitOn "," p, None)
  end.

(** ** The sheets of the exports (the same in both script files) *)

(** The calls a sheet builder makes on its sheet, in order.  A range is
    given by its first row and column, one-based as in [getRange], and,
    where the call names them, its numbers of rows and of columns. *)
Inductive sheetOp : Type :=
| SetValue (row col : nat) (content : string)
| SetFontSize (row col : nat) (size : nat)
| SetFontWeight (row col numRows numColumns : nat) (weight : string)
| SetFontColor (row col : nat) (color : string)
| SetBackground (row col numRows numColumns : nat) (color : string)
| Merge (row col numRows numColumns : nat)
| SetHorizontalAlignment (row col : nat) (alignment : string)
| AutoResizeColumns (startColumn numColumns : nat)
| AutoResizeColumn (column : nat)
| SetFrozenRows (rows : nat)
| SetFrozenColumns (columns : nat).

Section Sheets.
Local Open Scope list_scope.
Local Open Scope nat_scope.

(** The [name] fields of the columns, by key. *)
Definition columnNames : list (string * string) :=
  [ ("totalSangat", "Total Sangat"); ("mode", "Mode of Satsang"); ("name", "Name");
    ("arrival", "Arrival Time"); ("satsang", "Satsang"); ("saint", "Name of Saint");
    ("book", "Name of Book"); ("start", "Start Time"); ("end", "End Time");
    ("date", "Date"); ("day", "Day"); ("centre", "Centre") ].

Definition nameOf (col : column) : string :=
  match getProp (key col) columnNames with
  | Some name => name
  | None => ""
  end.

(** [object[key] || ""] on an object of display cells. *)
Definition fieldOrEmpty (field : string) (o : jsobject cell) : string :=
  match getProp field o with
  | Some (CText s) => s
  | _ => ""
  end.

(** The loops of the builders; each returns the calls it makes and the
    value it leaves in [columnIndex]. *)
Fixpoint dateHeaderOps (datesHeaderRow : nat) (dates : list string) (columnIndex : nat)
  : list sheetOp * nat :=
  match dates with
  | [] => ([], columnIndex)
  | dateStr :: rest =>
      let (ops, last) := dateHeaderOps datesHeaderRow rest (S columnIndex) in
      (SetValue datesHeaderRow columnIndex dateStr :: ops, last)
  end.

Fixpoint dateCellOps (rowIndex : nat) (dateData : jsobject (jsobject cell))
  (dates : list string) (columnIndex : nat) : list sheetOp * nat :=
  match dates with
  | [] => ([], columnIndex)
  | dateStr :: rest =>
      let (ops, last) := dateCellOps rowIndex dateData rest (S columnIndex) in
      (match getProp dateStr dateData with
       | Some details =>
           SetValue rowIndex columnIndex (fieldOrEmpty "totalSangat" details) :: ops
       | None => ops
       end, last)
  end.

(** The calls that write the first two cells of a centre's row. *)
Definition centreHeadOps (rowIndex : nat) (centreData : templateRow) : list sheetOp :=
  [SetValue rowIndex 1 (centre centreData)]
  ++ (if isBold centreData then [SetFontWeight rowIndex 1 1 1 "bold"] else [])
  ++ (if isMissingData centreData then [SetFontColor rowIndex 1 "#FF0000"] else [])
  ++ [SetValue rowIndex 2 (averageSangat centreData)].

Fixpoint centreRowOps (dates : list string) (rows : list templateRow)
  (rowIndex columnIndex : nat) : list sheetOp * nat :=
  match rows with
  | [] => ([], columnIndex)
  | centreData :: rest =>
      let (cells, afterCells) := dateCellOps rowIndex (rowDateData centreData) dates 3 in
      let (ops, last) := centreRowOps dates rest (S rowIndex) afterCells in
      (centreHeadOps rowIndex centreData ++ cells ++ ops, last)
  end.

(** [createPivotedExcelSheet(sheet, result, title)] *)
Definition createPivotedExcelSheet (result : pivotResult) (title : string)
  : list sheetOp :=
  let datesHeaderRow := 3%nat in
  let (headers, columnIndex) := dateHeaderOps datesHeaderRow (sortedDates result) 3 in
  let (rows, lastColumnIndex) :=
    centreRowOps (sortedDates result) (templateData result) (datesHeaderRow + 1)
      columnIndex in
  [SetValue 1 1 title; SetFontSize 1 1 14; SetFontWeight 1 1 1 1 "bold";
   SetValue datesHeaderRow 1 "Centre"; SetValue datesHeaderRow 2 "Avg. Sangat"]
  ++ headers
  ++ [SetFontWeight datesHeaderRow 1 1 (columnIndex - 1) "bold";
      SetBackground datesHeaderRow 1 1 (columnIndex - 1) "#f3f3f3"]
  ++ rows
  ++ [AutoResizeColumns 1 (lastColumnIndex - 1)].

(** The loops of the complete builder: a date takes as many columns as
    there are event details. *)
Fixpoint subHeaderOps (subHeaderRow : nat) (columns : list column) (columnIndex : nat)
  : list sheetOp * nat :=
  match columns with
  | [] => ([], columnIndex)
  | col :: rest =>
      let (ops, last) := subHeaderOps subHeaderRow rest (S columnIndex) in
      (SetValue subHeaderRow columnIndex (nameOf col) :: ops, last)
  end.

Fixpoint completeHeaderOps (datesHeaderRow : nat) (dates : list string)
  (columnIndex : nat) : list sheetOp * nat :=
  match dates with
  | [] => ([], columnIndex)
  | dateStr :: rest =>
      let (subHeaders, afterSub) :=
        subHeaderOps (datesHeaderRow + 1) eventDetailColumns columnIndex in
      let (ops, last) := completeHeaderOps datesHeaderRow rest afterSub in
      ([Merge datesHeaderRow columnIndex 1 (List.length eventDetailColumns);
        SetValue datesHeaderRow columnIndex dateStr;
        SetHorizontalAlignment datesHeaderRow columnIndex "center"]
       ++ subHeaders ++ ops, last)
  end.

Fixpoint detailOps (rowIndex : nat) (eventData : jsobject cell) (columns : list column)
  (columnIndex : nat) : list sheetOp * nat :=
  match columns with
  | [] => ([], columnIndex)
  | col :: rest =>
      let (ops, last) := detailOps rowIndex eventData rest (S columnIndex) in
      (SetValue rowIndex columnIndex (fieldOrEmpty (key col) eventData) :: ops, last)
  end.

Fixpoint completeCellOps (rowIndex : nat) (dateData : jsobject (jsobject cell))
  (dates : list string) (columnIndex : nat) : list sheetOp * nat :=
  match dates with
  | [] => ([], columnIndex)
  | dateStr :: rest =>
      match getProp dateStr dateData with
      | Some eventData =>
          let (details, afterDetails) :=
            detailOps rowIndex eventData eventDetailColumns columnIndex in
          let (ops, last) := completeCellOps rowIndex dateData rest afterDetails in
          (details ++ ops, last)
      | None =>
          completeCellOps rowIndex dateData rest
            (columnIndex + List.length eventDetailColumns)
      end
  end.

Fixpoint completeRowOps (dates : list string) (rows : list templateRow)
  (rowIndex columnIndex : nat) : list sheetOp * nat :=
  match rows with
  | [] => ([], columnIndex)
  | centreData :: rest =>
      let (cells, afterCells) :=
        completeCellOps rowIndex (rowDateData centreData) dates 3 in
      let (ops, last) := completeRowOps dates rest (S rowIndex) afterCells in
      (centreHeadOps rowIndex centreData ++ cells ++ ops, last)
  end.

(** [createCompletePivotedExcelSheet(sheet, result, title)] *)
Definition createCompletePivotedExcelSheet (result : pivotResult) (title : string)
  : list sheetOp :=
  let datesHeaderRow := 3%nat in
  let (headers, columnIndex) :=
    completeHeaderOps datesHeaderRow (sortedDates result) 3 in
  let (rows, lastColumnIndex) :=
    completeRowOps (sortedDates result) (templateData result) (datesHeaderRow + 2)
      columnIndex in
  [SetValue 1 1 title; SetFontSize 1 1 14; SetFontWeight 1 1 1 1 "bold";
   SetValue datesHeaderRow 1 "Centre"; SetValue datesHeaderRow 2 "Avg. Sangat"]
  ++ headers
  ++ [SetFontWeight datesHeaderRow 1 1 (columnIndex - 1) "bold";
      SetBackground datesHeaderRow 1 1 (columnIndex - 1) "#f3f3f3";
      SetFontWeight (datesHeaderRow + 1) 3 1 (columnIndex - 3) "bold";
      SetBackground (datesHeaderRow + 1) 3 1 (columnIndex - 3) "#e6e6e6"]
  ++ rows
  ++ [AutoResizeColumns 1 (lastColumnIndex - 1);
      SetFrozenRows (datesHeaderRow + 1); SetFrozenColumns 2].

(** The loop over the events of the special sheet; [columnIndex] starts
    again at 1 for each event. *)
Fixpoint eventRowOps (events : list specialEvent) (rowIndex : nat) : list sheetOp :=
  match events with
  | [] => []
  | event :: rest =>
      fst (detailOps rowIndex (eventFields event) specialEventHeaders 1)
      ++ eventRowOps rest (S rowIndex)
  end.

(** [createSpecialExcelSheet(sheet, specialEvents)] *)
Definition createSpecialExcelSheet (specialEvents : list specialEvent) : list sheetOp :=
  let headerRow := 3%nat in
  [SetValue 1 1 "Special Satsang Events"; SetFontSize 1 1 14;
   SetFontWeight 1 1 1 1 "bold"]
  ++ fst (subHeaderOps headerRow specialEventHeaders 1)
  ++ [SetFontWeight headerRow 1 1 (List.length specialEventHeaders) "bold";
      SetBackground headerRow 1 1 (List.length specialEventHeaders) "#f3f3f3"]
  ++ eventRowOps specialEvents (headerRow + 1)
  ++ [AutoResizeColumns 1 (List.length specialEventHeaders)].

(** [createCompleteSpecialExcelSheet(sheet, specialEvents)]: the same sheet
    with the header row and three columns frozen. *)
Definition createCompleteSpecialExcelSheet (specialEvents : list specialEvent)
  : list sheetOp :=
  createSpecialExcelSheet specialEvents ++ [SetFrozenRows 3; SetFrozenColumns 3].

(** ** The exports

    An export builds a temporary spreadsheet and hands it to Drive to be
    converted.  The spreadsheet is described by its name, the calls made on
    each sheet the export inserts, and the calls made on the sheet named
    Sheet1 when the spreadsheet still has one at the end. *)
Record workbook : Type := {
  bookName : string;
  sundaySheet : option (list sheetOp);
  wednesdaySheet : option (list sheetOp);
  specialSheet : option (list sheetOp);
  sheet1 : option (list sheetOp)
}.

(** A pivot gets a sheet when it has rows. *)
Definition pivotSheet (build : pivotResult -> string -> list sheetOp)
  (result : option pivotResult) (title : string) : option (list sheetOp) :=
  match result with
  | Some r =>
      match templateData r with
      | [] => None
      | _ => Some (build r title)
      end
  | None => None
  end.

Definition isSome {A : Type} (o : option A) : bool :=
  match o with
  | Some _ => true
  | None => false
  end.

(** The sheet named Sheet1, if the new spreadsheet has one: deleted when a
    data sheet was inserted, and else holding a message. *)
Definition defaultSheetOf (hasSheet1 anyDataSheet : bool) (selectedMonth : string)
  : option (list sheetOp) :=
  if hasSheet1 then
    if anyDataSheet then None
    else
      Some [ SetValue 1 1 ("No data found for the selected month: " ++ selectedMonth);
             AutoResizeColumn 1 ]
  else None.

(** The spreadsheet of [exportFilteredDataToExcel(requestedMonth)], the
    declaration that replaces the one without a parameter. *)
Definition filteredWorkbook (processedDataResult : dashboard)
  (selectedMonth timestamp : string) (hasSheet1 : bool) : workbook :=
  let sundaySheet :=
    pivotSheet createPivotedExcelSheet (sunday processedDataResult) "Sunday Satsang" in
  let wednesdaySheet :=
    pivotSheet createPivotedExcelSheet (wednesday processedDataResult)
      "Wednesday Satsang" in
  {| bookName := "Satsang_Report_" ++ selectedMonth ++ "_" ++ timestamp;
     sundaySheet := sundaySheet;
     wednesdaySheet := wednesdaySheet;
     specialSheet := None;
     sheet1 :=
       defaultSheetOf hasSheet1 (isSome sundaySheet || isSome wednesdaySheet)
         selectedMonth |}.

(** The spreadsheet of [exportCompleteDataToExcel(requestedMonth)]. *)
Definition completeWorkbook (processedDataResult : dashboard)
  (selectedMonth timestamp : string) (hasSheet1 : bool) : workbook :=
  let sundaySheet :=
    pivotSheet createCompletePivotedExcelSheet (sunday processedDataResult)
      "Sunday Satsang" in
  let wednesdaySheet :=
    pivotSheet createCompletePivotedExcelSheet (wednesday processedDataResult)
      "Wednesday Satsang" in
  let specialSheet :=
    match special processedDataResult with
    | [] => None
    | specialResultArray => Some (createCompleteSpecialExcelSheet specialResultArray)
    end in
  {| bookName := "Complete_Satsang_Report_" ++ selectedMonth ++ "_" ++ timestamp;
     sundaySheet := sundaySheet;
     wednesdaySheet := wednesdaySheet;
     specialSheet := specialSheet;
     sheet1 :=
       defaultSheetOf hasSheet1
         (isSome sundaySheet || isSome wednesdaySheet || isSome specialSheet)
         selectedMonth |}.

(** An export: the month is the requested one or that of the clock; an
    error of the pipeline is raised again before any spreadsheet is made;
    [convert] stands for the platform carrying out the calls and for the
    conversion by Drive, which returns the download address or raises.
    Whatever is raised comes out under the prefix of the export. *)
Definition export (prefix : string)
  (build : dashboard -> string -> string -> bool -> workbook)
  (getDataForDashboard : option string -> dashboard)
  (convert : workbook -> outcome string) (timestamp : string) (hasSheet1 : bool)
  (clockMonth : string) (requestedMonth : option string) : outcome string :=
  let selectedMonth :=
    match requestedMonth with
    | Some m => if (m =? "")%string then clockMonth else m
    | None => clockMonth
    end in
  let processedDataResult := getDataForDashboard (Some selectedMonth) in
  let made :=
    match convert (build processedDataResult selectedMonth timestamp hasSheet1) with
    | Returned downloadUrl => Returned downloadUrl
    | Threw thrown => Threw ("Error: " ++ prefix ++ errorMessage thrown)
    end in
  match error processedDataResult with
  | Some message =>
      if (message =? "")%string then made else Threw ("Error: " ++ prefix ++ message)
  | None => made
  end.

Definition exportFilteredDataToExcel :=
  export "Export failed: " filteredWorkbook.

Definition exportCompleteDataToExcel :=
  export "Complete export failed: " completeWorkbook.

End Sheets.
(** ** [Code.js]: the date normalizer and the pivot aggregator *)

Module CodeJs.
Section WithPlatform.
Variable P : Platform.

(** The serial-number branch: the day count is added to the local midnight
    of 30 December 1899 and the time-zone offset of the result is taken
    off again. *)
Definition serialDate (dateValue : Q) : option Z :=
  match dateOfFields P (Some 1899) (Some 11) (Some 30) with
  | None => None
  | Some baseDate =>
      let dateMillis := (inject_Z baseDate + dateValue * 24 * 60 * 60 * 1000)%Q in
      match timeClip dateMillis with
      | None => None
      | Some potentialDate =>
          let offset := getTimezoneOffset P potentialDate * 60 * 1000 in
          timeClip (dateMillis - inject_Z offset)%Q
      end
  end.

(** The string branch: nested attempts; the next format is tried when the
    parse returned an invalid date, and a parse that raises is caught by
    the handler around the whole nest, which leaves no date. *)
Definition stringDate (trimmedDate : string) : option Z :=
  match utilParseDate P trimmedDate SCRIPT_TIMEZONE "dd-MM-yyyy" with
  | Raised => None
  | Parsed (Some p) => Some p
  | Parsed None =>
  match utilParseDate P trimmedDate SCRIPT_TIMEZONE "yyyy-MM-dd" with
  | Raised => None
  | Parsed (Some p) => Some p
  | Parsed None =>
  match utilParseDate P trimmedDate SCRIPT_TIMEZONE "dd/MM/yyyy" with
  | Raised => None
  | Parsed (Some p) => Some p
  | Parsed None =>
  match utilParseDate P trimmedDate SCRIPT_TIMEZONE "MM/dd/yyyy" with
  | Raised => None
  | Parsed (Some p) => Some p
  | Parsed None => dateOfString P trimmedDate
  end end end end.

(** The date object the three branches leave in [parsedDate]. *)
Definition parsedDateOf (dateValue : value) : option Z :=
  match dateValue with
  | VDate (Some t) => Some t
  | VNum x => if Qltb 0 x then serialDate x else None
  | VStr s => if (trim s =? "")%string then None else stringDate (trim s)
  | _ => None
  end.

Definition parseDateValue (dateValue : value) (rowIndex : nat)
  : outcome (option string) :=
  match parsedDateOf dateValue with
  | Some parsedDate =>
      match utilFormatDate P parsedDate SCRIPT_TIMEZONE "yyyy-MM-dd" with
      | Some ymd => Returned (Some ymd)
      | None => Returned None
      end
  | None => Returned None
  end.

(** The row pushed for a centre outside the fixed list; reading
    [sangatCount] of a centre that has no aggregate raises. *)
Definition extraRow (processedData : jsobject centreData) (centreName : string)
  : outcome templateRow :=
  match getProp centreName processedData with
  | Some centreData =>
      Returned
        {| centre := centreName;
           isBold := includes boldCentres centreName;
           rowDateData := dateData centreData;
           averageSangat := averageOf P centreData;
           isMissingData := false |}
  | None =>
      Threw "TypeError: Cannot read properties of undefined (reading 'sangatCount')"
  end.

(** The second loop: the sorted names not yet pushed. *)
Fixpoint appendExtras (processedData : jsobject centreData)
  (names : list string) (centresAlreadyAddedToFinal : list string)
  : outcome (list templateRow) :=
  match names with
  | [] => Returned []
  | centreName :: rest =>
      if includes centresAlreadyAddedToFinal centreName
      then appendExtras processedData rest centresAlreadyAddedToFinal
      else
        bind (extraRow processedData centreName) (fun row =>
        bind (appendExtras processedData rest centresAlreadyAddedToFinal)
          (fun rows => Returned (row :: rows)))
  end.

(** The pivot aggregator of [Code.js].  An empty bucket returns at once
    unless it is the Sunday one; the fixed list is walked for Sunday data
    only, and every other centre with data is appended with
    [isMissingData: false]. *)
Definition processAndSortData (dataItems : list dataItem)
  (selectedMonth : string) (isSundayData : bool) : outcome pivotResult :=
  match dataItems, isSundayData with
  | [], false => Returned {| templateData := []; sortedDates := [] |}
  | _, _ =>
      let (processedData, uniqueDateInfo) := forEachItem P dataItems 0 ([], []) in
      let sortedDateKeys := sortedDateKeysOf P uniqueDateInfo in
      let listed := if isSundayData then customCentreOrder else [] in
      bind (appendExtras processedData (sortedCentreNames P processedData) listed)
        (fun extras =>
           Returned
             {| templateData :=
                  map (listedRow P processedData sortedDateKeys) listed ++ extras;
                sortedDates := sortedDateKeys |})
  end.

(** The pipeline of [Code.js].  [sheet] is the sheet named Dashboard, if
    there is one; [currentMonth] is the month of the clock in the script
    time zone, as [Utilities.formatDate(new Date(), scriptTimeZone,
    "yyyy-MM")] gives it. *)
Definition getDataForDashboard (sheet : option table) (currentMonth : string)
  (requestedMonth : option string) : dashboard :=
  match sheet with
  | None => loadFailure P [] None ("Sheet '" ++ SHEET_NAME ++ "' not found!")
  | Some rawData =>
      if (List.length rawData <=? HEADER_ROWS)%nat then noData "No data rows found."
      else
        match firstPassLoop parseDateValue HEADER_ROWS (skipn HEADER_ROWS rawData)
                {| availableMonthsSet := []; allValidDataItems := [] |} with
        | PassFailed st thrown =>
            loadFailure P (availableMonthsSet st) None (errorMessage thrown)
        | PassDone st =>
            let sortedAvailableMonths := sortedDownwards P (availableMonthsSet st) in
            match selectMonth requestedMonth (availableMonthsSet st) currentMonth
                    sortedAvailableMonths with
            | None => noData "No data with valid dates found."
            | Some actualSelectedMonth =>
                let filteredDataItems :=
                  filter (ofMonth actualSelectedMonth) (allValidDataItems st) in
                let b := categorize filteredDataItems in
                match processAndSortData (sundayRows b) actualSelectedMonth true with
                | Threw thrown =>
                    loadFailure P (availableMonthsSet st) (Some actualSelectedMonth)
                      (errorMessage thrown)
                | Returned sundayResult =>
                    match processAndSortData (wednesdayRows b) actualSelectedMonth false with
                    | Threw thrown =>
                        loadFailure P (availableMonthsSet st) (Some actualSelectedMonth)
                          (errorMessage thrown)
                    | Returned wednesdayResult =>
                        {| sunday := Some sundayResult;
                           wednesday := Some wednesdayResult;
                           special := processSpecialSatsangList P (specialRows b);
                           error := None;
                           availableMonths := rev sortedAvailableMonths;
                           selectedMonth := Some actualSelectedMonth;
                           staticWednesdayCentersList := None |}
                    end
                end
            end
        end
  end.

(** The centres the missing-entries report of [Code.js] checks on
    Wednesdays. *)
Definition staticWednesdayCenters : list string :=
  [ "ALWAR"; "ALWAR-2"; "BEHROR"; "BHIWADI"; "CHIKANI"; "FATEHPUR"; "GOBINDGARH";
    "HALDEENA"; "HAZIPUR"; "JHALATALA"; "KARANA"; "KARNIKOT"; "KHAIRTHAL";
    "KISHANGARH BAS"; "LAXMANGARH"; "MUBARIKPUR"; "PAWTI"; "PEPEAL KHERA";
    "RAJGARH"; "RAMGARH"; "RATA KHURD"; "SHAJHANPUR" ].

(** The Sunday part of the report: a line for each row that has no cell for
    one of the dates. *)
Definition sundayEntries (sundayResult : option pivotResult) : list string :=
  match sundayResult with
  | Some result =>
      match templateData result with
      | [] => []
      | _ =>
          flat_map
            (fun center =>
               match missingDatesOf (sortedDates result) (rowDateData center) with
               | [] => []
               | missingDates =>
                   [ centre center ++ " (Sunday): " ++ String.concat ", " missingDates ]
               end)
            (templateData result)
      end
  | None => []
  end.

(** The Wednesday part: a line for each static centre that has no row, or
    whose row has no cell for one of the dates. *)
Definition wednesdayEntries (wednesdayResult : option pivotResult) : list string :=
  match wednesdayResult with
  | Some result =>
      match sortedDates result with
      | [] => []
      | wednesdayDates =>
          flat_map
            (fun centerName =>
               let missingDates :=
                 match find (fun row => (centre row =? centerName)%string)
                         (templateData result) with
                 | None => wednesdayDates
                 | Some center => missingDatesOf wednesdayDates (rowDateData center)
                 end in
               match missingDates with
               | [] => []
               | _ => [ centerName ++ " (Wednesday): " ++ String.concat ", " missingDates ]
               end)
            staticWednesdayCenters
      end
  | None => []
  end.

(** [findMissingDateEntries] of [Code.js]: an error of the pipeline is
    raised again, otherwise the lines of both parts are returned. *)
Definition findMissingDateEntries (sheet : option table) (clockMonth : string)
  (selectedMonth : option string) : outcome (list string) :=
  let currentMonth :=
    match selectedMonth with
    | Some m => if (m =? "")%string then clockMonth else m
    | None => clockMonth
    end in
  let processedDataResult := getDataForDashboard sheet clockMonth (Some currentMonth) in
  match error processedDataResult with
  | Some message =>
      if (message =? "")%string
      then Returned (sundayEntries (sunday processedDataResult)
                     ++ wednesdayEntries (wednesday processedDataResult))%list
      else Threw ("Error: " ++ message)
  | None =>
      Returned (sundayEntries (sunday processedDataResult)
                ++ wednesdayEntries (wednesday processedDataResult))%list
  end.

End WithPlatform.
End CodeJs.



(** ** The second script file: the date normalizer and the pivot aggregator *)

Module Part000.
Section WithPlatform.
Variable P : Platform.

Definition preferredFormat : string := "yyyy-MM-dd".
Definition alternativeFormats : list string :=
  [ "dd-MM-yyyy"; "dd/MM/yyyy"; "MM/dd/yyyy" ].

(** One attempt: a parse that raises or returns an invalid date leaves
    [parsedDateObj] as it was. *)
Definition tryFormat (trimmedDateStr format : string) : option Z :=
  match utilParseDate P trimmedDateStr (sessionTimeZone P) format with
  | Parsed (Some d) => Some d
  | _ => None
  end.

(** The loop over the alternative formats, left at the first success. *)
Fixpoint tryFormats (trimmedDateStr : string) (formats : list string)
  : option Z :=
  match formats with
  | [] => None
  | format :: rest =>
      match tryFormat trimmedDateStr format with
      | Some d => Some d
      | None => tryFormats trimmedDateStr rest
      end
  end.

Definition stringDate (trimmedDateStr : string) : option Z :=
  match tryFormat trimmedDateStr preferredFormat with
  | Some d => Some d
  | None => tryFormats trimmedDateStr alternativeFormats
  end.

(** Attempt 4, the serial number.  An unlikely year raises inside the
    [try], whose handler only logs. *)
Definition serialDate (inputValue : Q) : option Z :=
  if Qltb inputValue 20000 && Qltb 70000 inputValue
     && negb (Qeq_bool inputValue (inject_Z (Qfloor inputValue)))
  then None
  else
    match dateOfFields P (Some 1899) (Some 11) (Some 30) with
    | None => None
    | Some baseDate =>
        let dateMillis := (inject_Z baseDate + inputValue * 24 * 60 * 60 * 1000)%Q in
        match timeClip dateMillis with
        | None => None
        | Some tempDate =>
            let year := getFullYear P tempDate in
            if (year <? 1900) || (2100 <? year) then
              if Qltb 1000000000000 inputValue && Qltb inputValue 9999999999999
              then timeClip inputValue
              else None
            else Some tempDate
        end
    end.

(** The date object the four attempts leave in [parsedDateObj]; a blank
    string returns before any attempt. *)
Definition parsedDateObjOf (inputValue : value) : option Z :=
  match inputValue with
  | VStr s => if (trim s =? "")%string then None else stringDate (trim s)
  | VDate (Some t) => Some t
  | VNum x => if Qltb 0 x then serialDate x else None
  | _ => None
  end.

(** The variables in scope at the last statement of [parseDateValue] that
    hold a date; reading an identifier that is declared nowhere raises a
    [ReferenceError]. *)
Definition dateVariables (parsedDateObj : Z) : list (string * Z) :=
  [ ("parsedDateObj", parsedDateObj) ].

Definition readVariable (name : string) (scope : list (string * Z))
  : outcome Z :=
  match find (fun b => (fst b =? name)%string) scope with
  | Some b => Returned (snd b)
  | None => Threw ("ReferenceError: " ++ name ++ " is not defined")
  end.

(** The last statement: [Utilities.formatDate(parsedDate, ...)] inside a
    [try] whose handler builds its log message from [parsedDate] again. *)
Definition formatParsed (parsedDateObj : Z) : outcome (option string) :=
  let scope := dateVariables parsedDateObj in
  match readVariable "parsedDate" scope with
  | Returned d =>
      match utilFormatDate P d SCRIPT_TIMEZONE "yyyy-MM-dd" with
      | Some ymd => Returned (Some ymd)
      | None =>
          match readVariable "parsedDate" scope with
          | Returned _ => Returned None
          | Threw msg => Threw msg
          end
      end
  | Threw _ =>
      match readVariable "parsedDate" scope with
      | Returned _ => Returned None
      | Threw msg => Threw msg
      end
  end.

Definition parseDateValue (inputValue : value) (sheetRowIndex : nat)
  : outcome (option string) :=
  match parsedDateObjOf inputValue with
  | Some parsedDateObj => formatParsed parsedDateObj
  | None => Returned None
  end.

(** The row pushed for a centre outside the list of relevant centres,
    flagged when it has no cell for one of the date keys; reading
    [sangatCount] of a centre that has no aggregate raises. *)
Definition extraRow (processedData : jsobject centreData)
  (sortedDateKeys : list string) (centreName : string) : outcome templateRow :=
  match getProp centreName processedData with
  | Some centreData =>
      Returned
        {| centre := centreName;
           isBold := includes boldCentres centreName;
           rowDateData := dateData centreData;
           averageSangat := averageOf P centreData;
           isMissingData :=
             match sortedDateKeys with
             | [] => false
             | _ => lacksSomeDate sortedDateKeys (dateData centreData)
             end |}
  | None =>
      Threw "TypeError: Cannot read properties of undefined (reading 'sangatCount')"
  end.

(** The second loop, which also records each centre it pushes. *)
Fixpoint appendExtras (processedData : jsobject centreData)
  (sortedDateKeys : list string) (names : list string)
  (centresAlreadyAddedToFinal : list string) : outcome (list templateRow) :=
  match names with
  | [] => Returned []
  | centreName :: rest =>
      if includes centresAlreadyAddedToFinal centreName
      then appendExtras processedData sortedDateKeys rest centresAlreadyAddedToFinal
      else
        bind (extraRow processedData sortedDateKeys centreName) (fun row =>
        bind (appendExtras processedData sortedDateKeys rest
                (centreName :: centresAlreadyAddedToFinal))
          (fun rows => Returned (row :: rows)))
  end.

(** The pivot aggregator of the second script file: the list of centres
    to walk is an argument ([null] standing for the empty list). *)
Definition processAndSortData (dataItems : list dataItem)
  (selectedMonth : string) (isSundayData : bool)
  (allRelevantCenters : option (list string)) : outcome pivotResult :=
  let allRelevantCenters :=
    match allRelevantCenters with Some l => l | None => [] end in
  let (processedData, uniqueDateInfo) := forEachItem P dataItems 0 ([], []) in
  let sortedDateKeys := sortedDateKeysOf P uniqueDateInfo in
  bind (appendExtras processedData sortedDateKeys
          (sortedCentreNames P processedData) allRelevantCenters)
    (fun extras =>
       Returned
         {| templateData :=
              map (listedRow P processedData sortedDateKeys) allRelevantCenters
              ++ extras;
            sortedDates := sortedDateKeys |}).

(** [getStaticWednesdayCentersFromSheet]: [configuration] is column A of
    the sheet named Configuration, if there is one, over all the rows of
    the sheet.  The number of cells with a text is taken for the last row
    that has one. *)
Definition getStaticWednesdayCentersFromSheet (T : Texts)
  (configuration : option (list value)) : list string :=
  match configuration with
  | None => []
  | Some columnA =>
      let lastRowWithDataInColA := List.length (filter (hasText T) columnA) in
      if (lastRowWithDataInColA =? 0)%nat then []
      else
        match mapOutcome (toStringOf T) (firstn lastRowWithDataInColA columnA) with
        | Threw _ => []
        | Returned texts =>
            filter (fun name => negb (name =? "")%string) (map trim texts)
        end
  end.

(** The pipeline of the second script file: the Wednesday centres are read
    from the Configuration sheet once the rows are sorted into the three
    arrays. *)
Definition getDataForDashboard (T : Texts) (sheet : option table)
  (configuration : option (list value)) (currentMonth : string)
  (requestedMonth : option string) : dashboard :=
  match sheet with
  | None => loadFailure P [] None ("Sheet '" ++ SHEET_NAME ++ "' not found!")
  | Some rawData =>
      if (List.length rawData <=? HEADER_ROWS)%nat then noData "No data rows found."
      else
        match firstPassLoop parseDateValue HEADER_ROWS (skipn HEADER_ROWS rawData)
                {| availableMonthsSet := []; allValidDataItems := [] |} with
        | PassFailed st thrown =>
            loadFailure P (availableMonthsSet st) None (errorMessage thrown)
        | PassDone st =>
            let sortedAvailableMonths := sortedDownwards P (availableMonthsSet st) in
            match selectMonth requestedMonth (availableMonthsSet st) currentMonth
                    sortedAvailableMonths with
            | None => noData "No data with valid dates found."
            | Some actualSelectedMonth =>
                let filteredDataItems :=
                  filter (ofMonth actualSelectedMonth) (allValidDataItems st) in
                let b := categorize filteredDataItems in
                let wednesdayStaticCenters :=
                  getStaticWednesdayCentersFromSheet T configuration in
                match processAndSortData (sundayRows b) actualSelectedMonth true
                        (Some customCentreOrder) with
                | Threw thrown =>
                    loadFailure P (availableMonthsSet st) (Some actualSelectedMonth)
                      (errorMessage thrown)
                | Returned sundayResult =>
                    match processAndSortData (wednesdayRows b) actualSelectedMonth false
                            (Some wednesdayStaticCenters) with
                    | Threw thrown =>
                        loadFailure P (availableMonthsSet st) (Some actualSelectedMonth)
                          (errorMessage thrown)
                    | Returned wednesdayResult =>
                        {| sunday := Some sundayResult;
                           wednesday := Some wednesdayResult;
                           special := processSpecialSatsangList P (specialRows b);
                           error := None;
                           availableMonths := rev sortedAvailableMonths;
                           selectedMonth := Some actualSelectedMonth;
                           staticWednesdayCentersList := Some wednesdayStaticCenters |}
                    end
                end
            end
        end
  end.

(** The Sunday part of the report: an entry for each row that has no cell
    for one of the dates. *)
Definition sundayEntries (sundayResult : option pivotResult) : list missingEntry :=
  match sundayResult with
  | Some result =>
      match templateData result, sortedDates result with
      | [], _ => []
      | _, [] => []
      | rows, sundayDates =>
          flat_map
            (fun center =>
               match missingDatesOf sundayDates (rowDateData center) with
               | [] => []
               | missingDates =>
                   [ {| centerName := centre center; day := "Sunday";
                        dates := missingDates |} ]
               end)
            rows
      end
  | None => []
  end.

(** The Wednesday part: an entry for each centre of the Configuration sheet
    that has no row, or whose row has no cell for one of the dates. *)
Definition wednesdayEntries (staticWednesdayCenters : list string)
  (wednesdayResult : option pivotResult) : list missingEntry :=
  match staticWednesdayCenters, wednesdayResult with
  | [], _ => []
  | _, None => []
  | _, Some result =>
      match sortedDates result with
      | [] => []
      | wednesdayDates =>
          flat_map
            (fun name =>
               let missingDatesForThisCenter :=
                 match find (fun row => (centre row =? name)%string)
                         (templateData result) with
                 | None => wednesdayDates
                 | Some centerData => missingDatesOf wednesdayDates (rowDateData centerData)
                 end in
               match missingDatesForThisCenter with
               | [] => []
               | _ => [ {| centerName := name; day := "Wednesday";
                           dates := missingDatesForThisCenter |} ]
               end)
            staticWednesdayCenters
      end
  end.

(** [findMissingDateEntries] of the second script file. *)
Definition findMissingDateEntries (T : Texts) (sheet : option table)
  (configuration : option (list value)) (clockMonth : string)
  (selectedMonth : option string) : outcome (list missingEntry) :=
  let currentMonth :=
    match selectedMonth with
    | Some m => if (m =? "")%string then clockMonth else m
    | None => clockMonth
    end in
  let processedDataResult :=
    getDataForDashboard T sheet configuration clockMonth (Some currentMonth) in
  let entries :=
    (sundayEntries (sunday processedDataResult)
     ++ wednesdayEntries (getStaticWednesdayCentersFromSheet T configuration)
          (wednesday processedDataResult))%list in
  match error processedDataResult with
  | Some message =>
      if (message =? "")%string then Returned entries
      else Threw ("Error: " ++ message)
  | None => Returned entries
  end.

End WithPlatform.
End Part000.


(** ** The first pass over the table *)

(** The rows after the header, each as its underlying and its display form;
    a row whose date normalizes to a non-empty string becomes an item, any
    other row is skipped. *)
Definition firstPassRow (parseDateValue : value -> nat -> outcome (option string))
  (i : nat) (row : list value * list cell) : outcome (list dataItem) :=
  bind (parseDateValue (valueAt (fst row) (COL_DATE - 1)) i) (fun parsedYMD =>
    if truthyText parsedYMD
    then Returned [ {| valueRow := fst row; displayRow := snd row; ymd := parsedYMD |} ]
    else Returned []).

Fixpoint firstPassFrom (parseDateValue : value -> nat -> outcome (option string))
  (i : nat) (rows : list (list value * list cell)) : outcome (list dataItem) :=
  match rows with
  | [] => Returned []
  | row :: rest =>
      bind (firstPassRow parseDateValue i row) (fun items =>
      bind (firstPassFrom parseDateValue (S i) rest) (fun more =>
        Returned (items ++ more)%list))
  end.

Definition firstPass (parseDateValue : value -> nat -> outcome (option string))
  (table : list (list value * list cell)) : outcome (list dataItem) :=
  firstPassFrom parseDateValue HEADER_ROWS (skipn HEADER_ROWS table).

(** ** What the language promises of a sort *)

Definition isEq (c : comparison) : bool :=
  match c with Eq => true | _ => false end.

(** A comparator that is consistent on the elements of a list: it orders
    them as a total preorder. *)
Definition ConsistentOn {A : Type} (cmp : A -> A -> comparison) (l : list A) : Prop :=
  (forall a, In a l -> cmp a a = Eq) /\
  (forall a b, In a l -> In b l -> cmp b a = CompOpp (cmp a b)) /\
  (forall a b c, In a l -> In b l -> In c l ->
     cmp a b <> Gt -> cmp b c <> Gt -> cmp a c <> Gt).

(** A total order on the elements of a list: consistent, and only equal
    elements compare as equal. *)
Definition TotalOrderOn {A : Type} (cmp : A -> A -> comparison) (l : list A) : Prop :=
  ConsistentOn cmp l /\ (forall a b, In a l -> In b l -> cmp a b = Eq -> a = b).

(** [Array.prototype.sort] returns the elements it was given; with a
    consistent comparator they come back in ascending order, elements that
    compare as equal in the order they had. *)
Definition SortConforms (P : Platform) : Prop :=
  forall (A : Type) (cmp : A -> A -> comparison) (l : list A),
    Permutation l (arraySort P A cmp l) /\
    (ConsistentOn cmp l ->
       StronglySorted (fun a b => cmp a b <> Gt) (arraySort P A cmp l) /\
       forall x, In x l ->
         filter (fun y => isEq (cmp x y)) (arraySort P A cmp l)
         = filter (fun y => isEq (cmp x y)) l).

(** ** A reference platform

    A platform to run the script on: one time zone, GMT+5:30, whatever zone
    is named; a date parser that takes exactly the digits and separators of
    the pattern and a day that exists in the calendar, and raises on
    anything else; byte-wise string comparison; a stable insertion sort. *)

Module Reference.

Definition zoneOffset : Z := 19800000.
Definition msPerDay : Z := 86400000.

Definition isLeapYear (y : Z) : bool :=
  ((y mod 4 =? 0) && negb (y mod 100 =? 0)) || (y mod 400 =? 0).

Definition daysInMonth (y m : Z) : Z :=
  if m =? 2 then (if isLeapYear y then 29 else 28)
  else if (m =? 4) || (m =? 6) || (m =? 9) || (m =? 11) then 30
  else 31.

(** Days from 1 January 1970 to a day of the proleptic Gregorian calendar. *)
Definition daysFromCivil (y m d : Z) : Z :=
  let y' := if m <=? 2 then y - 1 else y in
  let era := y' / 400 in
  let yoe := y' - era * 400 in
  let doy := (153 * (if 2 <? m then m - 3 else m + 9) + 2) / 5 + d - 1 in
  let doe := yoe * 365 + yoe / 4 - yoe / 100 + doy in
  era * 146097 + doe - 719468.

Definition civilFromDays (z : Z) : Z * Z * Z :=
  let z' := z + 719468 in
  let era := z' / 146097 in
  let doe := z' - era * 146097 in
  let yoe := (doe - doe / 1460 + doe / 36524 - doe / 146096) / 365 in
  let doy := doe - (365 * yoe + yoe / 4 - yoe / 100) in
  let mp := (5 * doy + 2) / 153 in
  let d := doy - (153 * mp + 2) / 5 + 1 in
  let m := if mp <? 10 then mp + 3 else mp - 9 in
  ((if m <=? 2 then yoe + era * 400 + 1 else yoe + era * 400), m, d).

(** A date pattern as runs of a pattern letter and literal characters. *)
Inductive token : Type :=
| Field (letter : ascii) (width : nat)
| Literal (a : ascii).

Definition isPatternLetter (a : ascii) : bool :=
  Ascii.eqb a "y" || Ascii.eqb a "M" || Ascii.eqb a "d".

Fixpoint tokens (pattern : string) : list token :=
  match pattern with
  | EmptyString => []
  | String a r =>
      if isPatternLetter a then
        match tokens r with
        | Field b n :: ts => if Ascii.eqb a b then Field a (S n) :: ts
                             else Field a 1 :: Field b n :: ts
        | ts => Field a 1 :: ts
        end
      else Literal a :: tokens r
  end.

(** Exactly [n] digits at the head of a text. *)
Fixpoint readDigits (n : nat) (acc : Z) (text : string) : option (Z * string) :=
  match n with
  | O => Some (acc, text)
  | S n' =>
      match text with
      | EmptyString => None
      | String a r =>
          match digitValue a with
          | Some d => readDigits n' (10 * acc + Z.of_N d) r
          | None => None
          end
      end
  end.

Record fields : Type := { fYear : option Z; fMonth : option Z; fDay : option Z }.

Definition setField (letter : ascii) (v : Z) (f : fields) : fields :=
  if Ascii.eqb letter "y" then {| fYear := Some v; fMonth := fMonth f; fDay := fDay f |}
  else if Ascii.eqb letter "M" then {| fYear := fYear f; fMonth := Some v; fDay := fDay f |}
  else {| fYear := fYear f; fMonth := fMonth f; fDay := Some v |}.

Fixpoint readTokens (ts : list token) (text : string) (f : fields) : option fields :=
  match ts with
  | [] => match text with EmptyString => Some f | _ => None end
  | Field letter width :: rest =>
      match readDigits width 0 text with
      | Some (v, text') => readTokens rest text' (setField letter v f)
      | None => None
      end
  | Literal a :: rest =>
      match text with
      | String b text' => if Ascii.eqb a b then readTokens rest text' f else None
      | EmptyString => None
      end
  end.

(** The day a text denotes under a pattern, if it is a day of the calendar. *)
Definition readDay (text pattern : string) : option Z :=
  match readTokens (tokens pattern) text
          {| fYear := None; fMonth := None; fDay := None |} with
  | Some {| fYear := Some y; fMonth := Some m; fDay := Some d |} =>
      if (1 <=? m) && (m <=? 12) && (1 <=? d) && (d <=? daysInMonth y m)
      then Some (daysFromCivil y m d)
      else None
  | _ => None
  end.

Definition parseDate (text timeZone pattern : string) : parsed :=
  match readDay text pattern with
  | Some day => Parsed (Some (day * msPerDay - zoneOffset))
  | None => Raised
  end.

Fixpoint zeros (n : nat) : string :=
  match n with O => EmptyString | S n' => String "0" (zeros n') end.

Definition padded (width : nat) (v : Z) : string :=
  let digits := decimal (Z.to_nat v) in
  zeros (width - String.length digits) ++ digits.

Definition writeToken (y m d : Z) (t : token) : string :=
  match t with
  | Field letter width =>
      padded width (if Ascii.eqb letter "y" then y
                    else if Ascii.eqb letter "M" then m else d)
  | Literal a => String a EmptyString
  end.

Definition formatDate (t : Z) (timeZone pattern : string) : option string :=
  let '(y, m, d) := civilFromDays ((t + zoneOffset) / msPerDay) in
  Some (String.concat "" (map (writeToken y m d) (tokens pattern))).

(** [new Date(text)]: the reference reads an ISO day as UTC midnight. *)
Definition dateOfText (text : string) : option Z :=
  option_map (fun day => day * msPerDay) (readDay text "yyyy-MM-dd").

(** [new Date(year, month, day)]: local midnight, months counted from 0
    and carried into the year, days carried into the month. *)
Definition dateOfParts (year month day : option Z) : option Z :=
  match year, month, day with
  | Some y, Some m, Some d =>
      let y := if (0 <=? y) && (y <=? 99) then 1900 + y else y in
      Some ((daysFromCivil (y + m / 12) (m mod 12 + 1) 1 + (d - 1)) * msPerDay
            - zoneOffset)
  | _, _, _ => None
  end.

Definition fullYear (t : Z) : Z :=
  fst (fst (civilFromDays ((t + zoneOffset) / msPerDay))).

Definition timezoneOffset (t : Z) : Z := -330.

(** A stable insertion sort: an element goes behind every element that
    does not compare as greater than it. *)
Fixpoint insert {A : Type} (cmp : A -> A -> comparison) (x : A) (l : list A)
  : list A :=
  match l with
  | [] => [x]
  | y :: rest =>
      match cmp x y with
      | Lt => x :: l
      | _ => y :: insert cmp x rest
      end
  end.

Definition sort (A : Type) (cmp : A -> A -> comparison) (l : list A) : list A :=
  fold_left (fun sorted x => insert cmp x sorted) l [].

(** Digits, and digits after a point, read as a rational. *)
Fixpoint fraction (scale : positive) (acc : Z) (text : string) : Q :=
  match text with
  | String a r =>
      match digitValue a with
      | Some d => fraction (scale * 10) (10 * acc + Z.of_N d) r
      | None => acc # scale
      end
  | EmptyString => acc # scale
  end.

Fixpoint unsignedFloat (seen : bool) (acc : Z) (text : string) : option Q :=
  match text with
  | String a r =>
      match digitValue a with
      | Some d => unsignedFloat true (10 * acc + Z.of_N d) r
      | None =>
          if Ascii.eqb a "." then
            match r with
            | String b _ =>
                match digitValue b with
                | Some _ => Some (inject_Z acc + fraction 1 0 r)%Q
                | None => if seen then Some (inject_Z acc) else None
                end
            | EmptyString => if seen then Some (inject_Z acc) else None
            end
          else if seen then Some (inject_Z acc) else None
      end
  | EmptyString => if seen then Some (inject_Z acc) else None
  end.

Definition floatOfText (text : string) : option Q :=
  match trimStart text with
  | String "-" r => option_map Qopp (unsignedFloat false 0 r)
  | String "+" r => unsignedFloat false 0 r
  | r => unsignedFloat false 0 r
  end.

(** One decimal place, halves rounded away from zero. *)
Definition fixed1 (x : Q) : string :=
  let tenths := Qfloor (Qabs x * inject_Z 10 + (1 # 2))%Q in
  (if Qltb x 0 && (0 <? tenths) then "-" else "")
    ++ decimal (Z.to_nat (tenths / 10)) ++ "." ++ decimal (Z.to_nat (tenths mod 10)).

Definition platform : Platform :=
  {| sessionTimeZone := "GMT+5:30";
     utilParseDate := parseDate;
     utilFormatDate := formatDate;
     dateOfString := dateOfText;
     dateOfFields := dateOfParts;
     getFullYear := fullYear;
     getTimezoneOffset := timezoneOffset;
     localeCompare := String.compare;
     arraySort := sort;
     parseFloat := floatOfText;
     toFixed1 := fixed1 |}.

End Reference.

(** ** The words of the specification *)

(** An attempt yields a valid date when the parse returns a date that has a
    time value. *)
Definition validDate (r : parsed) : option Z :=
  match r with
  | Parsed (Some t) => Some t
  | _ => None
  end.

(** The first attempt of a list that yields a valid date. *)
Fixpoint firstValid (attempts : list parsed) : option Z :=
  match attempts with
  | [] => None
  | r :: rest =>
      match validDate r with
      | Some t => Some t
      | None => firstValid rest
      end
  end.

(** The priority order the specification gives, and the order of the
    attempts in [Code.js]. *)
Definition priorityOrder : list string :=
  [ "yyyy-MM-dd"; "dd-MM-yyyy"; "dd/MM/yyyy"; "MM/dd/yyyy" ].

Definition codeJsOrder : list string :=
  [ "dd-MM-yyyy"; "yyyy-MM-dd"; "dd/MM/yyyy"; "MM/dd/yyyy" ].

(** Not greater, under a comparator. *)
Definition notGreater {A : Type} (cmp : A -> A -> comparison) (a b : A) : Prop :=
  cmp a b <> Gt.

(** The object built from a display row holds exactly the fields of the
    columns, each the display cell with [null] and [undefined] replaced by
    the empty string, and so no field that is [null] or [undefined]. *)
Definition FieldsOf (columns : list column) (row : list cell) (o : jsobject cell)
  : Prop :=
  map fst o = map key columns
  /\ (forall col, In col columns ->
        getProp (key col) o = Some (orEmpty (cellAt row (index col))))
  /\ (forall field v, In (field, v) o -> v <> CNull /\ v <> CUndefined).

(** The sort key of an event, and its centre field. *)
Definition sortKey (e : specialEvent) : string :=
  match ymdForSort e with
  | Some y => y
  | None => ""
  end.

Definition centreField (e : specialEvent) : option cell :=
  getProp "centre" (eventFields e).

(** A row of a bucket as the aggregator files it: under a centre and a
    display date key, with its ISO date. *)
Record bucketRow : Type := {
  brCentre : string;
  brKey : string;
  brYmd : string;
  brItem : dataItem
}.

Section Words.
Variable P : Platform.

(** The rows of a bucket that carry a date, in input order. *)
Fixpoint rowsFrom (dataItems : list dataItem) (index : nat) : list bucketRow :=
  match dataItems with
  | [] => []
  | item :: rest =>
      match ymd item with
      | Some y =>
          if (y =? "")%string then rowsFrom rest (S index)
          else
            {| brCentre := centreNameOf (displayRow item) index;
               brKey := datePivotKeyOf P y;
               brYmd := y;
               brItem := item |} :: rowsFrom rest (S index)
      | None => rowsFrom rest (S index)
      end
  end.

Definition bucketRows (dataItems : list dataItem) : list bucketRow :=
  rowsFrom dataItems 0.

(** The (date key, row) pairs of one centre, in input order. *)
Definition cellsOf (c : string) (rows : list bucketRow)
  : list (string * dataItem) :=
  map (fun r => (brKey r, brItem r))
    (filter (fun r => (brCentre r =? c)%string) rows).

(** The first row seen for each date key not seen before. *)
Fixpoint firstRows (seen : list string) (cells : list (string * dataItem))
  : list (string * dataItem) :=
  match cells with
  | [] => []
  | (k, item) :: rest =>
      if includes seen k then firstRows seen rest
      else (k, item) :: firstRows (seen ++ [k]) rest
  end.

(** A row carries a numeric metric when the number read from its
    underlying attendance cell, commas stripped, is not NaN. *)
Definition hasNumericMetric (item : dataItem) : bool :=
  match numericSangatOf P (valueAt (valueRow item) (COL_SANGAT - 1)) with
  | Some _ => true
  | None => false
  end.

Definition addMetric (sum : Q) (cell : string * dataItem) : Q :=
  match numericSangatOf P (valueAt (valueRow (snd cell)) (COL_SANGAT - 1)) with
  | Some n => (sum + n)%Q
  | None => sum
  end.



(** A row has no cell for some date key of a list. *)
Definition LacksACell (dateKeys : list string) (row : templateRow) : Prop :=
  exists k, In k dateKeys /\ getProp k (rowDateData row) = None.

(** The loop body, seen from the rows: what a row does to
    [processedData], to [uniqueDateInfo], and to the aggregate of its
    own centre. *)
Definition stepCentres (processedData : jsobject centreData) (r : bucketRow)
  : jsobject centreData :=
  setProp (brCentre r)
    (addRow P (brKey r) (brItem r)
       (match getProp (brCentre r) processedData with
        | Some c => c
        | None => newCentre
        end))
    processedData.

Definition stepDates (uniqueDateInfo : jsobject string) (r : bucketRow)
  : jsobject string :=
  if truthyText (getProp (brKey r) uniqueDateInfo) then uniqueDateInfo
  else setProp (brKey r) (brYmd r) uniqueDateInfo.

Definition foldCells (a : centreData) (cells : list (string * dataItem))
  : centreData :=
  fold_left (fun a cell => addRow P (fst cell) (snd cell) a) cells a.

(** The two objects the loop leaves for a bucket. *)
Definition processedDataOf (dataItems : list dataItem) : jsobject centreData :=
  fst (forEachItem P dataItems 0 ([], [])).

Definition uniqueDateInfoOf (dataItems : list dataItem) : jsobject string :=
  snd (forEachItem P dataItems 0 ([], [])).

(** The pivot cell a row leaves. *)
Definition cellOf (first : string * dataItem) : string * jsobject cell :=
  (fst first, eventDetailsOf (displayRow (snd first))).

End Words.

(** ** Words for the pipeline *)

(** The ISO date of an item. *)
Definition ymdOf (item : dataItem) : string :=
  match ymd item with
  | Some y => y
  | None => ""
  end.

(** A month has data when a valid item lies in it. *)
Definition hasData (items : list dataItem) (month : string) : Prop :=
  exists item, In item items /\ monthOf (ymdOf item) = month.

(** The months of a list of items, added to a set one after the other. *)
Definition monthsOf (items : list dataItem) (set : list string) : list string :=
  fold_left (fun set item => setAdd (monthOf (ymdOf item)) set) items set.

(** Where the categorizing loop puts a row: a row with a centre name goes
    by its weekday label, and a row without a label goes nowhere. *)
Definition isSundayRow (item : dataItem) : bool :=
  negb (centreIsBlank (displayRow item))
  && isSundayLabel (dayValueOf (displayRow item)).

Definition isWednesdayRow (item : dataItem) : bool :=
  negb (centreIsBlank (displayRow item))
  && negb (isSundayLabel (dayValueOf (displayRow item)))
  && isWednesdayLabel (dayValueOf (displayRow item)).

Definition isSpecialRow (item : dataItem) : bool :=
  negb (centreIsBlank (displayRow item))
  && negb (isSundayLabel (dayValueOf (displayRow item)))
  && negb (isWednesdayLabel (dayValueOf (displayRow item)))
  && negb (dayValueOf (displayRow item) =? "")%string.

(** The line of the missing-dates report of [Code.js] for a row. *)
Definition reportLine (day : string) (dates : list string) (row : templateRow)
  : string :=
  centre row ++ " (" ++ day ++ "): "
  ++ String.concat ", " (missingDatesOf dates (rowDateData row)).

(** A result of the pipeline is whole or empty: without an error both
    pivots and the selected month are there, with an error both pivots are
    [null] and no special event is listed. *)
Definition allOrNothing (d : dashboard) : Prop :=
  match error d with
  | None => sunday d <> None /\ wednesday d <> None /\ selectedMonth d <> None
  | Some _ => sunday d = None /\ wednesday d = None /\ special d = []
  end.

(** A text without a comma, as the identifiers of Drive files are. *)
Fixpoint commaFree (s : string) : bool :=
  match s with
  | EmptyString => true
  | String a r => negb (Ascii.eqb a ",") && commaFree r
  end.

(** The cleanup list after a run of exports, each with the identifiers of
    its temporary spreadsheet and of its Excel file. *)
Definition recordExports (prop : option string) (exports : list (string * string))
  : option string :=
  fold_left (fun prop export => Some (addToCleanupList prop (fst export) (snd export)))
    exports prop.

(** The rows of a result stand for the aggregates: a row holds the cells
    of the aggregate of its centre, or no cell when the centre has none,
    and every centre with an aggregate has a row. *)
Definition RowsOfAggregates (P : Platform) (dataItems : list dataItem)
  (r : pivotResult) : Prop :=
  sortedDates r = sortedDateKeysOf P (uniqueDateInfoOf P dataItems)
  /\ (forall row, In row (templateData r) ->
        rowDateData row = []
        \/ exists agg,
             getProp (centre row) (processedDataOf P dataItems) = Some agg
             /\ rowDateData row = dateData agg)
  /\ (forall c agg,
        getProp c (processedDataOf P dataItems) = Some agg ->
        exists row, In row (templateData r) /\ rowDateData row = dateData agg).

(** ** Buckets of the examples *)

(** Two Sunday rows across a year boundary, the later one first. *)
Definition yearBoundaryBucket : list dataItem :=
  [ {| valueRow := [VStr "Sunday"; VStr "2024-01-07"; VStr "ALWAR"; VNum 120];
       displayRow := [CText "Sunday"; CText "07-01-2024"; CText "ALWAR"; CText "120"];
       ymd := Some "2024-01-07" |};
    {| valueRow := [VStr "Sunday"; VStr "2023-12-31"; VStr "ALWAR"; VNum 80];
       displayRow := [CText "Sunday"; CText "31-12-2023"; CText "ALWAR"; CText "80"];
       ymd := Some "2023-12-31" |} ].


(** The scenario of the specification: A on two Sundays, B on the first of
    them with an empty attendance cell. *)
Definition scenarioBucket : list dataItem :=
  [ {| valueRow := [VStr "Sunday"; VStr "2024-03-03"; VStr "A"; VNum 100];
       displayRow := [CText "Sunday"; CText "03-03-2024"; CText "A"; CText "100"];
       ymd := Some "2024-03-03" |};
    {| valueRow := [VStr "Sunday"; VStr "2024-03-10"; VStr "A"; VNum 200];
       displayRow := [CText "Sunday"; CText "10-03-2024"; CText "A"; CText "200"];
       ymd := Some "2024-03-10" |};
    {| valueRow := [VStr "Sunday"; VStr "2024-03-03"; VStr "B"; VStr ""];
       displayRow := [CText "Sunday"; CText "03-03-2024"; CText "B"; CText ""];
       ymd := Some "2024-03-03" |} ].

(** ALWAR on two Sundays, ZED (not a centre of the fixed order) on the
    first of them only. *)
Definition extraCentreBucket : list dataItem :=
  [ {| valueRow := [VStr "Sunday"; VStr "2024-03-03"; VStr "ALWAR"; VNum 100];
       displayRow := [CText "Sunday"; CText "03-03-2024"; CText "ALWAR"; CText "100"];
       ymd := Some "2024-03-03" |};
    {| valueRow := [VStr "Sunday"; VStr "2024-03-10"; VStr "ALWAR"; VNum 200];
       displayRow := [CText "Sunday"; CText "10-03-2024"; CText "ALWAR"; CText "200"];
       ymd := Some "2024-03-10" |};
    {| valueRow := [VStr "Sunday"; VStr "2024-03-03"; VStr "ZED"; VNum 50];
       displayRow := [CText "Sunday"; CText "03-03-2024"; CText "ZED"; CText "50"];
       ymd := Some "2024-03-03" |} ].

(** A row of the special bucket, known by its centre. *)
Definition specialItem (centreName : string) (date : option string) : dataItem :=
  {| valueRow := [VStr "Monday"; VNull; VStr centreName];
     displayRow := [CText "Monday"; CText "-"; CText centreName];
     ymd := date |}.

(** Three events, two of them on one day, the later day first. *)
Definition sameDayBucket : list dataItem :=
  [ specialItem "A" (Some "2024-03-09"); specialItem "B" (Some "2024-03-05");
    specialItem "C" (Some "2024-03-05") ].

(** Six events in the order A to F; D has no sort key and F has the earliest
    date. *)
Definition keylessBucket : list dataItem :=
  [ specialItem "A" (Some "2024-03-02"); specialItem "B" (Some "2024-03-03");
    specialItem "C" (Some "2024-03-04"); specialItem "D" None;
    specialItem "E" (Some "2024-03-05"); specialItem "F" (Some "2024-03-01") ].

Definition isDorF (e : specialEvent) : bool :=
  match centreField e with
  | Some (CText s) => (s =? "D")%string || (s =? "F")%string
  | _ => false
  end.

(** A row whose display form stops after the centre and holds a null. *)
Definition shortRowBucket : list dataItem :=
  [ {| valueRow := [VStr "Sunday"; VStr "2024-03-03"; VStr "ALWAR"];
       displayRow := [CText "Sunday"; CNull; CText "ALWAR"];
       ymd := Some "2024-03-03" |} ].

(** ** Proof steps *)

(** Distinctness of the keys of a list of columns. *)
Ltac distinct_keys :=
  repeat (constructor;
          [simpl; intros H;
           repeat (destruct H as [H|H]; [discriminate H|]); exact H|]);
  constructor.

(** ** Sheets of the examples *)

Definition sheetRow (day date centreName : string) (sangat : nat)
  : list value * list cell :=
  ([VStr day; VStr date; VStr centreName; VNum (inject_Z (Z.of_nat sangat))],
   [CText day; CText date; CText centreName; CText (decimal sangat)]).

(** A header and five rows: two Sundays and a Wednesday of March 2024, an
    event of February, and a row whose date is no date. *)
Definition exampleSheet : table :=
  [ ([VStr "Day"; VStr "Date"; VStr "Centre"; VStr "Sangat"],
     [CText "Day"; CText "Date"; CText "Centre"; CText "Sangat"]);
    sheetRow "Sunday" "03-03-2024" "ALWAR" 100;
    sheetRow "बुधवार" "06-03-2024" "ALWAR" 40;
    sheetRow "Monday" "05-02-2024" "BEHROR" 300;
    sheetRow "Sunday" "soon" "BHIWADI" 10;
    sheetRow " SUNDAY " "10-03-2024" "ALWAR-2" 50 ].

(** The items [Code.js] makes of the example sheet on the reference
    platform. *)
Definition exampleItems : list dataItem :=
  match firstPass (CodeJs.parseDateValue Reference.platform) exampleSheet with
  | Returned items => items
  | Threw _ => []
  end.

(** Numbers and dates written in a fixed way. *)
Definition plainTexts : Texts :=
  {| numberText := fun x => decimal (Z.to_nat (Qfloor x));
     dateText := fun _ => "Invalid Date" |}.

(** The Wednesday pivot of ALWAR, on two dates, and ZED, on the first. *)
Definition examplePivot : pivotResult :=
  match CodeJs.processAndSortData Reference.platform extraCentreBucket "2024-03" false with
  | Returned r => r
  | Threw _ => {| templateData := []; sortedDates := [] |}
  end.

(** The special list of three events. *)
Definition exampleEvents : list specialEvent :=
  processSpecialSatsangList Reference.platform sameDayBucket.

(** A conversion that succeeds. *)
Definition exampleConvert (book : workbook) : outcome string :=
  Returned ("https://drive.google.com/uc?export=download&id=" ++ bookName book).

(** * Properties *)

(** ** Objects *)

Section ObjectFacts.
Context {V : Type}.
Implicit Types (o : jsobject V) (k : string) (v : V).

Lemma getProp_setProp_same k v o : getProp k (setProp k v o) = Some v.
Proof.
  induction o as [|[k' v'] o IH]; simpl.
  - now rewrite String.eqb_refl.
  - destruct (k' =? k)%string eqn:E; simpl.
    + now rewrite String.eqb_refl.
    + now rewrite E.
Qed.

Lemma getProp_setProp_other k k' v o :
  k <> k' -> getProp k (setProp k' v o) = getProp k o.
Proof.
  intros Hne. induction o as [|[k0 v0] o IH]; simpl.
  - destruct (k' =? k)%string eqn:E; [apply String.eqb_eq in E; congruence | reflexivity].
  - destruct (k0 =? k')%string eqn:E; simpl.
    + apply String.eqb_eq in E. subst k0.
      destruct (k' =? k)%string eqn:E'; [apply String.eqb_eq in E'; congruence | reflexivity].
    + now rewrite IH.
Qed.

Lemma getProp_None_iff k o : getProp k o = None <-> ~ In k (map fst o).
Proof.
  induction o as [|[k' v'] o IH]; simpl.
  - tauto.
  - destruct (k' =? k)%string eqn:E.
    + apply String.eqb_eq in E. split; [discriminate | intros H; exfalso; apply H; now left].
    + apply String.eqb_neq in E. rewrite IH. tauto.
Qed.

Lemma getProp_Some_In k v o : getProp k o = Some v -> In (k, v) o.
Proof.
  induction o as [|[k' v'] o IH]; simpl; [discriminate|].
  destruct (k' =? k)%string eqn:E.
  - apply String.eqb_eq in E. intros [= ->]. subst. now left.
  - intros H. right. now apply IH.
Qed.

Lemma getProp_Some_key k v o : getProp k o = Some v -> In k (map fst o).
Proof.
  intros H. apply getProp_Some_In in H. now apply (in_map fst) in H.
Qed.

Lemma setProp_absent k v o : getProp k o = None -> setProp k v o = (o ++ [(k, v)])%list.
Proof.
  induction o as [|[k' v'] o IH]; simpl; [reflexivity|].
  destruct (k' =? k)%string; [discriminate|].
  intros H. now rewrite IH.
Qed.

Lemma setProp_keys_present k v v' o :
  getProp k o = Some v' -> map fst (setProp k v o) = map fst o.
Proof.
  induction o as [|[k0 v0] o IH]; simpl; [discriminate|].
  destruct (k0 =? k)%string eqn:E.
  - apply String.eqb_eq in E. now subst.
  - intros H. simpl. now rewrite IH.
Qed.

Lemma setProp_NoDup k v o : NoDup (map fst o) -> NoDup (map fst (setProp k v o)).
Proof.
  intros H. destruct (getProp k o) eqn:E.
  - now rewrite (setProp_keys_present _ _ _ _ E).
  - rewrite (setProp_absent _ _ _ E), map_app. simpl.
    apply getProp_None_iff in E.
    apply NoDup_app; [assumption | repeat constructor; intros [] | ].
    intros a Ha [<-|[]]. contradiction.
Qed.

Lemma includes_keys k o :
  includes (map fst o) k = match getProp k o with Some _ => true | None => false end.
Proof.
  unfold includes. induction o as [|[k' v'] o IH]; simpl; [reflexivity|].
  rewrite String.eqb_sym. destruct (k' =? k)%string; simpl; [reflexivity | apply IH].
Qed.
End ObjectFacts.

Lemma includes_true_iff l s : includes l s = true <-> In s l.
Proof.
  unfold includes. rewrite existsb_exists. split.
  - intros (x & Hx & E). apply String.eqb_eq in E. now subst.
  - intros H. exists s. split; [assumption | apply String.eqb_refl].
Qed.

Lemma includes_false_iff l s : includes l s = false <-> ~ In s l.
Proof.
  rewrite <- includes_true_iff. destruct (includes l s); split; congruence.
Qed.

Lemma filter_split_perm {A : Type} (f : A -> bool) (l : list A) :
  Permutation (filter f l ++ filter (fun x => negb (f x)) l) l.
Proof.
  induction l as [|a l IH]; simpl; [constructor|].
  destruct (f a); simpl.
  - now constructor.
  - apply Permutation_sym, Permutation_cons_app, Permutation_sym, IH.
Qed.

Lemma filter_none {A : Type} (f : A -> bool) (l : list A) :
  (forall w, In w l -> f w = false) -> filter f l = [].
Proof.
  induction l as [|a l IH]; simpl; intros H; [reflexivity|].
  rewrite (H a) by now left. apply IH. intros; apply H; now right.
Qed.

Lemma insertIndexKey_perm n k l :
  Permutation (insertIndexKey n k l) ((n, k) :: l).
Proof.
  induction l as [|[m k'] l IH]; simpl; [constructor; constructor|].
  destruct (n <=? m)%N; [apply Permutation_refl|].
  eapply perm_trans; [apply perm_skip, IH | apply perm_swap].
Qed.

Lemma indexKeys_perm keys :
  Permutation (map snd (indexKeys keys)) (filter isIndexKey keys).
Proof.
  induction keys as [|k keys IH]; simpl; [constructor|].
  unfold isIndexKey. destruct (arrayIndex k) as [n|]; [|assumption].
  eapply perm_trans.
  - apply Permutation_map, insertIndexKey_perm.
  - simpl. now constructor.
Qed.

(** [Object.keys] lists each own key once. *)
Lemma ownKeys_perm {V : Type} (o : jsobject V) : Permutation (ownKeys o) (map fst o).
Proof.
  unfold ownKeys. eapply perm_trans; [|apply (filter_split_perm isIndexKey)].
  apply Permutation_app_tail, indexKeys_perm.
Qed.

Lemma ownKeys_nil {V : Type} : ownKeys (@nil (string * V)) = [].
Proof. reflexivity. Qed.

(** ** Comparators and the reference sort *)


Lemma ConsistentOn_map {A B : Type} (f : A -> B) (cmp : B -> B -> comparison)
  (l : list A) :
  ConsistentOn cmp (map f l) -> ConsistentOn (fun a b => cmp (f a) (f b)) l.
Proof.
  intros (Hr & Ha & Ht). repeat split; intros.
  - apply Hr. now apply in_map.
  - apply Ha; now apply in_map.
  - apply Ht with (b := f b); try now apply in_map. all: assumption.
Qed.


Section ReferenceSort.
Context {A : Type}.
Variable cmp : A -> A -> comparison.
Variable D : A -> Prop.
Hypothesis cmp_refl : forall a, D a -> cmp a a = Eq.
Hypothesis cmp_opp : forall a b, D a -> D b -> cmp b a = CompOpp (cmp a b).
Hypothesis cmp_trans : forall a b c, D a -> D b -> D c ->
  cmp a b <> Gt -> cmp b c <> Gt -> cmp a c <> Gt.

Lemma insert_perm x l : Permutation (x :: l) (Reference.insert cmp x l).
Proof using Type.
  induction l as [|y l IH]; simpl; [apply Permutation_refl|].
  destruct (cmp x y); try apply Permutation_refl.
  all: eapply perm_trans; [apply perm_swap | apply perm_skip, IH].
Qed.

Lemma sort_perm l : Permutation l (Reference.sort A cmp l).
Proof using Type.
  unfold Reference.sort.
  assert (G : forall acc, Permutation (acc ++ l) (fold_left (fun s x => Reference.insert cmp x s) l acc)).
  { induction l as [|x l IH]; intros acc; simpl.
    - rewrite app_nil_r. apply Permutation_refl.
    - eapply perm_trans; [|apply IH].
      eapply perm_trans; [apply Permutation_sym, Permutation_middle|].
      change (x :: acc ++ l)%list with ((x :: acc) ++ l)%list.
      apply Permutation_app_tail, insert_perm. }
  apply (G []).
Qed.

Lemma sort_snoc l x :
  Reference.sort A cmp (l ++ [x]) = Reference.insert cmp x (Reference.sort A cmp l).
Proof using Type.
  unfold Reference.sort. now rewrite fold_left_app.
Qed.

Lemma insert_sorted x l :
  D x -> Forall D l -> StronglySorted (notGreater cmp) l ->
  StronglySorted (notGreater cmp) (Reference.insert cmp x l).
Proof using cmp_opp cmp_trans.
  intros Dx Dl Hs. induction Hs as [|y l Hs IH Hall]; simpl.
  - repeat constructor.
  - inversion Dl as [|? ? Dy Dl']; subst.
    destruct (cmp x y) eqn:E.
    + constructor; [now apply IH|].
      assert (Hyx : notGreater cmp y x) by (unfold notGreater; rewrite (cmp_opp x y Dx Dy), E; discriminate).
      eapply Permutation_Forall; [apply insert_perm|].
      constructor; assumption.
    + constructor; [now constructor|].
      assert (Hxy : notGreater cmp x y) by (unfold notGreater; rewrite E; discriminate).
      constructor; [assumption|].
      rewrite Forall_forall in *. intros z Hz.
      apply (cmp_trans x y z); auto. now apply Hall.
    + constructor; [now apply IH|].
      assert (Hyx : notGreater cmp y x) by (unfold notGreater; rewrite (cmp_opp x y Dx Dy), E; discriminate).
      eapply Permutation_Forall; [apply insert_perm|].
      constructor; assumption.
Qed.

(** Behind its class: an element goes behind the elements of a sorted
    list that compare as equal to it, and leaves the other classes alone. *)
Lemma insert_filter z x l :
  D z -> D x -> Forall D l -> StronglySorted (notGreater cmp) l ->
  filter (fun y => isEq (cmp z y)) (Reference.insert cmp x l)
  = (filter (fun y => isEq (cmp z y)) l
     ++ (if isEq (cmp z x) then [x] else []))%list.
Proof using cmp_refl cmp_opp cmp_trans.
  intros Dz Dx Dl Hs. induction Hs as [|y l Hs IH Hall]; simpl.
  - reflexivity.
  - inversion Dl as [|? ? Dy Dl']; subst.
    assert (Hlater : cmp x y = Lt -> isEq (cmp z x) = true ->
                     filter (fun y0 => isEq (cmp z y0)) (y :: l) = []).
    { intros Hxy Hzx.
      assert (Ezx : cmp z x = Eq) by (destruct (cmp z x); simpl in Hzx; congruence).
      assert (Hgt : forall w, D w -> notGreater cmp y w -> isEq (cmp z w) = false).
      { intros w Dw Hyw. destruct (cmp z w) eqn:Ezw; try reflexivity. exfalso.
        (* w <= z = x < y <= w *)
        assert (Hwz : notGreater cmp w z) by (unfold notGreater; rewrite (cmp_opp z w Dz Dw), Ezw; discriminate).
        assert (Hzx' : notGreater cmp z x) by (unfold notGreater; rewrite Ezx; discriminate).
        assert (Hyx : notGreater cmp y x).
        { apply (cmp_trans y w x); auto. apply (cmp_trans w z x); auto. }
        unfold notGreater in Hyx. rewrite (cmp_opp x y Dx Dy), Hxy in Hyx. now apply Hyx. }
      apply filter_none. rewrite Forall_forall in Hall, Dl'.
      intros w [<-|Hw].
      - apply Hgt; [assumption|]. unfold notGreater. rewrite (cmp_refl y Dy). discriminate.
      - apply Hgt; [now apply Dl' | now apply Hall]. }
    destruct (cmp x y) eqn:E; simpl.
    + rewrite (IH Dl'). now destruct (isEq (cmp z y)).
    + destruct (isEq (cmp z x)) eqn:Ezx.
      * specialize (Hlater eq_refl eq_refl). simpl in Hlater. rewrite Hlater.
        reflexivity.
      * now rewrite app_nil_r.
    + rewrite (IH Dl'). now destruct (isEq (cmp z y)).
Qed.

Lemma sort_sorted_stable l :
  Forall D l ->
  StronglySorted (notGreater cmp) (Reference.sort A cmp l) /\
  forall z, D z ->
    filter (fun y => isEq (cmp z y)) (Reference.sort A cmp l)
    = filter (fun y => isEq (cmp z y)) l.
Proof using cmp_refl cmp_opp cmp_trans.
  induction l as [|x l IH] using rev_ind; intros Dl.
  - split; [constructor | reflexivity].
  - apply Forall_app in Dl. destruct Dl as [Dl Dx]. inversion Dx; subst.
    destruct (IH Dl) as [Hs Hf].
    assert (Dsl : Forall D (Reference.sort A cmp l)).
    { eapply Permutation_Forall; [apply sort_perm | assumption]. }
    rewrite sort_snoc. split.
    + now apply insert_sorted.
    + intros z Dz. rewrite insert_filter, Hf, filter_app by assumption.
      simpl. now destruct (isEq (cmp z x)).
Qed.
End ReferenceSort.

Lemma reference_sort_conforms : SortConforms Reference.platform.
Proof.
  intros A cmp l. simpl. split; [apply sort_perm|].
  intros (Hr & Ha & Ht).
  destruct (sort_sorted_stable cmp (fun a => In a l) Hr Ha Ht l) as [Hs Hf].
  - rewrite Forall_forall. auto.
  - split; [exact Hs | exact Hf].
Qed.

Lemma string_compare_refl s : String.compare s s = Eq.
Proof. now apply String_as_OT.cmp_eq. Qed.

Lemma string_compare_le_trans a b c :
  String.compare a b <> Gt -> String.compare b c <> Gt -> String.compare a c <> Gt.
Proof.
  intros Hab Hbc.
  destruct (String.compare a b) eqn:Eab; try congruence.
  - apply String_as_OT.cmp_eq in Eab. now subst.
  - destruct (String.compare b c) eqn:Ebc; try congruence.
    + apply String_as_OT.cmp_eq in Ebc. subst. rewrite Eab. discriminate.
    + apply String_as_OT.cmp_lt in Eab, Ebc.
      pose proof (String_as_OT.lt_trans _ _ _ Eab Ebc) as H.
      apply String_as_OT.cmp_lt in H. unfold String_as_OT.cmp in H.
      rewrite H. discriminate.
Qed.

(** Byte-wise comparison is a total order on any strings. *)
Lemma string_compare_total l : TotalOrderOn String.compare l.
Proof.
  split; [repeat split|]; intros.
  - apply string_compare_refl.
  - apply String.compare_antisym.
  - eapply string_compare_le_trans; eassumption.
  - now apply String.compare_eq_iff.
Qed.

(** ** The date normalizer *)

Lemma part000_tryFormats_firstValid (P : Platform) (s : string) (formats : list string) :
  Part000.tryFormats P s formats
  = firstValid (map (utilParseDate P s (sessionTimeZone P)) formats).
Proof.
  induction formats as [|f formats IH]; simpl; [reflexivity|].
  unfold Part000.tryFormat, validDate.
  destruct (utilParseDate P s (sessionTimeZone P) f) as [|[t|]]; auto.
Qed.

Lemma part000_stringDate_firstValid (P : Platform) (s : string) :
  Part000.stringDate P s
  = firstValid (map (utilParseDate P s (sessionTimeZone P)) priorityOrder).
Proof.
  unfold Part000.stringDate, priorityOrder, Part000.preferredFormat.
  rewrite part000_tryFormats_firstValid. simpl.
  unfold Part000.tryFormat, validDate.
  destruct (utilParseDate P s (sessionTimeZone P) "yyyy-MM-dd") as [|[t|]]; reflexivity.
Qed.

(** In [Code.js] the attempt at a position decides when every attempt
    before it returned an invalid date without raising. *)
Lemma codejs_stringDate_priority (P : Platform) (s : string) (n : nat)
  (format : string) (t : Z) :
  nth_error codeJsOrder n = Some format ->
  (forall j f, (j < n)%nat -> nth_error codeJsOrder j = Some f ->
     utilParseDate P s SCRIPT_TIMEZONE f = Parsed None) ->
  utilParseDate P s SCRIPT_TIMEZONE format = Parsed (Some t) ->
  CodeJs.stringDate P s = Some t.
Proof.
  intros Hn Hbefore Hvalid. unfold CodeJs.stringDate.
  destruct n as [|[|[|[|n]]]]; simpl in Hn.
  - injection Hn as <-. now rewrite Hvalid.
  - injection Hn as <-.
    rewrite (Hbefore 0%nat "dd-MM-yyyy") by (auto; lia). now rewrite Hvalid.
  - injection Hn as <-.
    rewrite (Hbefore 0%nat "dd-MM-yyyy") by (auto; lia).
    rewrite (Hbefore 1%nat "yyyy-MM-dd") by (auto; lia). now rewrite Hvalid.
  - injection Hn as <-.
    rewrite (Hbefore 0%nat "dd-MM-yyyy") by (auto; lia).
    rewrite (Hbefore 1%nat "yyyy-MM-dd") by (auto; lia).
    rewrite (Hbefore 2%nat "dd/MM/yyyy") by (auto; lia). now rewrite Hvalid.
  - destruct n; discriminate.
Qed.

(** C1, as amended.  For a string that is not blank, the second script
    file takes the date of the first of yyyy-MM-dd, dd-MM-yyyy, dd/MM/yyyy,
    MM/dd/yyyy whose parse yields a valid date; [Code.js] goes through
    dd-MM-yyyy, yyyy-MM-dd, dd/MM/yyyy, MM/dd/yyyy and takes the date of a
    format when the parses before it returned an invalid date without
    raising. *)
Theorem C1_format_priority (P : Platform) (s : string) :
  trim s <> "" ->
  Part000.parsedDateObjOf P (VStr s)
  = firstValid (map (utilParseDate P (trim s) (sessionTimeZone P)) priorityOrder)
  /\
  forall n format t,
    nth_error codeJsOrder n = Some format ->
    (forall j f, (j < n)%nat -> nth_error codeJsOrder j = Some f ->
       utilParseDate P (trim s) SCRIPT_TIMEZONE f = Parsed None) ->
    utilParseDate P (trim s) SCRIPT_TIMEZONE format = Parsed (Some t) ->
    CodeJs.parsedDateOf P (VStr s) = Some t.
Proof.
  intros Hne. apply String.eqb_neq in Hne. split.
  - simpl. rewrite Hne. apply part000_stringDate_firstValid.
  - intros n format t Hn Hbefore Hvalid. simpl. rewrite Hne.
    eapply codejs_stringDate_priority; eassumption.
Qed.

(** When all four parses return an invalid date, [Code.js] falls back on
    the generic date constructor. *)
Lemma codejs_stringDate_generic (P : Platform) (s : string) :
  (forall f, In f codeJsOrder -> utilParseDate P s SCRIPT_TIMEZONE f = Parsed None) ->
  CodeJs.stringDate P s = dateOfString P s.
Proof.
  intros H. unfold CodeJs.stringDate.
  rewrite !H by (unfold codeJsOrder; simpl; auto 6). reflexivity.
Qed.

Lemma C1_format_priority_witness :
  Part000.parsedDateObjOf Reference.platform (VStr " 03-03-2024 ") = Some 1709404200000
  /\ CodeJs.parsedDateOf Reference.platform (VStr " 03-03-2024 ") = Some 1709404200000.
Proof.
  assert (Hne : trim " 03-03-2024 " <> "") by (vm_compute; discriminate).
  destruct (C1_format_priority Reference.platform " 03-03-2024 " Hne) as [Ha Hb].
  split.
  - rewrite Ha. vm_compute. reflexivity.
  - apply (Hb 0%nat "dd-MM-yyyy").
    + reflexivity.
    + intros j f Hj. lia.
    + vm_compute. reflexivity.
Defined.

(** C1 as stated fails on [Code.js]: for the canonical string 2024-03-03 the
    first format of the priority order that yields a valid date is
    yyyy-MM-dd, yet [Code.js], which starts with dd-MM-yyyy, is left without
    a date and returns null. *)
Lemma C1_priority_order_counterexample :
  firstValid (map (utilParseDate Reference.platform (trim "2024-03-03") SCRIPT_TIMEZONE)
                priorityOrder) = Some 1709404200000
  /\ CodeJs.parsedDateOf Reference.platform (VStr "2024-03-03") = None
  /\ CodeJs.parseDateValue Reference.platform (VStr "2024-03-03") 1 = Returned None.
Proof. vm_compute. repeat split; reflexivity. Qed.

(** Whatever date the second script file arrives at, it cannot format it:
    the last statement reads [parsedDate], which is declared nowhere. *)
Lemma part000_formatParsed_throws (P : Platform) (d : Z) :
  Part000.formatParsed P d = Threw "ReferenceError: parsedDate is not defined".
Proof. reflexivity. Qed.

Lemma part000_parseDateValue_outcomes (P : Platform) (v : value) (i : nat) :
  Part000.parseDateValue P v i
  = match Part000.parsedDateObjOf P v with
    | Some _ => Threw "ReferenceError: parsedDate is not defined"
    | None => Returned None
    end.
Proof.
  unfold Part000.parseDateValue. destruct (Part000.parsedDateObjOf P v); reflexivity.
Qed.

(** On a platform whose parser returns an invalid date for a text that does
    not fit the pattern, [Code.js] hands a canonical string back. *)
Lemma codejs_canonical_roundtrip (P : Platform) (d : string) (t : Z) (i : nat) :
  trim d = d -> d <> "" ->
  utilParseDate P d SCRIPT_TIMEZONE "dd-MM-yyyy" = Parsed None ->
  utilParseDate P d SCRIPT_TIMEZONE "yyyy-MM-dd" = Parsed (Some t) ->
  utilFormatDate P t SCRIPT_TIMEZONE "yyyy-MM-dd" = Some d ->
  CodeJs.parseDateValue P (VStr d) i = Returned (Some d).
Proof.
  intros Htrim Hne H1 H2 Hf. apply String.eqb_neq in Hne.
  unfold CodeJs.parseDateValue, CodeJs.parsedDateOf, CodeJs.stringDate.
  now rewrite Htrim, Hne, H1, H2, Hf.
Qed.

(** In [Code.js] a first attempt that raises already ends the parsing of a
    string. *)
Lemma codejs_first_attempt_raises (P : Platform) (s : string) (i : nat) :
  utilParseDate P (trim s) SCRIPT_TIMEZONE "dd-MM-yyyy" = Raised ->
  CodeJs.parseDateValue P (VStr s) i = Returned None.
Proof.
  intros H. unfold CodeJs.parseDateValue, CodeJs.parsedDateOf, CodeJs.stringDate.
  destruct (trim s =? "")%string; [reflexivity | now rewrite H].
Qed.

(** C2 at its failing input.  A canonical string that the yyyy-MM-dd parse
    accepts does not come back: the second script file raises a
    ReferenceError on its last statement, and [Code.js] returns null when
    its first attempt, dd-MM-yyyy, raises. *)
Theorem C2_canonical_string_not_returned (P : Platform) (d : string) (t : Z) (i : nat) :
  trim d <> "" ->
  utilParseDate P (trim d) (sessionTimeZone P) "yyyy-MM-dd" = Parsed (Some t) ->
  Part000.parseDateValue P (VStr d) i = Threw "ReferenceError: parsedDate is not defined"
  /\ (utilParseDate P (trim d) SCRIPT_TIMEZONE "dd-MM-yyyy" = Raised ->
      CodeJs.parseDateValue P (VStr d) i = Returned None).
Proof.
  intros Hne Hvalid. split.
  - rewrite part000_parseDateValue_outcomes. unfold Part000.parsedDateObjOf.
    apply String.eqb_neq in Hne. rewrite Hne.
    unfold Part000.stringDate, Part000.tryFormat, Part000.preferredFormat.
    now rewrite Hvalid.
  - apply codejs_first_attempt_raises.
Qed.

Lemma C2_canonical_string_not_returned_witness :
  utilFormatDate Reference.platform 1709404200000 SCRIPT_TIMEZONE "yyyy-MM-dd"
  = Some "2024-03-03"
  /\ Part000.parseDateValue Reference.platform (VStr "2024-03-03") 1
     = Threw "ReferenceError: parsedDate is not defined"
  /\ CodeJs.parseDateValue Reference.platform (VStr "2024-03-03") 1 = Returned None.
Proof.
  destruct (C2_canonical_string_not_returned Reference.platform "2024-03-03"
              1709404200000 1) as [Ha Hb].
  - vm_compute. discriminate.
  - vm_compute. reflexivity.
  - split; [vm_compute; reflexivity|]. split; [exact Ha|].
    apply Hb. vm_compute. reflexivity.
Defined.

(** The serial-number branch of the second script file. *)

Lemma Qltb_true (x y : Q) : Qltb x y = true <-> (x < y)%Q.
Proof.
  unfold Qltb. rewrite negb_true_iff. split.
  - intros H. apply Qnot_le_lt. intros Hle. apply Qle_bool_iff in Hle. congruence.
  - intros H. destruct (Qle_bool y x) eqn:E; [|reflexivity].
    apply Qle_bool_iff in E. exfalso. now apply (Qlt_not_le _ _ H).
Qed.

Lemma timeClip_bound (x : Q) (t : Z) :
  timeClip x = Some t -> (x <= inject_Z maxTime)%Q.
Proof.
  unfold timeClip. destruct (Qle_bool (Qabs x) (inject_Z maxTime)) eqn:E; [|discriminate].
  intros _. apply Qle_bool_iff in E.
  eapply Qle_trans; [apply Qle_Qabs | exact E].
Qed.

Lemma part000_serialDate_unlikely_year (P : Platform) (x : Q) (base t : Z) :
  dateOfFields P (Some 1899) (Some 11) (Some 30) = Some base ->
  Z.abs base <= maxTime ->
  timeClip (inject_Z base + x * 24 * 60 * 60 * 1000)%Q = Some t ->
  getFullYear P t < 1900 \/ 2100 < getFullYear P t ->
  Part000.serialDate P x = None.
Proof.
  intros Hbase Hrange Hclip Hyear. unfold Part000.serialDate.
  destruct (Qltb x 20000 && Qltb 70000 x
            && negb (Qeq_bool x (inject_Z (Qfloor x)))); [reflexivity|].
  rewrite Hbase. cbv zeta. rewrite Hclip.
  replace ((getFullYear P t <? 1900) || (2100 <? getFullYear P t)) with true.
  2:{ symmetry. apply orb_true_iff. rewrite !Z.ltb_lt. exact Hyear. }
  destruct (Qltb 1000000000000 x) eqn:Hbig; [|reflexivity].
  exfalso. apply Qltb_true in Hbig. apply timeClip_bound in Hclip.
  assert (Hb : (inject_Z (- maxTime) <= inject_Z base)%Q).
  { rewrite <- Zle_Qle. lia. }
  unfold maxTime in *. simpl in Hb. 
  revert Hclip Hb Hbig. generalize (inject_Z base). intros q Hclip Hb Hbig.
  unfold inject_Z in *. lra.
Qed.

(** C4, as amended.  For a positive number whose serial date is valid and
    falls before 1900 or after 2100, the second script file returns null;
    [Code.js] checks no year and goes on with the date it computed. *)
Theorem C4_serial_year_range (P : Platform) (x : Q) (base t : Z) (i : nat) :
  (0 < x)%Q ->
  dateOfFields P (Some 1899) (Some 11) (Some 30) = Some base ->
  Z.abs base <= maxTime ->
  timeClip (inject_Z base + x * 24 * 60 * 60 * 1000)%Q = Some t ->
  getFullYear P t < 1900 \/ 2100 < getFullYear P t ->
  Part000.parseDateValue P (VNum x) i = Returned None
  /\ CodeJs.parsedDateOf P (VNum x)
     = timeClip (inject_Z base + x * 24 * 60 * 60 * 1000
                 - inject_Z (getTimezoneOffset P t * 60 * 1000))%Q.
Proof.
  intros Hpos Hbase Hrange Hclip Hyear. apply Qltb_true in Hpos. split.
  - rewrite part000_parseDateValue_outcomes. simpl. rewrite Hpos.
    now rewrite (part000_serialDate_unlikely_year P x base t).
  - simpl. rewrite Hpos. unfold CodeJs.serialDate.
    rewrite Hbase. cbv zeta. now rewrite Hclip.
Qed.

Lemma C4_serial_year_range_witness :
  Part000.parseDateValue Reference.platform (VNum 100000) 1 = Returned None
  /\ CodeJs.parsedDateOf Reference.platform (VNum 100000) = Some 6430838400000.
Proof.
  destruct (C4_serial_year_range Reference.platform 100000 (-2209181400000)
              6430818600000 1) as [Ha Hb].
  - reflexivity.
  - reflexivity.
  - vm_compute. discriminate.
  - vm_compute. reflexivity.
  - right. vm_compute. reflexivity.
  - split; [exact Ha|]. rewrite Hb. vm_compute. reflexivity.
Defined.

(** C4 as stated fails on [Code.js]: the serial number 100000 resolves to a
    day of the year 2173 and is returned as a date, not rejected. *)
Lemma C4_year_range_counterexample :
  dateOfFields Reference.platform (Some 1899) (Some 11) (Some 30) = Some (-2209181400000)
  /\ timeClip (inject_Z (-2209181400000) + 100000 * 24 * 60 * 60 * 1000)%Q
     = Some 6430818600000
  /\ getFullYear Reference.platform 6430818600000 = 2173
  /\ CodeJs.parseDateValue Reference.platform (VNum 100000) 1
     = Returned (Some "2173-10-14").
Proof. vm_compute. repeat split; reflexivity. Qed.



(** ** The loop over the rows of a bucket *)

Section PivotFacts.
Variable P : Platform.

Lemma forEachItem_rows dataItems index st :
  forEachItem P dataItems index st
  = (fold_left (stepCentres P) (rowsFrom P dataItems index) (fst st),
     fold_left stepDates (rowsFrom P dataItems index) (snd st)).
Proof.
  revert index st. induction dataItems as [|item rest IH]; intros index [pd udi]; simpl.
  - reflexivity.
  - destruct (ymd item) as [y|] eqn:Ey; simpl; rewrite ?Ey.
    + destruct (y =? "")%string; simpl.
      * apply IH.
      * rewrite IH. reflexivity.
    + apply IH.
Qed.

Lemma rowsFrom_facts dataItems index r :
  In r (rowsFrom P dataItems index) ->
  brKey r = datePivotKeyOf P (brYmd r) /\ brYmd r <> ""
  /\ In (brItem r) dataItems /\ ymd (brItem r) = Some (brYmd r).
Proof.
  revert index. induction dataItems as [|item rest IH]; intros index; simpl; [tauto|].
  destruct (ymd item) as [y|] eqn:Ey.
  - destruct (y =? "")%string eqn:E.
    + intros H. destruct (IH _ H) as (? & ? & ? & ?). auto.
    + intros [<-|H]; simpl.
      * apply String.eqb_neq in E. auto.
      * destruct (IH _ H) as (? & ? & ? & ?). auto.
  - intros H. destruct (IH _ H) as (? & ? & ? & ?). auto.
Qed.

(** *** The aggregate of a centre *)

Lemma centres_get c rows pd :
  getProp c (fold_left (stepCentres P) rows pd)
  = match getProp c pd, cellsOf c rows with
    | None, [] => None
    | start, cells =>
        Some (foldCells P (match start with Some a => a | None => newCentre end) cells)
    end.
Proof.
  revert pd. induction rows as [|r rows IH]; intros pd; simpl.
  - destruct (getProp c pd); reflexivity.
  - rewrite IH. unfold cellsOf, stepCentres. simpl.
    destruct (brCentre r =? c)%string eqn:E.
    + apply String.eqb_eq in E. subst c. rewrite getProp_setProp_same. simpl.
      destruct (getProp (brCentre r) pd); reflexivity.
    + apply String.eqb_neq in E.
      rewrite getProp_setProp_other by congruence. reflexivity.
Qed.

Lemma centres_NoDup rows pd :
  NoDup (map fst pd) -> NoDup (map fst (fold_left (stepCentres P) rows pd)).
Proof.
  revert pd. induction rows as [|r rows IH]; intros pd H; simpl; [assumption|].
  apply IH. unfold stepCentres. now apply setProp_NoDup.
Qed.

Lemma cellsOf_nil_iff c rows :
  cellsOf c rows = [] <-> ~ In c (map brCentre rows).
Proof.
  unfold cellsOf. induction rows as [|r rows IH]; simpl; [tauto|].
  destruct (brCentre r =? c)%string eqn:E; simpl.
  - apply String.eqb_eq in E. split; [discriminate | intros H; exfalso; auto].
  - apply String.eqb_neq in E. rewrite IH. tauto.
Qed.

(** A centre has an aggregate exactly when some row names it. *)
Lemma centres_key_iff c rows :
  In c (map fst (fold_left (stepCentres P) rows [])) <-> In c (map brCentre rows).
Proof.
  pose proof (centres_get c rows []) as H. simpl in H.
  pose proof (getProp_None_iff c (fold_left (stepCentres P) rows [])) as Hn.
  pose proof (cellsOf_nil_iff c rows) as Hc.
  destruct (cellsOf c rows) eqn:E.
  - rewrite H in Hn. split; intros Hin.
    + exfalso. apply (proj1 Hn); auto.
    + exfalso. apply (proj1 Hc); auto.
  - split; intros Hin.
    + destruct (in_dec string_dec c (map brCentre rows)); [assumption|].
      apply Hc in n. discriminate.
    + destruct (in_dec string_dec c (map fst (fold_left (stepCentres P) rows [])));
        [assumption|].
      apply Hn in n. rewrite H in n. discriminate.
Qed.

Lemma addRow_present k item a d :
  getProp k (dateData a) = Some d -> addRow P k item a = a.
Proof. intros H. unfold addRow. now rewrite H. Qed.

Lemma addRow_absent k item a :
  getProp k (dateData a) = None ->
  dateData (addRow P k item a) = (dateData a ++ [cellOf (k, item)])%list
  /\ sangatCount (addRow P k item a)
     = (sangatCount a + if hasNumericMetric P item then 1 else 0)%nat
  /\ totalSangatSum (addRow P k item a) = addMetric P (totalSangatSum a) (k, item).
Proof.
  intros H. unfold addRow, hasNumericMetric, addMetric, cellOf. rewrite H. simpl.
  rewrite (setProp_absent _ _ _ H).
  destruct (numericSangatOf P (valueAt (valueRow item) _));
    simpl; repeat split; try reflexivity; lia.
Qed.

Lemma foldCells_spec cells : forall a,
  let firsts := firstRows (map fst (dateData a)) cells in
  dateData (foldCells P a cells) = (dateData a ++ map cellOf firsts)%list
  /\ sangatCount (foldCells P a cells)
     = (sangatCount a
        + List.length (filter (fun first => hasNumericMetric P (snd first)) firsts))%nat
  /\ totalSangatSum (foldCells P a cells)
     = fold_left (addMetric P) firsts (totalSangatSum a).
Proof.
  induction cells as [|[k item] cells IH]; intros a.
  - simpl. rewrite app_nil_r. auto.
  - change (foldCells P a ((k, item) :: cells))
      with (foldCells P (addRow P k item a) cells).
    cbn [firstRows]. rewrite includes_keys.
    destruct (getProp k (dateData a)) eqn:Ek.
    + rewrite (addRow_present _ _ _ _ Ek). apply IH.
    + destruct (addRow_absent k item a Ek) as (Hd & Hc & Hs).
      specialize (IH (addRow P k item a)). cbv zeta in IH.
      rewrite Hd, Hc, Hs, map_app in IH. simpl in IH.
      destruct IH as (Hd' & Hc' & Hs'). cbv zeta.
      rewrite Hd', Hc', Hs', <- app_assoc. simpl.
      repeat split.
      destruct (hasNumericMetric P item); simpl; lia.
Qed.

(** *** The first row of each date key *)

Lemma firstRows_In cells : forall seen k item,
  In (k, item) (firstRows seen cells)
  <-> ~ In k seen /\ find (fun cell => (fst cell =? k)%string) cells = Some (k, item).
Proof.
  induction cells as [|[k0 item0] cells IH]; intros seen k item; simpl.
  - split; [tauto | intros [_ H]; discriminate].
  - destruct (includes seen k0) eqn:Es.
    + apply includes_true_iff in Es. rewrite IH.
      destruct (k0 =? k)%string eqn:E.
      * apply String.eqb_eq in E. subst k0. tauto.
      * tauto.
    + apply includes_false_iff in Es. simpl. rewrite IH, in_app_iff. simpl.
      destruct (k0 =? k)%string eqn:E.
      * apply String.eqb_eq in E. subst k0. split.
        -- intros [H|[H _]]; [injection H as <-; auto | exfalso; auto].
        -- intros [_ H]. injection H as <-. auto.
      * apply String.eqb_neq in E. split.
        -- intros [H|[H1 H2]]; [congruence | split; [tauto | assumption]].
        -- intros [H1 H2]. right. split; [|assumption].
           intros [H|[H|[]]]; auto.
Qed.


Lemma find_key_some (cells : list (string * dataItem)) k :
  In k (map fst cells) ->
  exists item, find (fun cell => (fst cell =? k)%string) cells = Some (k, item).
Proof.
  induction cells as [|[k0 item0] cells IH]; simpl; [tauto|].
  destruct (k0 =? k)%string eqn:E.
  - apply String.eqb_eq in E. subst. eauto.
  - apply String.eqb_neq in E. intros [H|H]; [congruence | auto].
Qed.

Lemma firstRows_keys cells k :
  In k (map fst (firstRows [] cells)) <-> In k (map fst cells).
Proof.
  split.
  - intros H. apply in_map_iff in H. destruct H as ([k' item] & <- & Hin).
    apply firstRows_In in Hin. destruct Hin as [_ Hf].
    apply find_some in Hf. destruct Hf as [Hf _].
    now apply (in_map fst) in Hf.
  - intros H. destruct (find_key_some _ _ H) as [item Hf].
    apply in_map_iff. exists (k, item). split; [reflexivity|].
    apply firstRows_In. auto.
Qed.


(** *** The ISO date kept for a display key *)

Lemma dates_get k rows : forall udi,
  (forall k' v, getProp k' udi = Some v -> v <> "") ->
  (forall r, In r rows -> brYmd r <> "") ->
  getProp k (fold_left stepDates rows udi)
  = match getProp k udi with
    | Some v => Some v
    | None => option_map brYmd (find (fun r => (brKey r =? k)%string) rows)
    end.
Proof.
  induction rows as [|r rows IH]; intros udi Hv Hr; simpl.
  - destruct (getProp k udi); reflexivity.
  - assert (Hr' : forall r0, In r0 rows -> brYmd r0 <> "") by (intros; apply Hr; now right).
    unfold stepDates at 2.
    destruct (getProp (brKey r) udi) as [v|] eqn:Eg; simpl.
    + assert (Hne : v <> "") by (eapply Hv; eassumption).
      apply String.eqb_neq in Hne. rewrite Hne. simpl.
      rewrite IH by assumption.
      destruct (brKey r =? k)%string eqn:E; [|reflexivity].
      apply String.eqb_eq in E. subst k. now rewrite Eg.
    + rewrite IH; [|intros k' v' | assumption].
      * destruct (brKey r =? k)%string eqn:E.
        -- apply String.eqb_eq in E. subst k. rewrite getProp_setProp_same, Eg. reflexivity.
        -- apply String.eqb_neq in E.
           rewrite getProp_setProp_other by congruence. reflexivity.
      * destruct (string_dec k' (brKey r)) as [->|Hne].
        -- rewrite getProp_setProp_same. intros [= <-]. apply Hr. now left.
        -- rewrite getProp_setProp_other by assumption. apply Hv.
Qed.


Lemma find_key_row rows k :
  match find (fun r => (brKey r =? k)%string) rows with
  | Some r => In r rows /\ brKey r = k
  | None => ~ In k (map brKey rows)
  end.
Proof.
  induction rows as [|r rows IH]; simpl; [tauto|].
  destruct (brKey r =? k)%string eqn:E.
  - apply String.eqb_eq in E. auto.
  - apply String.eqb_neq in E.
    destruct (find (fun r0 => (brKey r0 =? k)%string) rows); [tauto|].
    intros [H|H]; auto.
Qed.

Section Bucket.
Variable dataItems : list dataItem.

Lemma rows_ymd r : In r (bucketRows P dataItems) -> brYmd r <> "".
Proof using Type. intros H. now apply rowsFrom_facts in H. Qed.

Lemma uniqueDateInfo_get k :
  getProp k (uniqueDateInfoOf P dataItems)
  = option_map brYmd (find (fun r => (brKey r =? k)%string) (bucketRows P dataItems)).
Proof using Type.
  unfold uniqueDateInfoOf. rewrite forEachItem_rows. simpl.
  rewrite dates_get; [reflexivity | discriminate | apply rows_ymd].
Qed.


Lemma dateKeys_iff k :
  In k (map fst (uniqueDateInfoOf P dataItems)) <-> In k (map brKey (bucketRows P dataItems)).
Proof using Type.
  pose proof (getProp_None_iff k (uniqueDateInfoOf P dataItems)) as Hn.
  rewrite uniqueDateInfo_get in Hn.
  pose proof (find_key_row (bucketRows P dataItems) k) as Hf.
  destruct (find (fun r => (brKey r =? k)%string) (bucketRows P dataItems)) as [r|]; simpl in Hn.
  - destruct Hf as [Hin Hk]. split; intros _.
    + rewrite <- Hk. now apply in_map.
    + destruct (in_dec string_dec k (map fst (uniqueDateInfoOf P dataItems))); [assumption|].
      apply Hn in n. discriminate.
  - split; intros H; [|contradiction].
    exfalso. apply (proj1 Hn); auto.
Qed.




Lemma sortedCentreNames_defined c :
  SortConforms P ->
  In c (sortedCentreNames P (processedDataOf P dataItems)) -> getProp c (processedDataOf P dataItems) <> None.
Proof using Type.
  intros Hsort Hin. unfold sortedCentreNames in Hin.
  destruct (Hsort string (localeCompare P) (ownKeys (processedDataOf P dataItems))) as [Hperm _].
  apply (Permutation_in _ (Permutation_sym Hperm)) in Hin.
  apply (Permutation_in _ (ownKeys_perm _)) in Hin.
  intros Hn. now apply getProp_None_iff in Hn.
Qed.
End Bucket.

End PivotFacts.

(** ** The rows of the result *)

Lemma lacksSomeDate_iff keys (cells : jsobject (jsobject cell)) :
  lacksSomeDate keys cells = true <-> exists k, In k keys /\ getProp k cells = None.
Proof.
  unfold lacksSomeDate. rewrite existsb_exists. split.
  - intros (k & Hk & H). exists k. split; [assumption|].
    destruct (getProp k cells); [discriminate | reflexivity].
  - intros (k & Hk & H). exists k. rewrite H. auto.
Qed.

Section RowFacts.
Variable P : Platform.

Lemma codejs_extraRow_inv pd c row :
  CodeJs.extraRow P pd c = Returned row ->
  centre row = c /\ isMissingData row = false
  /\ exists agg, getProp c pd = Some agg /\ rowDateData row = dateData agg.
Proof.
  unfold CodeJs.extraRow. destruct (getProp c pd) as [agg|]; [|discriminate].
  intros [= <-]. simpl. eauto.
Qed.

Lemma codejs_appendExtras_inv pd added names : forall rows,
  CodeJs.appendExtras P pd names added = Returned rows ->
  map centre rows = filter (fun c => negb (includes added c)) names
  /\ Forall (fun row => CodeJs.extraRow P pd (centre row) = Returned row) rows.
Proof.
  induction names as [|c names IH]; simpl; intros rows.
  - intros [= <-]. auto.
  - destruct (includes added c); simpl; [apply IH|].
    destruct (CodeJs.extraRow P pd c) as [row|] eqn:Er; simpl; [|discriminate].
    destruct (CodeJs.appendExtras P pd names added) as [rest|]; simpl; [|discriminate].
    intros [= <-]. destruct (IH rest eq_refl) as [Hm Hf].
    pose proof (codejs_extraRow_inv _ _ _ Er) as (Hc & _).
    simpl. rewrite Hm, Hc. split; [reflexivity|].
    constructor; [now rewrite Hc | assumption].
Qed.

Lemma codejs_appendExtras_returns pd added names :
  (forall c, In c names -> getProp c pd <> None) ->
  exists rows, CodeJs.appendExtras P pd names added = Returned rows.
Proof.
  induction names as [|c names IH]; simpl; intros Hdef; [eauto|].
  destruct IH as [rest Hrest]; [intros; apply Hdef; now right|].
  destruct (includes added c); [eauto|].
  unfold CodeJs.extraRow at 1.
  destruct (getProp c pd) eqn:E; [|exfalso; apply (Hdef c); auto].
  simpl. rewrite Hrest. simpl. eauto.
Qed.

Lemma part000_extraRow_inv pd keys c row :
  Part000.extraRow P pd keys c = Returned row ->
  centre row = c
  /\ (isMissingData row = true <-> LacksACell keys row)
  /\ exists agg, getProp c pd = Some agg /\ rowDateData row = dateData agg.
Proof.
  unfold Part000.extraRow. destruct (getProp c pd) as [agg|]; [|discriminate].
  intros [= <-]. simpl. split; [reflexivity|]. split; [|eauto].
  unfold LacksACell. simpl. destruct keys as [|k keys].
  - split; [discriminate | intros (k & [] & _)].
  - apply lacksSomeDate_iff.
Qed.

Lemma part000_appendExtras_inv pd keys names : forall added rows,
  Part000.appendExtras P pd keys names added = Returned rows ->
  Forall (fun row => Part000.extraRow P pd keys (centre row) = Returned row) rows
  /\ (NoDup names -> map centre rows = filter (fun c => negb (includes added c)) names).
Proof.
  induction names as [|c names IH]; simpl; intros added rows.
  - intros [= <-]. auto.
  - destruct (includes added c) eqn:Ea; simpl.
    + intros H. destruct (IH _ _ H) as [Hf Hm]. split; [assumption|].
      intros Hnd. apply Hm. now inversion Hnd.
    + destruct (Part000.extraRow P pd keys c) as [row|] eqn:Er; simpl; [|discriminate].
      destruct (Part000.appendExtras P pd keys names (c :: added)) as [rest|] eqn:Ex;
        simpl; [|discriminate].
      intros [= <-]. destruct (IH _ _ Ex) as [Hf Hm].
      pose proof (part000_extraRow_inv _ _ _ _ Er) as (Hc & _).
      split; [constructor; [now rewrite Hc | assumption]|].
      intros Hnd. inversion Hnd as [|? ? Hnotin Hnd']; subst.
      simpl. rewrite Hm by assumption. f_equal.
      apply filter_ext_in. intros x Hx. unfold includes. simpl.
      destruct (x =? centre row)%string eqn:E; [|reflexivity].
      apply String.eqb_eq in E. subst. contradiction.
Qed.



(** What either aggregator returns, in terms of the loop state. *)
Lemma codejs_processAndSortData_inv dataItems selectedMonth isSundayData r :
  CodeJs.processAndSortData P dataItems selectedMonth isSundayData = Returned r ->
  let pd := fst (forEachItem P dataItems 0 ([], [])) in
  let udi := snd (forEachItem P dataItems 0 ([], [])) in
  let listed := if isSundayData then customCentreOrder else [] in
  (dataItems = [] /\ isSundayData = false /\ r = {| templateData := []; sortedDates := [] |})
  \/ exists extras,
       CodeJs.appendExtras P pd (sortedCentreNames P pd) listed = Returned extras
       /\ r = {| templateData := map (listedRow P pd (sortedDateKeysOf P udi)) listed ++ extras;
                 sortedDates := sortedDateKeysOf P udi |}.
Proof.
  unfold CodeJs.processAndSortData.
  destruct dataItems as [|item rest] eqn:Ei, isSundayData eqn:Es.
  2:{ intros [= <-]. left. auto. }
  all: destruct (forEachItem P _ 0 ([], [])) as [pd udi] eqn:Ef; simpl fst; simpl snd;
    destruct (CodeJs.appendExtras P pd _ _) as [extras|] eqn:Ex; simpl; [|discriminate];
    intros [= <-]; right; exists extras; auto.
Qed.

Lemma part000_processAndSortData_inv dataItems selectedMonth isSundayData listed r :
  Part000.processAndSortData P dataItems selectedMonth isSundayData listed = Returned r ->
  let pd := fst (forEachItem P dataItems 0 ([], [])) in
  let udi := snd (forEachItem P dataItems 0 ([], [])) in
  let listed := match listed with Some l => l | None => [] end in
  exists extras,
    Part000.appendExtras P pd (sortedDateKeysOf P udi) (sortedCentreNames P pd) listed
    = Returned extras
    /\ r = {| templateData := map (listedRow P pd (sortedDateKeysOf P udi)) listed ++ extras;
              sortedDates := sortedDateKeysOf P udi |}.
Proof.
  unfold Part000.processAndSortData.
  destruct (forEachItem P dataItems 0 ([], [])) as [pd udi] eqn:Ef; simpl fst; simpl snd.
  destruct (Part000.appendExtras P pd _ _ _) as [extras|] eqn:Ex; simpl; [|discriminate].
  intros [= <-]. exists extras. auto.
Qed.

Lemma codejs_processAndSortData_returns dataItems selectedMonth isSundayData :
  SortConforms P ->
  exists r, CodeJs.processAndSortData P dataItems selectedMonth isSundayData = Returned r.
Proof.
  intros Hsort. unfold CodeJs.processAndSortData.
  destruct dataItems as [|item rest] eqn:Ei, isSundayData eqn:Es.
  2:{ eauto. }
  all: rewrite <- Ei;
    pose proof (sortedCentreNames_defined P dataItems) as Hdef;
    unfold processedDataOf in Hdef;
    destruct (forEachItem P dataItems 0 ([], [])) as [pd udi] eqn:Ef; simpl in Hdef;
    match goal with
    | |- context [CodeJs.appendExtras P pd ?names ?added] =>
        destruct (codejs_appendExtras_returns pd added names) as [extras Hx];
        [intros c Hc; now apply Hdef | rewrite Hx; simpl; eauto]
    end.
Qed.


End RowFacts.

(** ** The pivot aggregator: the claims *)




(** The year boundary run: the key of 31 December comes first although its
    text is the greater one. *)
Example yearBoundary_sortedDates :
  (exists r,
     CodeJs.processAndSortData Reference.platform yearBoundaryBucket "2024-01" true
     = Returned r
     /\ sortedDates r = ["31-12-2023"; "07-01-2024"])
  /\ String.compare "31-12-2023" "07-01-2024" = Gt.
Proof. split; [eexists; split; vm_compute; reflexivity | reflexivity]. Qed.




(** C8.  For an empty bucket [Code.js] still lists every centre of the
    fixed order when it is the Sunday bucket, each not missing and with the
    average N/A, and returns nothing at all otherwise. *)
Theorem C8_empty_bucket (P : Platform) (selectedMonth : string) :
  SortConforms P ->
  CodeJs.processAndSortData P [] selectedMonth true
  = Returned
      {| templateData :=
           map (fun centreName =>
                  {| centre := centreName;
                     isBold := includes boldCentres centreName;
                     rowDateData := [];
                     averageSangat := "N/A";
                     isMissingData := false |})
             customCentreOrder;
         sortedDates := [] |}
  /\ CodeJs.processAndSortData P [] selectedMonth false
     = Returned {| templateData := []; sortedDates := [] |}.
Proof.
  intros Hsort. split; [|reflexivity].
  assert (Hnil : forall (A : Type) (cmp : A -> A -> comparison), arraySort P A cmp [] = []).
  { intros A cmp. destruct (Hsort A cmp []) as [Hp _]. now apply Permutation_nil. }
  unfold CodeJs.processAndSortData. simpl forEachItem. cbv iota beta.
  unfold sortedDateKeysOf, sortedCentreNames. rewrite !ownKeys_nil, !Hnil.
  simpl. rewrite ?app_nil_r. reflexivity.
Qed.

Lemma C8_empty_bucket_witness :
  (exists r,
     CodeJs.processAndSortData Reference.platform [] "2024-03" true = Returned r
     /\ map centre (templateData r) = customCentreOrder
     /\ Forall (fun row => isMissingData row = false /\ averageSangat row = "N/A")
          (templateData r)
     /\ sortedDates r = [])
  /\ CodeJs.processAndSortData Reference.platform [] "2024-03" false
     = Returned {| templateData := []; sortedDates := [] |}.
Proof.
  destruct (C8_empty_bucket Reference.platform "2024-03" reference_sort_conforms)
    as [Hs Hw].
  split; [|exact Hw].
  eexists. split; [exact Hs|]. simpl.
  split; [reflexivity|]. split; [|reflexivity].
  repeat constructor.
Defined.









(** The scenario of the specification, with the canonical order A, B: A has
    both dates, the average 150.0 and is not missing; B has the first date
    only, no average and is missing. *)
Example scenario_rows :
  exists r,
    Part000.processAndSortData Reference.platform scenarioBucket "2024-03" true
      (Some ["A"; "B"]) = Returned r
    /\ sortedDates r = ["03-03-2024"; "10-03-2024"]
    /\ map (fun row => (centre row, map fst (rowDateData row), averageSangat row,
                        isMissingData row)) (templateData r)
       = [ ("A", ["03-03-2024"; "10-03-2024"], "150.0", false);
           ("B", ["03-03-2024"], "N/A", true) ].
Proof. eexists. split; [vm_compute; reflexivity|]. split; reflexivity. Qed.

(** ** The special-event list builder and the fields of the output *)

Lemma ConsistentOn_ext {A : Type} (cmp cmp' : A -> A -> comparison) (l : list A) :
  (forall a b, In a l -> In b l -> cmp a b = cmp' a b) ->
  ConsistentOn cmp' l -> ConsistentOn cmp l.
Proof.
  intros He (Hr & Ha & Ht). repeat split; intros.
  - rewrite He by assumption. now apply Hr.
  - rewrite !He by assumption. now apply Ha.
  - rewrite (He a c) by assumption.
    match goal with
    | H1 : cmp a b <> Gt, H2 : cmp b c <> Gt |- _ =>
        rewrite (He a b) in H1 by assumption; rewrite (He b c) in H2 by assumption;
        now apply (Ht a b c)
    end.
Qed.

Lemma StronglySorted_impl_in {A : Type} (R R' : A -> A -> Prop) (l : list A) :
  (forall a b, In a l -> In b l -> R a b -> R' a b) ->
  StronglySorted R l -> StronglySorted R' l.
Proof.
  intros Himp Hs. induction Hs as [|a l Hs IH Hall]; constructor.
  - apply IH. intros; apply Himp; simpl; auto.
  - rewrite Forall_forall in *. intros b Hb. apply Himp; simpl; auto.
Qed.

Lemma compareEvents_keyless (P : Platform) (a b : specialEvent) :
  truthyText (ymdForSort a) = false \/ truthyText (ymdForSort b) = false ->
  compareEvents P a b = Eq.
Proof.
  unfold compareEvents. intros [H|H]; rewrite H; simpl; [reflexivity|].
  now rewrite orb_true_r.
Qed.

Lemma compareEvents_keyed (P : Platform) (a b : specialEvent) :
  truthyText (ymdForSort a) = true -> truthyText (ymdForSort b) = true ->
  compareEvents P a b = localeCompare P (sortKey a) (sortKey b).
Proof.
  unfold compareEvents, sortKey. intros Ha Hb. rewrite Ha, Hb. simpl.
  destruct (ymdForSort a), (ymdForSort b); try discriminate. reflexivity.
Qed.

(** C9, as amended.  The list builder returns the events of the input rows,
    each once; its comparator takes two events as equal when either has no
    sort key.  When every row has a sort key (and the comparison orders
    them consistently) the list comes back ascending by the ISO dates, and
    the events of one date keep the order they had in the input. *)
Theorem C9_special_list_sorted (P : Platform) (dataItems : list dataItem) :
  SortConforms P ->
  let events := map eventObjectOf dataItems in
  let sorted := processSpecialSatsangList P dataItems in
  Permutation events sorted
  /\ (forall a b,
        truthyText (ymdForSort a) = false \/ truthyText (ymdForSort b) = false ->
        compareEvents P a b = Eq)
  /\ (Forall (fun item => truthyText (ymd item) = true) dataItems ->
      ConsistentOn (localeCompare P) (map sortKey events) ->
      StronglySorted (fun a b => localeCompare P (sortKey a) (sortKey b) <> Gt) sorted
      /\ forall x, In x events ->
           filter (fun y => isEq (localeCompare P (sortKey x) (sortKey y))) sorted
           = filter (fun y => isEq (localeCompare P (sortKey x) (sortKey y))) events).
Proof.
  intros Hsort events sorted.
  assert (Hs : sorted = arraySort P specialEvent (compareEvents P) events).
  { unfold sorted, events, processSpecialSatsangList.
    destruct dataItems; [|reflexivity]. simpl.
    destruct (Hsort specialEvent (compareEvents P) []) as [Hp _].
    symmetry. now apply Permutation_nil. }
  destruct (Hsort specialEvent (compareEvents P) events) as [Hperm Hok].
  rewrite <- Hs in Hperm, Hok.
  split; [exact Hperm|]. split; [apply compareEvents_keyless|].
  intros Hkeys Hcons.
  assert (Hkeyed : forall e, In e events -> truthyText (ymdForSort e) = true).
  { intros e He. apply in_map_iff in He. destruct He as (item & <- & Hi).
    rewrite Forall_forall in Hkeys. now apply Hkeys. }
  assert (Hkeyed' : forall e, In e sorted -> truthyText (ymdForSort e) = true).
  { intros e He. apply Hkeyed. eapply Permutation_in; [apply Permutation_sym|]; eassumption. }
  destruct Hok as [Hsorted Hstable].
  { apply (ConsistentOn_ext _ (fun a b => localeCompare P (sortKey a) (sortKey b))).
    - intros a b Ha Hb. apply compareEvents_keyed; auto.
    - now apply ConsistentOn_map. }
  split.
  - eapply StronglySorted_impl_in; [|exact Hsorted].
    intros a b Ha Hb. simpl. rewrite compareEvents_keyed by auto. tauto.
  - intros x Hx. specialize (Hstable x Hx).
    rewrite (filter_ext_in (fun y => isEq (localeCompare P (sortKey x) (sortKey y)))
               (fun y => isEq (compareEvents P x y)) sorted).
    2:{ intros y Hy. now rewrite compareEvents_keyed by auto. }
    rewrite (filter_ext_in (fun y => isEq (localeCompare P (sortKey x) (sortKey y)))
               (fun y => isEq (compareEvents P x y)) events).
    2:{ intros y Hy. now rewrite compareEvents_keyed by auto. }
    exact Hstable.
Qed.



Lemma C9_special_list_sorted_witness :
  let events := map eventObjectOf sameDayBucket in
  let sorted := processSpecialSatsangList Reference.platform sameDayBucket in
  Permutation events sorted
  /\ map centreField sorted = [Some (CText "B"); Some (CText "C"); Some (CText "A")]
  /\ StronglySorted
       (fun a b => localeCompare Reference.platform (sortKey a) (sortKey b) <> Gt) sorted.
Proof.
  destruct (C9_special_list_sorted Reference.platform sameDayBucket reference_sort_conforms)
    as (Hp & _ & Hs).
  split; [exact Hp|]. split; [vm_compute; reflexivity|].
  apply Hs.
  - repeat constructor.
  - apply string_compare_total.
Defined.


(** C9 as stated fails for a row without a sort key: under a sort that
    conforms, D stood before F in the input and stands behind it in the
    list that comes back. *)
Lemma C9_keyless_row_counterexample :
  SortConforms Reference.platform
  /\ let events := map eventObjectOf keylessBucket in
     let sorted := processSpecialSatsangList Reference.platform keylessBucket in
     map ymdForSort (filter isDorF events) = [None; Some "2024-03-01"]
     /\ map centreField (filter isDorF events) = [Some (CText "D"); Some (CText "F")]
     /\ map centreField (filter isDorF sorted) = [Some (CText "F"); Some (CText "D")]
     /\ map centreField sorted
        = [Some (CText "F"); Some (CText "A"); Some (CText "B"); Some (CText "C");
           Some (CText "D"); Some (CText "E")]
     /\ filter isDorF sorted <> filter isDorF events.
Proof.
  split; [apply reference_sort_conforms|].
  cbv zeta. repeat split; try (vm_compute; reflexivity).
  vm_compute. discriminate.
Qed.

(** *** The fields built from a display row *)

Lemma orEmpty_not_null c : orEmpty c <> CNull /\ orEmpty c <> CUndefined.
Proof. destruct c; simpl; split; discriminate. Qed.

Lemma getProp_app_absent {V : Type} k (o o' : jsobject V) :
  getProp k o = None -> getProp k (o ++ o')%list = getProp k o'.
Proof.
  induction o as [|[k' v'] o IH]; simpl; [reflexivity|].
  destruct (k' =? k)%string; [discriminate | exact IH].
Qed.

Lemma displayFields_app row columns : forall start,
  NoDup (map key columns) ->
  (forall col, In col columns -> getProp (key col) start = None) ->
  displayFields columns row start
  = (start ++ map (fun col => (key col, orEmpty (cellAt row (index col)))) columns)%list.
Proof.
  unfold displayFields.
  induction columns as [|col columns IH]; intros start Hnd Habs; simpl.
  - now rewrite app_nil_r.
  - inversion Hnd as [|? ? Hnotin Hnd']; subst.
    rewrite (setProp_absent _ _ _ (Habs col (or_introl eq_refl))).
    rewrite IH; [now rewrite <- app_assoc | assumption |].
    intros col' Hin.
    rewrite getProp_app_absent by (apply Habs; now right).
    simpl. destruct (key col =? key col')%string eqn:E; [|reflexivity].
    apply String.eqb_eq in E. exfalso. apply Hnotin. rewrite E. now apply in_map.
Qed.

Lemma displayFields_FieldsOf columns row :
  NoDup (map key columns) -> FieldsOf columns row (displayFields columns row []).
Proof.
  intros Hnd. rewrite displayFields_app by (auto; reflexivity). simpl.
  split; [|split].
  - rewrite map_map. reflexivity.
  - induction columns as [|c columns IH]; intros col Hin; [contradiction|].
    inversion Hnd as [|? ? Hnotin Hnd']; subst. simpl.
    destruct (key c =? key col)%string eqn:E.
    + destruct Hin as [<-|Hin]; [reflexivity|].
      apply String.eqb_eq in E. exfalso. apply Hnotin. rewrite E. now apply in_map.
    + destruct Hin as [<-|Hin]; [now rewrite String.eqb_refl in E | now apply IH].
  - intros field v Hin. apply in_map_iff in Hin. destruct Hin as (col & [= _ <-] & _).
    apply orEmpty_not_null.
Qed.


Lemma eventDetailColumns_distinct : NoDup (map key eventDetailColumns).
Proof. distinct_keys. Qed.

Lemma specialEventHeaders_distinct : NoDup (map key specialEventHeaders).
Proof. distinct_keys. Qed.

Lemma cell_origin (P : Platform) (dataItems : list dataItem) c agg k details :
  getProp c (fst (forEachItem P dataItems 0 ([], []))) = Some agg ->
  In (k, details) (dateData agg) ->
  exists item, In item dataItems /\ details = eventDetailsOf (displayRow item).
Proof.
  intros Hget Hin. rewrite forEachItem_rows in Hget. simpl in Hget.
  rewrite centres_get in Hget. simpl in Hget.
  set (cells := cellsOf c (rowsFrom P dataItems 0)) in *.
  assert (Hagg : agg = foldCells P newCentre cells).
  { destruct cells; [discriminate | now injection Hget as <-]. }
  destruct (foldCells_spec P cells newCentre) as (Hd & _). simpl in Hd.
  rewrite <- Hagg in Hd. rewrite Hd in Hin.
  apply in_map_iff in Hin. destruct Hin as ([k' item] & [= _ <-] & Hf).
  apply firstRows_In in Hf. destruct Hf as [_ Hf]. apply find_some in Hf.
  destruct Hf as [Hf _]. unfold cells, cellsOf in Hf.
  apply in_map_iff in Hf. destruct Hf as (r & [= _ <-] & Hr).
  apply filter_In in Hr. destruct Hr as [Hr _].
  exists (brItem r). split; [|reflexivity]. now apply rowsFrom_facts in Hr.
Qed.

Lemma listedRow_cell_origin (P : Platform) (dataItems : list dataItem) keys c k details :
  In (k, details)
    (rowDateData (listedRow P (fst (forEachItem P dataItems 0 ([], []))) keys c)) ->
  exists item, In item dataItems /\ details = eventDetailsOf (displayRow item).
Proof.
  simpl. destruct (getProp c (fst (forEachItem P dataItems 0 ([], [])))) as [agg|] eqn:E;
    [|contradiction].
  apply (cell_origin P dataItems c agg k details E).
Qed.

(** C10.  Every pivot cell of a row either aggregator returns, and every
    event of the special list, is built from the display row of an input
    row: it has the fields of its columns, each the display cell with null
    and undefined replaced by the empty string, and no field that is null
    or undefined.  (An event also carries its sort key, the ISO date of its
    row.) *)
Theorem C10_fields_never_null (P : Platform) (dataItems : list dataItem)
  (selectedMonth : string) (isSundayData : bool)
  (allRelevantCenters : option (list string)) :
  SortConforms P ->
  (forall r,
     CodeJs.processAndSortData P dataItems selectedMonth isSundayData = Returned r
     \/ Part000.processAndSortData P dataItems selectedMonth isSundayData
          allRelevantCenters = Returned r ->
     forall row k details,
       In row (templateData r) -> In (k, details) (rowDateData row) ->
       exists item,
         In item dataItems /\ FieldsOf eventDetailColumns (displayRow item) details)
  /\ (forall e,
        In e (processSpecialSatsangList P dataItems) ->
        exists item,
          In item dataItems
          /\ FieldsOf specialEventHeaders (displayRow item) (eventFields e)
          /\ ymdForSort e = ymd item).
Proof.
  intros Hsort. split.
  - intros r Hr row k details Hrow Hcell.
    assert (Horigin : exists item,
               In item dataItems /\ details = eventDetailsOf (displayRow item)).
    { destruct Hr as [Hr|Hr].
      - destruct (codejs_processAndSortData_inv P _ _ _ _ Hr)
          as [(_ & _ & ->)|(extras & Hx & ->)]; [contradiction|].
        simpl in Hrow. apply in_app_iff in Hrow. destruct Hrow as [Hrow|Hrow].
        + apply in_map_iff in Hrow. destruct Hrow as (c & <- & _).
          eapply listedRow_cell_origin; eassumption.
        + destruct (codejs_appendExtras_inv P _ _ _ _ Hx) as [_ Hrows].
          rewrite Forall_forall in Hrows.
          destruct (codejs_extraRow_inv P _ _ _ (Hrows row Hrow)) as (_ & _ & agg & Hg & Hd).
          rewrite Hd in Hcell. eapply cell_origin; eassumption.
      - destruct (part000_processAndSortData_inv P _ _ _ _ _ Hr) as (extras & Hx & ->).
        simpl in Hrow. apply in_app_iff in Hrow. destruct Hrow as [Hrow|Hrow].
        + apply in_map_iff in Hrow. destruct Hrow as (c & <- & _).
          eapply listedRow_cell_origin; eassumption.
        + destruct (part000_appendExtras_inv P _ _ _ _ _ Hx) as [Hrows _].
          rewrite Forall_forall in Hrows.
          destruct (part000_extraRow_inv P _ _ _ _ (Hrows row Hrow)) as (_ & _ & agg & Hg & Hd).
          rewrite Hd in Hcell. eapply cell_origin; eassumption. }
    destruct Horigin as (item & Hitem & ->). exists item. split; [assumption|].
    apply displayFields_FieldsOf, eventDetailColumns_distinct.
  - intros e He.
    assert (Hin : In e (map eventObjectOf dataItems)).
    { unfold processSpecialSatsangList in He. destruct dataItems as [|i rest]; [contradiction|].
      destruct (Hsort specialEvent (compareEvents P) (map eventObjectOf (i :: rest)))
        as [Hp _].
      eapply Permutation_in; [apply Permutation_sym|]; eassumption. }
    apply in_map_iff in Hin. destruct Hin as (item & <- & Hitem).
    exists item. split; [assumption|]. split; [|reflexivity].
    apply displayFields_FieldsOf, specialEventHeaders_distinct.
Qed.


Lemma C10_fields_never_null_witness :
  (forall e,
     In e (processSpecialSatsangList Reference.platform shortRowBucket) ->
     exists item,
       In item shortRowBucket
       /\ FieldsOf specialEventHeaders (displayRow item) (eventFields e)
       /\ ymdForSort e = ymd item)
  /\ map eventFields (processSpecialSatsangList Reference.platform shortRowBucket)
     = [ [ ("date", CText ""); ("day", CText "Sunday"); ("centre", CText "ALWAR");
           ("totalSangat", CText ""); ("mode", CText ""); ("name", CText "");
           ("arrival", CText ""); ("satsang", CText ""); ("saint", CText "");
           ("book", CText ""); ("start", CText ""); ("end", CText "") ] ].
Proof.
  split; [|vm_compute; reflexivity].
  apply (C10_fields_never_null Reference.platform shortRowBucket "2024-03" true None
           reference_sort_conforms).
Defined.

(** ** The first pass and the months *)

Lemma setAdd_In s set m : In m (setAdd s set) <-> In m set \/ m = s.
Proof.
  unfold setAdd. destruct (includes set s) eqn:E.
  - apply includes_true_iff in E. split; [auto|]. intros [H| ->]; assumption.
  - rewrite in_app_iff. simpl. split; intros [H|H]; auto.
    + destruct H as [<-|[]]. auto.
Qed.

Lemma setAdd_NoDup s set : NoDup set -> NoDup (setAdd s set).
Proof.
  intros Hnd. unfold setAdd. destruct (includes set s) eqn:E; [assumption|].
  apply includes_false_iff in E.
  apply NoDup_rev in Hnd. rewrite <- (rev_involutive (set ++ [s])).
  apply NoDup_rev. rewrite rev_app_distr. simpl. constructor; [|assumption].
  now rewrite <- in_rev.
Qed.

Lemma monthsOf_In items : forall set m,
  In m (monthsOf items set) <-> In m set \/ hasData items m.
Proof.
  unfold monthsOf, hasData.
  induction items as [|item items IH]; simpl; intros set m.
  - split; [auto|]. intros [H|(item & [] & _)]. assumption.
  - rewrite IH, setAdd_In. split.
    + intros [[H| ->]|(x & Hx & Hm)]; eauto.
    + intros [H|(x & [<-|Hx] & Hm)]; eauto.
Qed.

Lemma monthsOf_NoDup items : forall set, NoDup set -> NoDup (monthsOf items set).
Proof.
  unfold monthsOf. induction items as [|item items IH]; simpl; intros set Hnd.
  - assumption.
  - apply IH. now apply setAdd_NoDup.
Qed.

Lemma monthsOf_app items more set :
  monthsOf (items ++ more) set = monthsOf more (monthsOf items set).
Proof. unfold monthsOf. apply fold_left_app. Qed.

(** The loop of the pipeline and the first pass agree: the loop ends with
    the items of the first pass and their months, and fails where the
    first pass fails. *)
Lemma firstPassLoop_firstPassFrom parseDateValue rows : forall i st,
  match firstPassFrom parseDateValue i rows with
  | Returned items =>
      firstPassLoop parseDateValue i rows st
      = PassDone {| availableMonthsSet := monthsOf items (availableMonthsSet st);
                    allValidDataItems := (allValidDataItems st ++ items)%list |}
  | Threw thrown =>
      exists st', firstPassLoop parseDateValue i rows st = PassFailed st' thrown
  end.
Proof.
  induction rows as [|row rows IH]; intros i st.
  - simpl. rewrite app_nil_r. now destruct st.
  - cbn [firstPassFrom firstPassLoop]. unfold firstPassRow.
    destruct (parseDateValue (valueAt (fst row) (COL_DATE - 1)) i) as [[y|]|thrown];
      cbn [bind truthyText].
    + destruct (y =? "")%string eqn:Ey; cbn [negb bind].
      * specialize (IH (S i) st).
        destruct (firstPassFrom parseDateValue (S i) rows); cbn [bind]; assumption.
      * match goal with
        | |- context [firstPassLoop _ _ _ ?s] => specialize (IH (S i) s)
        end.
        destruct (firstPassFrom parseDateValue (S i) rows) as [more|];
          cbn [bind]; [|assumption].
        rewrite IH. cbn [availableMonthsSet allValidDataItems].
        now rewrite <- app_assoc.
    + specialize (IH (S i) st).
      destruct (firstPassFrom parseDateValue (S i) rows); cbn [bind]; assumption.
    + eauto.
Qed.

Lemma firstPassFrom_items parseDateValue rows : forall i items,
  firstPassFrom parseDateValue i rows = Returned items ->
  Forall (fun item =>
            exists row j y,
              In row rows
              /\ parseDateValue (valueAt (fst row) (COL_DATE - 1)) j = Returned (Some y)
              /\ y <> ""
              /\ item = {| valueRow := fst row; displayRow := snd row; ymd := Some y |})
    items.
Proof.
  induction rows as [|row rows IH]; intros i items; cbn [firstPassFrom].
  - intros [= <-]. constructor.
  - unfold firstPassRow.
    destruct (parseDateValue (valueAt (fst row) (COL_DATE - 1)) i) as [o|] eqn:Ep;
      cbn [bind]; [|discriminate].
    destruct (firstPassFrom parseDateValue (S i) rows) as [more|] eqn:Em.
    2:{ destruct (truthyText o); cbn [bind]; discriminate. }
    assert (Hmore : Forall (fun item =>
              exists row0 j y,
                In row0 (row :: rows)
                /\ parseDateValue (valueAt (fst row0) (COL_DATE - 1)) j = Returned (Some y)
                /\ y <> ""
                /\ item = {| valueRow := fst row0; displayRow := snd row0; ymd := Some y |})
              more).
    { eapply Forall_impl; [|apply (IH _ _ Em)].
      intros item (row0 & j & y & Hin & H). exists row0, j, y. split; [now right | exact H]. }
    destruct o as [y|]; cbn [truthyText].
    + destruct (y =? "")%string eqn:Ey; cbn [negb bind]; intros [= <-]; [assumption|].
      constructor; [|assumption].
      exists row, i, y. apply String.eqb_neq in Ey. split; [now left | auto].
    + cbn [bind]. intros [= <-]. assumption.
Qed.

Lemma firstPassFrom_returns parseDateValue rows :
  (forall v i, exists r, parseDateValue v i = Returned r) ->
  forall i, exists items, firstPassFrom parseDateValue i rows = Returned items.
Proof.
  intros Hr. induction rows as [|row rows IH]; intros i; cbn [firstPassFrom]; [eauto|].
  unfold firstPassRow.
  destruct (Hr (valueAt (fst row) (COL_DATE - 1)) i) as [o ->]. cbn [bind].
  destruct (IH (S i)) as [more ->].
  destruct (truthyText o); cbn [bind]; eauto.
Qed.

Lemma codejs_parseDateValue_returns (P : Platform) v i :
  exists r, CodeJs.parseDateValue P v i = Returned r.
Proof.
  unfold CodeJs.parseDateValue. destruct (CodeJs.parsedDateOf P v); [|eauto].
  destruct (utilFormatDate P _ _ _); eauto.
Qed.

(** ** The month to display *)

Lemma selectMonth_In requestedMonth set currentMonth sorted m :
  (forall x, In x sorted -> In x set) ->
  selectMonth requestedMonth set currentMonth sorted = Some m -> In m set.
Proof.
  intros Hsub. unfold selectMonth.
  assert (Hrest : (if includes set currentMonth then Some currentMonth else hd_error sorted)
                  = Some m -> In m set).
  { destruct (includes set currentMonth) eqn:Ec.
    - intros [= <-]. now apply includes_true_iff.
    - destruct sorted as [|x sorted]; [discriminate|]. intros [= <-]. apply Hsub. now left. }
  destruct requestedMonth as [requested|]; [|exact Hrest].
  destruct (negb (requested =? "")%string && includes set requested) eqn:Er; [|exact Hrest].
  intros [= <-]. apply andb_prop in Er. now apply includes_true_iff.
Qed.

Lemma selectMonth_Some requestedMonth set currentMonth sorted :
  (set <> [] -> sorted <> []) -> set <> [] ->
  exists m, selectMonth requestedMonth set currentMonth sorted = Some m.
Proof.
  intros Hne Hset. unfold selectMonth.
  assert (Hrest : exists m,
            (if includes set currentMonth then Some currentMonth else hd_error sorted)
            = Some m).
  { destruct (includes set currentMonth); [eauto|].
    destruct sorted as [|x sorted]; [now destruct (Hne Hset) | simpl; eauto]. }
  destruct requestedMonth as [requested|]; [|exact Hrest].
  destruct (negb (requested =? "")%string && includes set requested); [eauto | exact Hrest].
Qed.

Lemma selectMonth_None requestedMonth currentMonth sorted :
  selectMonth requestedMonth [] currentMonth sorted = hd_error sorted.
Proof.
  unfold selectMonth. simpl. destruct requestedMonth as [requested|]; [|reflexivity].
  now rewrite andb_false_r.
Qed.

Lemma StronglySorted_snoc {A : Type} (R : A -> A -> Prop) (l : list A) (m : A) :
  StronglySorted R (l ++ [m]) -> forall x, In x l -> R x m.
Proof.
  induction l as [|a l IH]; simpl; intros Hs x []; subst.
  - apply StronglySorted_inv in Hs. destruct Hs as [_ Hall].
    rewrite Forall_forall in Hall. apply Hall. rewrite in_app_iff. simpl. auto.
  - apply IH; [|assumption]. now apply StronglySorted_inv in Hs.
Qed.

Section Months.
Variable P : Platform.
Hypothesis Hsort : SortConforms P.

Lemma sortedMonths_perm set :
  Permutation set (arraySort P string String.compare set).
Proof. apply Hsort. Qed.

Lemma sortedMonths_ascending set :
  NoDup set ->
  StronglySorted (fun a b => String.compare a b = Lt)
    (arraySort P string String.compare set).
Proof.
  intros Hnd.
  destruct (Hsort string String.compare set) as [Hperm Hs].
  destruct (Hs (proj1 (string_compare_total set))) as [Hsorted _].
  assert (Hnd' : NoDup (arraySort P string String.compare set)).
  { eapply Permutation_NoDup; eassumption. }
  revert Hsorted Hnd'. generalize (arraySort P string String.compare set).
  induction l as [|a l IH]; intros Hsorted Hnd'; constructor.
  - apply IH; [now apply StronglySorted_inv in Hsorted | now inversion Hnd'].
  - apply StronglySorted_inv in Hsorted. destruct Hsorted as [_ Hall].
    rewrite Forall_forall in *. intros x Hx. specialize (Hall x Hx).
    destruct (String.compare a x) eqn:E; try congruence.
    apply String.compare_eq_iff in E. subst. inversion Hnd'. contradiction.
Qed.

Lemma sortedDownwards_In set x : In x (sortedDownwards P set) <-> In x set.
Proof.
  unfold sortedDownwards. rewrite <- in_rev. split; intros H.
  - eapply Permutation_in; [apply Permutation_sym, sortedMonths_perm | exact H].
  - eapply Permutation_in; [apply sortedMonths_perm | exact H].
Qed.

Lemma sortedDownwards_nonempty set : set <> [] -> sortedDownwards P set <> [].
Proof.
  intros Hne Hs. destruct set as [|x set]; [congruence|].
  assert (Hin : In x (sortedDownwards P (x :: set))) by (apply sortedDownwards_In; now left).
  rewrite Hs in Hin. destruct Hin.
Qed.

Lemma sortedDownwards_nil : sortedDownwards P [] = [].
Proof.
  destruct (sortedDownwards P []) as [|x l] eqn:E; [reflexivity|].
  assert (Hin : In x (sortedDownwards P [])) by (rewrite E; now left).
  apply (proj1 (sortedDownwards_In [] x)) in Hin. destruct Hin.
Qed.

Lemma sortedDownwards_head set m :
  hd_error (sortedDownwards P set) = Some m ->
  forall x, In x set -> String.compare x m <> Gt.
Proof.
  unfold sortedDownwards. intros Hhd x Hx.
  destruct (Hsort string String.compare set) as [Hperm Hs].
  destruct (Hs (proj1 (string_compare_total set))) as [Hsorted _].
  assert (Hin : In x (arraySort P string String.compare set))
    by (eapply Permutation_in; eassumption).
  revert Hhd Hsorted Hin. generalize (arraySort P string String.compare set).
  intros l Hhd Hsorted Hin.
  destruct (rev l) as [|m' r] eqn:Er; [discriminate|]. injection Hhd as ->.
  assert (Hl : l = (rev r ++ [m])%list).
  { rewrite <- (rev_involutive l), Er. reflexivity. }
  subst l. apply in_app_or in Hin. destruct Hin as [Hin|[<-|[]]].
  - now apply (StronglySorted_snoc _ _ _ Hsorted).
  - rewrite string_compare_refl. discriminate.
Qed.

End Months.

(** ** The three arrays *)

Lemma categorize_fold items : forall b,
  fold_left categorizeItem items b
  = {| sundayRows := (sundayRows b ++ filter isSundayRow items)%list;
       wednesdayRows := (wednesdayRows b ++ filter isWednesdayRow items)%list;
       specialRows := (specialRows b ++ filter isSpecialRow items)%list |}.
Proof.
  induction items as [|item items IH]; intros b.
  - simpl. rewrite !app_nil_r. now destruct b.
  - cbn [fold_left filter]. rewrite IH.
    unfold categorizeItem, isSundayRow, isWednesdayRow, isSpecialRow.
    destruct (centreIsBlank (displayRow item)); cbn [negb andb]; [reflexivity|].
    destruct (isSundayLabel (dayValueOf (displayRow item))); cbn [negb andb].
    { cbn [sundayRows wednesdayRows specialRows]. now rewrite <- app_assoc. }
    destruct (isWednesdayLabel (dayValueOf (displayRow item))); cbn [negb andb].
    { cbn [sundayRows wednesdayRows specialRows]. now rewrite <- app_assoc. }
    destruct (dayValueOf (displayRow item) =? "")%string; cbn [negb].
    { reflexivity. }
    cbn [sundayRows wednesdayRows specialRows]. now rewrite <- app_assoc.
Qed.

Lemma categorize_filters items :
  categorize items
  = {| sundayRows := filter isSundayRow items;
       wednesdayRows := filter isWednesdayRow items;
       specialRows := filter isSpecialRow items |}.
Proof. unfold categorize. now rewrite categorize_fold. Qed.

(** ** The pipeline of [Code.js] *)

Lemma firstPass_short parseDateValue (rows : table) :
  (List.length rows <=? HEADER_ROWS)%nat = true ->
  firstPass parseDateValue rows = Returned [].
Proof.
  unfold firstPass, HEADER_ROWS. intros H. apply Nat.leb_le in H.
  destruct rows as [|r [|r' rows]]; simpl in *; try reflexivity. lia.
Qed.

Lemma monthsOf_nonempty items :
  Forall (fun item : dataItem => exists y, ymd item = Some y) items ->
  items <> [] -> monthsOf items [] <> [].
Proof.
  intros _ Hne Hm. destruct items as [|item items]; [congruence|].
  assert (Hin : In (monthOf (ymdOf item)) (monthsOf (item :: items) [])).
  { apply monthsOf_In. right. exists item. split; [now left | reflexivity]. }
  rewrite Hm in Hin. destruct Hin.
Qed.

(** The result of the pipeline, branch by branch, in terms of the first
    pass. *)
Lemma codejs_dashboard_structure (P : Platform) (sheet : option table)
  (currentMonth : string) (requestedMonth : option string) :
  SortConforms P ->
  match sheet with
  | None =>
      CodeJs.getDataForDashboard P sheet currentMonth requestedMonth
      = loadFailure P [] None "Sheet 'Dashboard' not found!"
  | Some rows =>
      exists items,
        firstPass (CodeJs.parseDateValue P) rows = Returned items
        /\ match items with
           | [] =>
               CodeJs.getDataForDashboard P sheet currentMonth requestedMonth
               = noData "No data rows found."
               \/ CodeJs.getDataForDashboard P sheet currentMonth requestedMonth
                  = noData "No data with valid dates found."
           | _ =>
               exists m rs rw,
                 selectMonth requestedMonth (monthsOf items []) currentMonth
                   (sortedDownwards P (monthsOf items [])) = Some m
                 /\ CodeJs.processAndSortData P
                      (filter isSundayRow (filter (ofMonth m) items)) m true
                    = Returned rs
                 /\ CodeJs.processAndSortData P
                      (filter isWednesdayRow (filter (ofMonth m) items)) m false
                    = Returned rw
                 /\ CodeJs.getDataForDashboard P sheet currentMonth requestedMonth
                    = {| sunday := Some rs;
                         wednesday := Some rw;
                         special :=
                           processSpecialSatsangList P
                             (filter isSpecialRow (filter (ofMonth m) items));
                         error := None;
                         availableMonths :=
                           arraySort P string String.compare (monthsOf items []);
                         selectedMonth := Some m;
                         staticWednesdayCentersList := None |}
           end
  end.
Proof.
  intros Hsort. destruct sheet as [rows|]; [|reflexivity].
  unfold CodeJs.getDataForDashboard.
  destruct (List.length rows <=? HEADER_ROWS)%nat eqn:El.
  { exists []. split; [now apply firstPass_short | now left]. }
  unfold firstPass.
  destruct (firstPassFrom_returns (CodeJs.parseDateValue P) (skipn HEADER_ROWS rows)
              (codejs_parseDateValue_returns P) HEADER_ROWS) as [items Hitems].
  exists items. split; [assumption|].
  pose proof (firstPassLoop_firstPassFrom (CodeJs.parseDateValue P)
                (skipn HEADER_ROWS rows) HEADER_ROWS
                {| availableMonthsSet := []; allValidDataItems := [] |}) as Hloop.
  rewrite Hitems in Hloop. cbn [availableMonthsSet allValidDataItems app] in Hloop.
  rewrite Hloop. cbn [availableMonthsSet allValidDataItems].
  destruct items as [|item items].
  - right. unfold monthsOf. cbn [fold_left].
    rewrite selectMonth_None, (sortedDownwards_nil P Hsort). reflexivity.
  - remember (item :: items) as all eqn:Eall.
    destruct (selectMonth_Some requestedMonth (monthsOf all []) currentMonth
                (sortedDownwards P (monthsOf all [])))
      as [m Hm].
    { apply (sortedDownwards_nonempty P Hsort). }
    { apply monthsOf_nonempty; [|subst; discriminate].
      apply Forall_forall. intros x Hx.
      pose proof (firstPassFrom_items _ _ _ _ Hitems) as Hf.
      rewrite Forall_forall in Hf. destruct (Hf x Hx) as (row & j & y & _ & _ & _ & ->).
      simpl. eauto. }
    rewrite Hm, categorize_filters. cbn [sundayRows wednesdayRows specialRows].
    destruct (codejs_processAndSortData_returns P
                (filter isSundayRow (filter (ofMonth m) all)) m true Hsort) as [rs Hrs].
    destruct (codejs_processAndSortData_returns P
                (filter isWednesdayRow (filter (ofMonth m) all)) m false Hsort) as [rw Hrw].
    rewrite Hrs, Hrw. exists m, rs, rw.
    unfold sortedDownwards. rewrite rev_involutive. auto.
Qed.

Lemma exampleItems_firstPass :
  firstPass (CodeJs.parseDateValue Reference.platform) exampleSheet
  = Returned exampleItems.
Proof. vm_compute. reflexivity. Qed.

Lemma firstPass_items_dated parseDateValue rows items :
  firstPass parseDateValue rows = Returned items ->
  forall item, In item items -> exists y, ymd item = Some y /\ y <> "".
Proof.
  unfold firstPass. intros H item Hin.
  pose proof (firstPassFrom_items _ _ _ _ H) as Hf. rewrite Forall_forall in Hf.
  destruct (Hf item Hin) as (row & j & y & _ & _ & Hy & ->). simpl. eauto.
Qed.

Lemma monthOf_empty y : monthOf y = "" -> y = "".
Proof. destruct y; [reflexivity | discriminate]. Qed.



(** X2 (src/Code.js and src/unnamed/part_000, getDataForDashboard): the
    pipeline never returns a partial result.  Either no error is set and
    both pivots and the selected month are there, or an error is set, both
    pivots are [null] and the list of special events is empty. *)
Theorem dashboard_all_or_nothing (P : Platform) (T : Texts) (sheet : option table)
  (configuration : option (list value)) (currentMonth : string)
  (requestedMonth : option string) :
  allOrNothing (CodeJs.getDataForDashboard P sheet currentMonth requestedMonth)
  /\ allOrNothing
       (Part000.getDataForDashboard P T sheet configuration currentMonth requestedMonth).
Proof.
  unfold allOrNothing. split;
    [unfold CodeJs.getDataForDashboard | unfold Part000.getDataForDashboard];
    (destruct sheet as [rows|]; [|simpl; auto]);
    (destruct (List.length rows <=? HEADER_ROWS)%nat; [simpl; auto|]);
    (destruct (firstPassLoop _ _ _ _) as [st|st thrown]; [|simpl; auto]);
    (destruct (selectMonth _ _ _ _) as [m|]; [|simpl; auto]).
  - destruct (CodeJs.processAndSortData P _ m true); [|simpl; auto].
    destruct (CodeJs.processAndSortData P _ m false); simpl; auto.
    repeat split; discriminate.
  - destruct (Part000.processAndSortData P _ m true _); [|simpl; auto].
    destruct (Part000.processAndSortData P _ m false _); simpl; auto.
    repeat split; discriminate.
Qed.

(** X3 (src/Code.js, getDataForDashboard): the month that is displayed
    always has data, and it is chosen in this order: the requested month if
    it has data, else the current month if it has data, else the greatest
    of the months that have data. *)
Theorem codejs_selected_month (P : Platform) (rows : table) (items : list dataItem)
  (currentMonth : string) (requestedMonth : option string) :
  SortConforms P ->
  firstPass (CodeJs.parseDateValue P) rows = Returned items ->
  items <> [] ->
  exists m,
    selectedMonth (CodeJs.getDataForDashboard P (Some rows) currentMonth requestedMonth)
    = Some m
    /\ hasData items m
    /\ (forall r, requestedMonth = Some r -> hasData items r -> m = r)
    /\ ((forall r, requestedMonth = Some r -> ~ hasData items r) ->
        hasData items currentMonth -> m = currentMonth)
    /\ ((forall r, requestedMonth = Some r -> ~ hasData items r) ->
        ~ hasData items currentMonth ->
        forall m', hasData items m' -> String.compare m' m <> Gt).
Proof.
  intros Hsort Hitems Hne.
  pose proof (codejs_dashboard_structure P (Some rows) currentMonth requestedMonth Hsort)
    as (items' & Hitems' & Hd).
  rewrite Hitems in Hitems'. injection Hitems' as <-.
  assert (Hset : forall m, In m (monthsOf items []) <-> hasData items m).
  { intros m. rewrite monthsOf_In. simpl. tauto. }
  assert (Hblank : ~ hasData items "").
  { intros (item & Hin & Hm). apply monthOf_empty in Hm.
    destruct (firstPass_items_dated _ _ _ Hitems item Hin) as (y & Hy & Hne').
    unfold ymdOf in Hm. rewrite Hy in Hm. contradiction. }
  destruct items as [|item items]; [congruence|].
  destruct Hd as (m & rs & rw & Hm & _ & _ & ->). cbn [selectedMonth].
  remember (item :: items) as all eqn:Eall. clear Eall Hne.
  exists m. split; [reflexivity|]. split.
  { apply Hset. eapply selectMonth_In; [|exact Hm].
    intros x. apply (sortedDownwards_In P Hsort). }
  assert (Hrest : (if includes (monthsOf all []) currentMonth then Some currentMonth
                   else hd_error (sortedDownwards P (monthsOf all []))) = Some m ->
                  (hasData all currentMonth -> m = currentMonth)
                  /\ (~ hasData all currentMonth ->
                      forall m', hasData all m' -> String.compare m' m <> Gt)).
  { destruct (includes (monthsOf all []) currentMonth) eqn:Ec.
    - apply includes_true_iff, Hset in Ec. intros [= <-]. split; [reflexivity|].
      intros Hn. contradiction.
    - apply includes_false_iff in Ec. rewrite Hset in Ec. intros Hhd.
      split; [intros Hc; contradiction|]. intros _ m' Hm'.
      apply (sortedDownwards_head P Hsort _ _ Hhd). now apply Hset. }
  unfold selectMonth in Hm. destruct requestedMonth as [requested|].
  - destruct (negb (requested =? "")%string && includes (monthsOf all []) requested)
      eqn:Er.
    + injection Hm as <-. apply andb_prop in Er. destruct Er as [_ Er].
      apply includes_true_iff, Hset in Er.
      split; [intros r [= <-] _; reflexivity|].
      split; intros Hno; exfalso; apply (Hno requested eq_refl Er).
    + split.
      { intros r [= <-] Hr. exfalso. apply andb_false_iff in Er. destruct Er as [Er|Er].
        - apply negb_false_iff, String.eqb_eq in Er. subst. contradiction.
        - apply includes_false_iff in Er. apply Er. now apply Hset. }
      destruct (Hrest Hm) as [H1 H2]. split; intros _; assumption.
  - split; [intros r [=]|]. destruct (Hrest Hm) as [H1 H2]. split; intros _; assumption.
Qed.

Lemma codejs_selected_month_witness :
  exists m,
    selectedMonth (CodeJs.getDataForDashboard Reference.platform (Some exampleSheet)
                     "2024-01" (Some "2024-02"))
    = Some m
    /\ m = "2024-02".
Proof.
  assert (Hne : exampleItems <> []) by (vm_compute; discriminate).
  destruct (codejs_selected_month Reference.platform exampleSheet exampleItems
              "2024-01" (Some "2024-02") reference_sort_conforms exampleItems_firstPass
              Hne)
    as (m & Hm & _ & Hreq & _).
  exists m. split; [exact Hm|]. apply (Hreq "2024-02" eq_refl).
  exists (nth 2 exampleItems (specialItem "" None)).
  split; vm_compute; [auto | reflexivity].
Defined.

(** X4 (src/Code.js, getDataForDashboard): the months offered for selection
    are exactly the months that have data, each once, in ascending order. *)
Theorem codejs_available_months (P : Platform) (rows : table) (items : list dataItem)
  (currentMonth : string) (requestedMonth : option string) :
  SortConforms P ->
  firstPass (CodeJs.parseDateValue P) rows = Returned items ->
  StronglySorted (fun a b => String.compare a b = Lt)
    (availableMonths
       (CodeJs.getDataForDashboard P (Some rows) currentMonth requestedMonth))
  /\ forall m,
       In m (availableMonths
               (CodeJs.getDataForDashboard P (Some rows) currentMonth requestedMonth))
       <-> hasData items m.
Proof.
  intros Hsort Hitems.
  pose proof (codejs_dashboard_structure P (Some rows) currentMonth requestedMonth Hsort)
    as (items' & Hitems' & Hd).
  rewrite Hitems in Hitems'. injection Hitems' as <-.
  destruct items as [|item items].
  - assert (Hav : availableMonths
                    (CodeJs.getDataForDashboard P (Some rows) currentMonth requestedMonth)
                  = []) by (destruct Hd as [-> | ->]; reflexivity).
    rewrite Hav. split; [constructor|].
    intros m. split; [intros [] | intros (item & [] & _)].
  - destruct Hd as (m & rs & rw & _ & _ & _ & ->). cbn [availableMonths].
    split.
    + apply (sortedMonths_ascending P Hsort). apply monthsOf_NoDup. constructor.
    + intros m'. split; intros H.
      * apply (Permutation_in _ (Permutation_sym (sortedMonths_perm P Hsort _))) in H.
        apply monthsOf_In in H. destruct H as [[]|H]. exact H.
      * apply (Permutation_in _ (sortedMonths_perm P Hsort _)).
        apply monthsOf_In. now right.
Qed.

Lemma codejs_available_months_witness :
  availableMonths
    (CodeJs.getDataForDashboard Reference.platform (Some exampleSheet) "2024-03" None)
  = ["2024-02"; "2024-03"]
  /\ StronglySorted (fun a b => String.compare a b = Lt)
       (availableMonths
          (CodeJs.getDataForDashboard Reference.platform (Some exampleSheet) "2024-03"
             None)).
Proof.
  split; [vm_compute; reflexivity|].
  exact (proj1 (codejs_available_months Reference.platform exampleSheet exampleItems
                  "2024-03" None reference_sort_conforms exampleItems_firstPass)).
Defined.





Lemma codejs_sortedDates_rows (P : Platform) (dataItems : list dataItem)
  (selectedMonth : string) (isSundayData : bool) (r : pivotResult) (k : string) :
  SortConforms P ->
  CodeJs.processAndSortData P dataItems selectedMonth isSundayData = Returned r ->
  In k (sortedDates r) ->
  exists item y,
    In item dataItems /\ ymd item = Some y /\ y <> "" /\ k = datePivotKeyOf P y.
Proof.
  intros Hsort Hr Hk.
  apply codejs_processAndSortData_inv in Hr. cbv zeta in Hr.
  destruct Hr as [(_ & _ & ->)|(extras & _ & ->)]; [destruct Hk|].
  cbn [sortedDates] in Hk. unfold sortedDateKeysOf in Hk.
  match type of Hk with
  | In k (arraySort P string ?cmp ?l) =>
      destruct (Hsort string cmp l) as [Hperm _];
      apply (Permutation_in _ (Permutation_sym Hperm)) in Hk
  end.
  apply (Permutation_in _ (ownKeys_perm _)) in Hk.
  apply (proj1 (dateKeys_iff P dataItems k)) in Hk.
  apply in_map_iff in Hk. destruct Hk as (row & <- & Hrow).
  apply rowsFrom_facts in Hrow. destruct Hrow as (Hkey & Hne & Hin & Hy).
  exists (brItem row), (brYmd row). auto.
Qed.

(** X7 (src/Code.js, getDataForDashboard and processAndSortData): every
    date column of the Sunday table is the display date of a row of the
    sheet that is labelled Sunday, has a centre name and whose date starts
    with the selected month; likewise for the Wednesday table. *)
Theorem codejs_date_columns_of_month (P : Platform) (rows : table)
  (items : list dataItem) (currentMonth : string) (requestedMonth : option string)
  (m : string) :
  SortConforms P ->
  firstPass (CodeJs.parseDateValue P) rows = Returned items ->
  selectedMonth (CodeJs.getDataForDashboard P (Some rows) currentMonth requestedMonth)
  = Some m ->
  (forall rs k,
     sunday (CodeJs.getDataForDashboard P (Some rows) currentMonth requestedMonth)
     = Some rs ->
     In k (sortedDates rs) ->
     exists item y,
       In item items /\ ymd item = Some y /\ startsWith y m = true
       /\ isSundayRow item = true /\ k = datePivotKeyOf P y)
  /\ (forall rw k,
        wednesday (CodeJs.getDataForDashboard P (Some rows) currentMonth requestedMonth)
        = Some rw ->
        In k (sortedDates rw) ->
        exists item y,
          In item items /\ ymd item = Some y /\ startsWith y m = true
          /\ isWednesdayRow item = true /\ k = datePivotKeyOf P y).
Proof.
  intros Hsort Hitems Hsel.
  pose proof (codejs_dashboard_structure P (Some rows) currentMonth requestedMonth Hsort)
    as (items' & Hitems' & Hd).
  rewrite Hitems in Hitems'. injection Hitems' as <-.
  destruct items as [|item0 items].
  { destruct Hd as [Hd|Hd]; rewrite Hd in Hsel; discriminate. }
  destruct Hd as (m' & rs & rw & _ & Hrs & Hrw & Hd). rewrite Hd in *.
  cbn [selectedMonth sunday wednesday] in *. injection Hsel as ->.
  remember (item0 :: items) as all eqn:Eall. clear Eall.
  assert (Hgen : forall f r sun k,
            CodeJs.processAndSortData P (filter f (filter (ofMonth m) all)) m sun
            = Returned r ->
            In k (sortedDates r) ->
            exists item y,
              In item all /\ ymd item = Some y /\ startsWith y m = true
              /\ f item = true /\ k = datePivotKeyOf P y).
  { intros f r sun k Hr Hk.
    destruct (codejs_sortedDates_rows P _ _ _ _ _ Hsort Hr Hk)
      as (item & y & Hin & Hy & _ & Hkey).
    apply filter_In in Hin. destruct Hin as [Hin Hf].
    apply filter_In in Hin. destruct Hin as [Hin Hm].
    exists item, y. unfold ofMonth in Hm. rewrite Hy in Hm. auto 6. }
  split.
  - intros rs' k [= <-] Hk. exact (Hgen _ _ _ _ Hrs Hk).
  - intros rw' k [= <-] Hk. exact (Hgen _ _ _ _ Hrw Hk).
Qed.

Lemma codejs_date_columns_of_month_witness :
  exists item y,
    In item exampleItems /\ ymd item = Some y /\ startsWith y "2024-03" = true
    /\ isSundayRow item = true /\ "10-03-2024" = datePivotKeyOf Reference.platform y.
Proof.
  assert (Hsel : selectedMonth
                   (CodeJs.getDataForDashboard Reference.platform (Some exampleSheet)
                      "2024-03" None) = Some "2024-03")
    by (vm_compute; reflexivity).
  pose proof (codejs_date_columns_of_month Reference.platform exampleSheet exampleItems
                "2024-03" None "2024-03" reference_sort_conforms exampleItems_firstPass
                Hsel) as [Hsun _].
  destruct (sunday (CodeJs.getDataForDashboard Reference.platform (Some exampleSheet)
                      "2024-03" None)) as [rs|] eqn:Es; [|vm_compute in Es; discriminate].
  apply (Hsun rs "10-03-2024" eq_refl).
  vm_compute in Es. injection Es as <-. vm_compute. auto.
Defined.

(** ** The pipeline of the second script file *)

(** X8 (src/unnamed/part_000, parseDateValue): the date normalizer of the
    second script file never returns a date string.  Whatever the cell
    holds, it returns [null] or it raises the [ReferenceError] of its last
    statement. *)
Theorem part000_parseDateValue_never_a_date (P : Platform) (inputValue : value)
  (sheetRowIndex : nat) :
  Part000.parseDateValue P inputValue sheetRowIndex = Returned None
  \/ Part000.parseDateValue P inputValue sheetRowIndex
     = Threw "ReferenceError: parsedDate is not defined".
Proof.
  rewrite part000_parseDateValue_outcomes.
  destruct (Part000.parsedDateObjOf P inputValue); auto.
Qed.

Lemma part000_firstPassLoop (P : Platform) (rows : table) : forall i st,
  firstPassLoop (Part000.parseDateValue P) i rows st = PassDone st
  \/ firstPassLoop (Part000.parseDateValue P) i rows st
     = PassFailed st "ReferenceError: parsedDate is not defined".
Proof.
  induction rows as [|row rows IH]; intros i st; cbn [firstPassLoop]; [auto|].
  rewrite part000_parseDateValue_outcomes.
  destruct (Part000.parsedDateObjOf P _); [auto | apply IH].
Qed.

Lemma part000_dashboard_result (P : Platform) (T : Texts)
  (sheet : option table) (configuration : option (list value))
  (currentMonth : string) (requestedMonth : option string) :
  SortConforms P ->
  exists message,
    Part000.getDataForDashboard P T sheet configuration currentMonth requestedMonth
    = {| sunday := None; wednesday := None; special := []; error := Some message;
         availableMonths := []; selectedMonth := None;
         staticWednesdayCentersList := None |}
    /\ In message
         [ "Failed to load data: Sheet 'Dashboard' not found!";
           "No data rows found.";
           "Failed to load data: parsedDate is not defined";
           "No data with valid dates found." ].
Proof.
  intros Hsort. unfold Part000.getDataForDashboard.
  assert (Hnil : rev (sortedDownwards P []) = []) by now rewrite (sortedDownwards_nil P Hsort).
  destruct sheet as [rows|].
  2:{ eexists. unfold loadFailure. rewrite Hnil. split; [reflexivity|]. simpl. auto. }
  destruct (List.length rows <=? HEADER_ROWS)%nat.
  { eexists. split; [reflexivity|]. simpl. auto. }
  destruct (part000_firstPassLoop P (skipn HEADER_ROWS rows) HEADER_ROWS
              {| availableMonthsSet := []; allValidDataItems := [] |}) as [-> | ->];
    cbn [availableMonthsSet allValidDataItems].
  - rewrite selectMonth_None, (sortedDownwards_nil P Hsort). cbn [hd_error].
    eexists. split; [reflexivity|]. simpl. auto.
  - eexists. unfold loadFailure. rewrite Hnil. split; [reflexivity|]. simpl. auto.
Qed.

(** X9 (src/unnamed/part_000, getDataForDashboard): on a platform whose
    sort conforms, the pipeline of the second script file never loads a
    dashboard.  Whatever the sheet holds and whichever month is asked for,
    the result carries one of four errors, no pivot, no event, no month
    and no list of Wednesday centres: every row whose date could be read
    raises in the date normalizer, and a sheet without such a row has no
    valid date. *)
Theorem part000_dashboard_never_loads (P : Platform) (T : Texts)
  (sheet : option table) (configuration : option (list value))
  (currentMonth : string) (requestedMonth : option string) :
  SortConforms P ->
  exists message,
    Part000.getDataForDashboard P T sheet configuration currentMonth requestedMonth
    = {| sunday := None; wednesday := None; special := []; error := Some message;
         availableMonths := []; selectedMonth := None;
         staticWednesdayCentersList := None |}
    /\ In message
         [ "Failed to load data: Sheet 'Dashboard' not found!";
           "No data rows found.";
           "Failed to load data: parsedDate is not defined";
           "No data with valid dates found." ].
Proof.
  exact (part000_dashboard_result P T sheet configuration currentMonth requestedMonth).
Qed.

Lemma part000_dashboard_never_loads_witness :
  exists message,
    Part000.getDataForDashboard Reference.platform plainTexts (Some exampleSheet) None
      "2024-03" None
    = {| sunday := None; wednesday := None; special := []; error := Some message;
         availableMonths := []; selectedMonth := None;
         staticWednesdayCentersList := None |}
    /\ In message
         [ "Failed to load data: Sheet 'Dashboard' not found!";
           "No data rows found.";
           "Failed to load data: parsedDate is not defined";
           "No data with valid dates found." ].
Proof.
  exact (part000_dashboard_never_loads Reference.platform plainTexts (Some exampleSheet)
           None "2024-03" None reference_sort_conforms).
Defined.

(** X10 (src/unnamed/part_000, findMissingDateEntries): on a platform whose
    sort conforms, the missing-dates report of the second script file is
    never produced: every call raises the error of the pipeline. *)
Theorem part000_findMissing_always_throws (P : Platform) (T : Texts)
  (sheet : option table) (configuration : option (list value))
  (clockMonth : string) (selectedMonth : option string) :
  SortConforms P ->
  exists message,
    Part000.findMissingDateEntries P T sheet configuration clockMonth selectedMonth
    = Threw ("Error: " ++ message).
Proof.
  intros Hsort. unfold Part000.findMissingDateEntries.
  match goal with
  | |- context [Part000.getDataForDashboard P T sheet configuration clockMonth ?req] =>
      destruct (part000_dashboard_result P T sheet configuration clockMonth req
                  Hsort) as (message & -> & Hin)
  end.
  cbn [error]. exists message.
  simpl in Hin.
  destruct Hin as [<-|[<-|[<-|[<-|[]]]]]; reflexivity.
Qed.

Lemma part000_findMissing_always_throws_witness :
  exists message,
    Part000.findMissingDateEntries Reference.platform plainTexts (Some exampleSheet)
      None "2024-03" None
    = Threw ("Error: " ++ message).
Proof.
  exact (part000_findMissing_always_throws Reference.platform plainTexts
           (Some exampleSheet) None "2024-03" None reference_sort_conforms).
Defined.

(** X25 (src/Code.js, parseDateValue): the date normalizer of [Code.js]
    never raises.  It returns [null] for a cell that is empty, a boolean,
    an invalid date, a number that is not positive or a blank text, and a
    string it returns is the platform's [yyyy-MM-dd] form, in the script
    time zone, of the date it read. *)
Theorem codejs_parseDateValue_total (P : Platform) (dateValue : value) (rowIndex : nat) :
  (exists r, CodeJs.parseDateValue P dateValue rowIndex = Returned r)
  /\ (dateValue = VUndefined \/ dateValue = VNull \/ (exists b, dateValue = VBool b)
      \/ dateValue = VDate None
      \/ (exists x, dateValue = VNum x /\ (x <= 0)%Q)
      \/ (exists s, dateValue = VStr s /\ trim s = "") ->
      CodeJs.parseDateValue P dateValue rowIndex = Returned None)
  /\ (forall ymd,
        CodeJs.parseDateValue P dateValue rowIndex = Returned (Some ymd) ->
        exists t,
          CodeJs.parsedDateOf P dateValue = Some t
          /\ utilFormatDate P t SCRIPT_TIMEZONE "yyyy-MM-dd" = Some ymd).
Proof.
  split; [apply codejs_parseDateValue_returns|]. split.
  - unfold CodeJs.parseDateValue.
    intros [->|[->|[[b ->]|[->|[(x & -> & Hx)|(s & -> & Hs)]]]]]; try reflexivity.
    + cbn [CodeJs.parsedDateOf]. unfold Qltb.
      apply Qle_bool_iff in Hx. now rewrite Hx.
    + cbn [CodeJs.parsedDateOf]. now rewrite Hs.
  - intros ymd. unfold CodeJs.parseDateValue.
    destruct (CodeJs.parsedDateOf P dateValue) as [t|]; [|discriminate].
    destruct (utilFormatDate P t SCRIPT_TIMEZONE "yyyy-MM-dd") as [s|] eqn:Ef;
      [|discriminate].
    intros [= <-]. eauto.
Qed.

Lemma codejs_parseDateValue_total_witness :
  CodeJs.parseDateValue Reference.platform (VNum (-3)) 1 = Returned None
  /\ exists t,
       CodeJs.parsedDateOf Reference.platform (VStr " 03-03-2024 ") = Some t
       /\ utilFormatDate Reference.platform t SCRIPT_TIMEZONE "yyyy-MM-dd"
          = Some "2024-03-03".
Proof.
  split.
  - pose proof (proj1 (proj2 (codejs_parseDateValue_total Reference.platform
                                (VNum (-3)) 1))) as Hnull.
    apply Hnull. right. right. right. right. left. exists (-3)%Q.
    split; [reflexivity | discriminate].
  - pose proof (proj2 (proj2 (codejs_parseDateValue_total Reference.platform
                                (VStr " 03-03-2024 ") 1)) "2024-03-03") as Hfmt.
    apply Hfmt. vm_compute. reflexivity.
Defined.

(** ** The missing-dates report *)

Lemma selectMonth_current set currentMonth sorted :
  selectMonth (Some currentMonth) set currentMonth sorted
  = selectMonth None set currentMonth sorted.
Proof.
  unfold selectMonth.
  destruct (negb (currentMonth =? "")%string); cbn [andb]; [|reflexivity].
  destruct (includes set currentMonth); reflexivity.
Qed.

Lemma selectMonth_absent requested set currentMonth sorted :
  ~ In requested set ->
  selectMonth (Some requested) set currentMonth sorted
  = selectMonth None set currentMonth sorted.
Proof.
  intros Hn. unfold selectMonth. apply includes_false_iff in Hn. rewrite Hn.
  now rewrite andb_false_r.
Qed.

Lemma codejs_dashboard_same_selection (P : Platform) (sheet : option table)
  (currentMonth : string) (requested requested' : option string) :
  (forall st,
     match sheet with
     | Some rows =>
         firstPassLoop (CodeJs.parseDateValue P) HEADER_ROWS (skipn HEADER_ROWS rows)
           {| availableMonthsSet := []; allValidDataItems := [] |} = PassDone st
     | None => False
     end ->
     selectMonth requested (availableMonthsSet st) currentMonth
       (sortedDownwards P (availableMonthsSet st))
     = selectMonth requested' (availableMonthsSet st) currentMonth
         (sortedDownwards P (availableMonthsSet st))) ->
  CodeJs.getDataForDashboard P sheet currentMonth requested
  = CodeJs.getDataForDashboard P sheet currentMonth requested'.
Proof.
  intros Hsel. unfold CodeJs.getDataForDashboard.
  destruct sheet as [rows|]; [|reflexivity].
  destruct (List.length rows <=? HEADER_ROWS)%nat; [reflexivity|].
  destruct (firstPassLoop _ _ _ _) as [st|st thrown] eqn:El; [|reflexivity].
  now rewrite (Hsel st eq_refl).
Qed.

Lemma codejs_month_fallback (P : Platform) (rows : table) (items : list dataItem)
  (clockMonth requested : string) :
  firstPass (CodeJs.parseDateValue P) rows = Returned items ->
  ~ hasData items requested ->
  CodeJs.getDataForDashboard P (Some rows) clockMonth (Some requested)
  = CodeJs.getDataForDashboard P (Some rows) clockMonth None.
Proof.
  intros Hitems Hno.
  apply codejs_dashboard_same_selection. intros st Hst.
  apply selectMonth_absent. intros Hin.
  pose proof (firstPassLoop_firstPassFrom (CodeJs.parseDateValue P)
                (skipn HEADER_ROWS rows) HEADER_ROWS
                {| availableMonthsSet := []; allValidDataItems := [] |}) as Hloop.
  unfold firstPass in Hitems. rewrite Hitems, Hst in Hloop. injection Hloop as ->.
  cbn [availableMonthsSet] in Hin. apply monthsOf_In in Hin.
  destruct Hin as [[]|Hin]. contradiction.
Qed.

Lemma codejs_month_current (P : Platform) (sheet : option table) (clockMonth : string) :
  CodeJs.getDataForDashboard P sheet clockMonth (Some clockMonth)
  = CodeJs.getDataForDashboard P sheet clockMonth None.
Proof.
  apply codejs_dashboard_same_selection. intros st Hst. apply selectMonth_current.
Qed.

(** X11 (src/Code.js, getDataForDashboard and findMissingDateEntries): a
    month that has no data is answered as if no month had been asked for.
    The dashboard and the missing-dates report are those of the fallback
    month, the current month or else the latest one with data. *)
Theorem codejs_month_without_data (P : Platform) (rows : table)
  (items : list dataItem) (clockMonth requested : string) :
  firstPass (CodeJs.parseDateValue P) rows = Returned items ->
  ~ hasData items requested ->
  CodeJs.getDataForDashboard P (Some rows) clockMonth (Some requested)
  = CodeJs.getDataForDashboard P (Some rows) clockMonth None
  /\ CodeJs.findMissingDateEntries P (Some rows) clockMonth (Some requested)
     = CodeJs.findMissingDateEntries P (Some rows) clockMonth None.
Proof.
  intros Hitems Hno.
  pose proof (codejs_month_fallback P rows items clockMonth requested Hitems Hno)
    as Hnone.
  split; [exact Hnone|].
  unfold CodeJs.findMissingDateEntries.
  destruct (requested =? "")%string; [reflexivity|].
  now rewrite Hnone, codejs_month_current.
Qed.

Lemma codejs_month_without_data_witness :
  CodeJs.getDataForDashboard Reference.platform (Some exampleSheet) "2024-03"
    (Some "2023-11")
  = CodeJs.getDataForDashboard Reference.platform (Some exampleSheet) "2024-03" None
  /\ CodeJs.findMissingDateEntries Reference.platform (Some exampleSheet) "2024-03"
       (Some "2023-11")
     = CodeJs.findMissingDateEntries Reference.platform (Some exampleSheet) "2024-03"
         None.
Proof.
  refine (codejs_month_without_data Reference.platform exampleSheet exampleItems
            "2024-03" "2023-11" exampleItems_firstPass _).
  intros (item & Hin & Hm). vm_compute in Hin.
  repeat (destruct Hin as [<-|Hin]; [vm_compute in Hm; discriminate Hm|]).
  exact Hin.
Defined.

Lemma missingDatesOf_nil_iff dates (cells : jsobject (jsobject cell)) :
  missingDatesOf dates cells <> [] <-> exists k, In k dates /\ getProp k cells = None.
Proof.
  unfold missingDatesOf. split.
  - intros Hne.
    destruct (filter _ dates) as [|k l] eqn:E; [congruence|].
    assert (Hin : In k (filter (fun date => match getProp date cells with
                                            | Some _ => false | None => true end) dates))
      by (rewrite E; now left).
    apply filter_In in Hin. destruct Hin as [Hin Hk].
    exists k. split; [assumption|]. destruct (getProp k cells); [discriminate|reflexivity].
  - intros (k & Hin & Hk) Hnil.
    assert (Hf : In k (filter (fun date => match getProp date cells with
                                           | Some _ => false | None => true end) dates)).
    { apply filter_In. split; [assumption|]. now rewrite Hk. }
    rewrite Hnil in Hf. destruct Hf.
Qed.

Lemma listedRow_flag (P : Platform) pd keys c :
  isMissingData (listedRow P pd keys c) = true <-> LacksACell keys (listedRow P pd keys c).
Proof.
  unfold LacksACell, listedRow. cbn [isMissingData rowDateData].
  destruct keys as [|k keys].
  - split; [discriminate | intros (k & [] & _)].
  - destruct (getProp c pd) as [agg|].
    + apply lacksSomeDate_iff.
    + split; [|reflexivity]. intros _. exists k. split; [now left | reflexivity].
Qed.

Lemma codejs_rows_flag (P : Platform) dataItems selectedMonth isSundayData r row :
  CodeJs.processAndSortData P dataItems selectedMonth isSundayData = Returned r ->
  In row (templateData r) -> isMissingData row = true ->
  LacksACell (sortedDates r) row.
Proof.
  intros Hr Hin Hflag. apply codejs_processAndSortData_inv in Hr. cbv zeta in Hr.
  destruct Hr as [(_ & _ & ->)|(extras & Hx & ->)]; [destruct Hin|].
  cbn [templateData sortedDates] in *. apply in_app_or in Hin. destruct Hin as [Hin|Hin].
  - apply in_map_iff in Hin. destruct Hin as (c & <- & _). now apply listedRow_flag.
  - apply codejs_appendExtras_inv in Hx. destruct Hx as [_ Hf].
    rewrite Forall_forall in Hf. specialize (Hf row Hin).
    apply codejs_extraRow_inv in Hf. destruct Hf as (_ & Hf & _). congruence.
Qed.

Lemma part000_rows_flag (P : Platform) dataItems selectedMonth isSundayData listed r row :
  Part000.processAndSortData P dataItems selectedMonth isSundayData listed = Returned r ->
  In row (templateData r) ->
  (isMissingData row = true <-> LacksACell (sortedDates r) row).
Proof.
  intros Hr Hin. apply part000_processAndSortData_inv in Hr. cbv zeta in Hr.
  destruct Hr as (extras & Hx & ->).
  cbn [templateData sortedDates] in *. apply in_app_or in Hin. destruct Hin as [Hin|Hin].
  - apply in_map_iff in Hin. destruct Hin as (c & <- & _). apply listedRow_flag.
  - apply part000_appendExtras_inv in Hx. destruct Hx as [Hf _].
    rewrite Forall_forall in Hf. specialize (Hf row Hin).
    apply part000_extraRow_inv in Hf. now destruct Hf as (_ & Hf & _).
Qed.

(** X12 (src/Code.js, findMissingDateEntries and processAndSortData): the
    Sunday part of the report covers the flags of the pivot.  Each line is
    the line of a row that has no cell for one of the dates, and every row
    the aggregator flags as missing data has its line. *)
Theorem codejs_flagged_rows_reported (P : Platform) (dataItems : list dataItem)
  (selectedMonth : string) (isSundayData : bool) (r : pivotResult) :
  CodeJs.processAndSortData P dataItems selectedMonth isSundayData = Returned r ->
  (forall line,
     In line (CodeJs.sundayEntries (Some r)) <->
     exists row,
       In row (templateData r) /\ LacksACell (sortedDates r) row
       /\ line = reportLine "Sunday" (sortedDates r) row)
  /\ (forall row,
        In row (templateData r) -> isMissingData row = true ->
        In (reportLine "Sunday" (sortedDates r) row) (CodeJs.sundayEntries (Some r))).
Proof.
  intros Hr.
  assert (Hlines : forall line,
            In line (CodeJs.sundayEntries (Some r)) <->
            exists row,
              In row (templateData r) /\ LacksACell (sortedDates r) row
              /\ line = reportLine "Sunday" (sortedDates r) row).
  { intros line. unfold CodeJs.sundayEntries, LacksACell.
    assert (Hflat : In line
              (flat_map
                 (fun center =>
                    match missingDatesOf (sortedDates r) (rowDateData center) with
                    | [] => []
                    | missingDates =>
                        [ centre center ++ " (Sunday): " ++ String.concat ", " missingDates ]
                    end)
                 (templateData r))
              <-> exists row,
                    In row (templateData r)
                    /\ (exists k, In k (sortedDates r) /\ getProp k (rowDateData row) = None)
                    /\ line = reportLine "Sunday" (sortedDates r) row).
    { rewrite in_flat_map. split.
      - intros (row & Hin & Hl). exists row. split; [assumption|].
        pose proof (missingDatesOf_nil_iff (sortedDates r) (rowDateData row)) as Hm.
        unfold reportLine.
        destruct (missingDatesOf (sortedDates r) (rowDateData row)) as [|d ds];
          [destruct Hl|].
        destruct Hl as [<-|[]]. split; [apply Hm; discriminate | reflexivity].
      - intros (row & Hin & Hk & ->). exists row. split; [assumption|].
        apply missingDatesOf_nil_iff in Hk. unfold reportLine.
        destruct (missingDatesOf (sortedDates r) (rowDateData row)) as [|d ds];
          [congruence | now left]. }
    destruct (templateData r) as [|row0 rows] eqn:Et; [|exact Hflat].
    split; [intros [] | intros (row & [] & _)]. }
  split; [exact Hlines|].
  intros row Hin Hflag. apply Hlines. exists row. split; [assumption|].
  split; [|reflexivity]. exact (codejs_rows_flag P _ _ _ _ _ Hr Hin Hflag).
Qed.

Lemma codejs_flagged_rows_reported_witness :
  exists r,
    CodeJs.processAndSortData Reference.platform extraCentreBucket "2024-03" true
    = Returned r
    /\ In "ALWAR-2 (Sunday): 03-03-2024, 10-03-2024" (CodeJs.sundayEntries (Some r)).
Proof.
  destruct (CodeJs.processAndSortData Reference.platform extraCentreBucket "2024-03" true)
    as [r|] eqn:Er; [|vm_compute in Er; discriminate].
  exists r. split; [reflexivity|].
  pose proof (proj2 (codejs_flagged_rows_reported Reference.platform extraCentreBucket
                       "2024-03" true r Er)
                (nth 1 (templateData r) (listedRow Reference.platform [] [] "")))
    as Hrep.
  vm_compute in Er. injection Er as <-.
  vm_compute in Hrep. vm_compute. apply Hrep; [right; left|]; reflexivity.
Defined.

(** X13 (src/unnamed/part_000, findMissingDateEntries and
    processAndSortData): in the second script file the Sunday part of the
    report and the flags of the pivot agree.  A row of a pivot is flagged
    as missing data exactly when the report has an entry with its centre
    and its missing dates. *)
Theorem part000_report_iff_flagged (P : Platform) (dataItems : list dataItem)
  (selectedMonth : string) (isSundayData : bool) (listed : option (list string))
  (r : pivotResult) (row : templateRow) :
  Part000.processAndSortData P dataItems selectedMonth isSundayData listed = Returned r ->
  In row (templateData r) ->
  (isMissingData row = true
   <-> In {| centerName := centre row; day := "Sunday";
             dates := missingDatesOf (sortedDates r) (rowDateData row) |}
          (Part000.sundayEntries (Some r))).
Proof.
  intros Hr Hin.
  assert (Hent : forall e,
            In e (Part000.sundayEntries (Some r)) <->
            exists row',
              In row' (templateData r)
              /\ missingDatesOf (sortedDates r) (rowDateData row') <> []
              /\ e = {| centerName := centre row'; day := "Sunday";
                        dates := missingDatesOf (sortedDates r) (rowDateData row') |}).
  { intros e. unfold Part000.sundayEntries.
    assert (Hflat : In e
              (flat_map
                 (fun center =>
                    match missingDatesOf (sortedDates r) (rowDateData center) with
                    | [] => []
                    | missingDates =>
                        [ {| centerName := centre center; day := "Sunday";
                             dates := missingDates |} ]
                    end)
                 (templateData r))
              <-> exists row',
                    In row' (templateData r)
                    /\ missingDatesOf (sortedDates r) (rowDateData row') <> []
                    /\ e = {| centerName := centre row'; day := "Sunday";
                              dates := missingDatesOf (sortedDates r) (rowDateData row') |}).
    { rewrite in_flat_map. split.
      - intros (row' & Hin' & Hl). exists row'. split; [assumption|].
        destruct (missingDatesOf (sortedDates r) (rowDateData row')) as [|d ds];
          [destruct Hl|].
        destruct Hl as [<-|[]]. split; [discriminate | reflexivity].
      - intros (row' & Hin' & Hne & ->). exists row'. split; [assumption|].
        destruct (missingDatesOf (sortedDates r) (rowDateData row')) as [|d ds];
          [congruence | now left]. }
    destruct (templateData r) as [|row0 rows] eqn:Et.
    { split; [intros [] | intros (row' & [] & _)]. }
    destruct (sortedDates r) as [|d0 ds] eqn:Ed; [|exact Hflat].
    split; [intros []|]. intros (row' & _ & Hne & _). now apply Hne. }
  rewrite (part000_rows_flag P _ _ _ _ _ _ Hr Hin), Hent.
  unfold LacksACell. rewrite <- missingDatesOf_nil_iff. split.
  - intros Hne. exists row. auto.
  - intros (row' & _ & Hne & [= _ Hd]). now rewrite Hd.
Qed.

Lemma part000_report_iff_flagged_witness :
  exists r row,
    Part000.processAndSortData Reference.platform extraCentreBucket "2024-03" true
      (Some customCentreOrder) = Returned r
    /\ In row (templateData r) /\ centre row = "ZED"
    /\ In {| centerName := "ZED"; day := "Sunday"; dates := ["10-03-2024"] |}
          (Part000.sundayEntries (Some r)).
Proof.
  destruct (Part000.processAndSortData Reference.platform extraCentreBucket "2024-03" true
              (Some customCentreOrder)) as [r|] eqn:Er; [|vm_compute in Er; discriminate].
  exists r, (last (templateData r) (listedRow Reference.platform [] [] "")).
  split; [reflexivity|].
  assert (Hin : In (last (templateData r) (listedRow Reference.platform [] [] ""))
                  (templateData r))
    by (vm_compute in Er; injection Er as <-; vm_compute; auto 60).
  pose proof (proj1 (part000_report_iff_flagged Reference.platform extraCentreBucket
                       "2024-03" true (Some customCentreOrder) r _ Er Hin)) as Hrep.
  split; [exact Hin|].
  vm_compute in Er. injection Er as <-.
  split; [vm_compute; reflexivity|].
  apply Hrep. vm_compute. reflexivity.
Defined.

Lemma codejs_extras_centres (P : Platform) (dataItems : list dataItem)
  (selectedMonth : string) (r : pivotResult) (row : templateRow) :
  SortConforms P ->
  CodeJs.processAndSortData P dataItems selectedMonth false = Returned r ->
  In row (templateData r) ->
  In (centre row) (map brCentre (bucketRows P dataItems)).
Proof.
  intros Hsort Hr Hin. apply codejs_processAndSortData_inv in Hr. cbv zeta in Hr.
  destruct Hr as [(_ & _ & ->)|(extras & Hx & ->)]; [destruct Hin|].
  cbn [templateData map app] in Hin.
  apply codejs_appendExtras_inv in Hx. destruct Hx as [Hm _].
  assert (Hc : In (centre row) (map centre extras)) by now apply in_map.
  rewrite Hm in Hc. apply filter_In in Hc. destruct Hc as [Hc _].
  pose proof (sortedCentreNames_defined P dataItems (centre row) Hsort Hc) as Hdef.
  unfold processedDataOf in Hdef. rewrite forEachItem_rows in Hdef. cbn [fst] in Hdef.
  unfold bucketRows. apply (proj1 (centres_key_iff P _ _)).
  destruct (getProp (centre row) (fold_left (stepCentres P) (rowsFrom P dataItems 0) []))
    eqn:E; [|congruence].
  now apply getProp_Some_key in E.
Qed.

(** X14 (src/Code.js, findMissingDateEntries and processAndSortData): the
    Wednesday part of the report speaks of the centres of the fixed
    Wednesday list only, and a centre of that list without any Wednesday
    row in the month is reported with every Wednesday date of the month. *)
Theorem codejs_wednesday_report (P : Platform) (dataItems : list dataItem)
  (selectedMonth : string) (r : pivotResult) :
  SortConforms P ->
  CodeJs.processAndSortData P dataItems selectedMonth false = Returned r ->
  (forall line,
     In line (CodeJs.wednesdayEntries (Some r)) ->
     exists c missing,
       In c CodeJs.staticWednesdayCenters /\ missing <> []
       /\ incl missing (sortedDates r)
       /\ line = c ++ " (Wednesday): " ++ String.concat ", " missing)
  /\ (forall c,
        In c CodeJs.staticWednesdayCenters ->
        sortedDates r <> [] ->
        ~ In c (map brCentre (bucketRows P dataItems)) ->
        In (c ++ " (Wednesday): " ++ String.concat ", " (sortedDates r))
          (CodeJs.wednesdayEntries (Some r))).
Proof.
  intros Hsort Hr. unfold CodeJs.wednesdayEntries. split.
  - intros line Hin.
    destruct (sortedDates r) as [|d ds] eqn:Ed; [destruct Hin|].
    apply in_flat_map in Hin. destruct Hin as (c & Hc & Hl).
    match type of Hl with
    | In line match ?m with _ => _ end => remember m as missing eqn:Em
    end.
    exists c, missing. split; [assumption|].
    destruct missing as [|x xs]; [destruct Hl|].
    destruct Hl as [<-|[]]. split; [discriminate|]. split; [|reflexivity].
    destruct (find _ (templateData r)) as [row|].
    + rewrite Em. unfold missingDatesOf. intros k Hk. apply filter_In in Hk. tauto.
    + rewrite Em. apply incl_refl.
  - intros c Hc Hne Hno.
    destruct (sortedDates r) as [|d ds] eqn:Ed; [congruence|].
    apply in_flat_map. exists c. split; [assumption|].
    destruct (find (fun row => (centre row =? c)%string) (templateData r)) as [row|] eqn:Ef.
    + exfalso. apply find_some in Ef. destruct Ef as [Hin Heq].
      apply String.eqb_eq in Heq. subst c. apply Hno.
      exact (codejs_extras_centres P _ _ _ _ Hsort Hr Hin).
    + now left.
Qed.

Lemma codejs_wednesday_report_witness :
  exists r,
    CodeJs.processAndSortData Reference.platform extraCentreBucket "2024-03" false
    = Returned r
    /\ In "BEHROR (Wednesday): 03-03-2024, 10-03-2024" (CodeJs.wednesdayEntries (Some r)).
Proof.
  destruct (CodeJs.processAndSortData Reference.platform extraCentreBucket "2024-03" false)
    as [r|] eqn:Er; [|vm_compute in Er; discriminate].
  exists r. split; [reflexivity|].
  pose proof (proj2 (codejs_wednesday_report Reference.platform extraCentreBucket
                       "2024-03" r reference_sort_conforms Er) "BEHROR") as Hrep.
  vm_compute in Er. injection Er as <-.
  apply Hrep.
  - vm_compute. auto.
  - discriminate.
  - vm_compute. intros [H|[H|[H|[]]]]; discriminate H.
Defined.

(** ** The Wednesday centres of the Configuration sheet *)

Lemma mapOutcome_hasText (T : Texts) (cells : list value) :
  Forall (fun v => hasText T v = true) cells ->
  exists texts,
    mapOutcome (toStringOf T) cells = Returned texts
    /\ List.length texts = List.length cells
    /\ Forall (fun s => s <> "") texts.
Proof.
  induction 1 as [|v cells Hv _ IH]; cbn [mapOutcome].
  - exists []. auto.
  - destruct IH as (texts & -> & Hlen & Hall). unfold hasText in Hv.
    destruct (toStringOf T v) as [s|]; [|discriminate]. cbn [bind].
    exists (s :: texts). split; [reflexivity|]. split; [simpl; congruence|].
    constructor; [|assumption]. intros ->. discriminate.
Qed.

Lemma filter_hasText_all (T : Texts) (cells : list value) :
  Forall (fun v => hasText T v = true) cells -> filter (hasText T) cells = cells.
Proof.
  induction 1 as [|v cells Hv _ IH]; simpl; [reflexivity|]. now rewrite Hv, IH.
Qed.

Lemma filter_hasText_none (T : Texts) (cells : list value) :
  Forall (fun v => hasText T v = false) cells -> filter (hasText T) cells = [].
Proof.
  induction 1 as [|v cells Hv _ IH]; simpl; [reflexivity|]. now rewrite Hv, IH.
Qed.

Lemma static_centres_no_gap (T : Texts) (names : list value) :
  Forall (fun v => hasText T v = true) names ->
  Part000.getStaticWednesdayCentersFromSheet T (Some names)
  = match mapOutcome (toStringOf T) names with
    | Returned texts => filter (fun name => negb (name =? "")%string) (map trim texts)
    | Threw _ => []
    end.
Proof.
  intros Hnames. unfold Part000.getStaticWednesdayCentersFromSheet.
  rewrite (filter_hasText_all T names Hnames), firstn_all.
  destruct names as [|v names]; reflexivity.
Qed.

(** X15 (src/unnamed/part_000, getStaticWednesdayCentersFromSheet): when
    the cells with a text stand at the top of column A, one after the other,
    every one of them is read: the centres are their texts, trimmed, those
    that are blank left out. *)
Theorem static_centres_without_gaps (T : Texts) (names blanks : list value) :
  Forall (fun v => hasText T v = true) names ->
  Forall (fun v => hasText T v = false) blanks ->
  exists texts,
    mapOutcome (toStringOf T) names = Returned texts
    /\ Part000.getStaticWednesdayCentersFromSheet T (Some (names ++ blanks)%list)
       = filter (fun name => negb (name =? "")%string) (map trim texts).
Proof.
  intros Hnames Hblanks.
  destruct (mapOutcome_hasText T names Hnames) as (texts & Htexts & _ & _).
  exists texts. split; [assumption|].
  unfold Part000.getStaticWednesdayCentersFromSheet.
  rewrite filter_app, (filter_hasText_all T names Hnames),
    (filter_hasText_none T blanks Hblanks), app_nil_r.
  rewrite firstn_app, Nat.sub_diag, firstn_all, firstn_O, app_nil_r, Htexts.
  destruct names as [|v names]; [|reflexivity].
  cbn in Htexts. injection Htexts as <-. reflexivity.
Qed.

Lemma static_centres_without_gaps_witness :
  Part000.getStaticWednesdayCentersFromSheet plainTexts
    (Some ([VStr " ALWAR"; VStr "BEHROR "; VNum 7] ++ [VStr ""; VStr ""])%list)
  = ["ALWAR"; "BEHROR"; "7"].
Proof.
  destruct (static_centres_without_gaps plainTexts [VStr " ALWAR"; VStr "BEHROR "; VNum 7]
              [VStr ""; VStr ""]) as (texts & Htexts & ->).
  - repeat constructor.
  - repeat constructor.
  - vm_compute in Htexts. injection Htexts as <-. vm_compute. reflexivity.
Defined.

Lemma firstn_repeat {A : Type} (x : A) (k : nat) : forall n,
  firstn n (repeat x k) = repeat x (Nat.min n k).
Proof.
  induction k as [|k IH]; intros [|n]; simpl; try reflexivity. now rewrite IH.
Qed.

Lemma blank_texts (T : Texts) (k : nat) :
  mapOutcome (toStringOf T) (repeat (VStr "") k) = Returned (repeat "" k).
Proof. induction k as [|k IH]; simpl; [reflexivity|]. now rewrite IH. Qed.

Lemma mapOutcome_app {A B : Type} (f : A -> outcome B) (l l' : list A) :
  mapOutcome f (l ++ l')
  = bind (mapOutcome f l) (fun ys =>
      bind (mapOutcome f l') (fun ys' => Returned (ys ++ ys')%list)).
Proof.
  induction l as [|x l IH]; simpl.
  - destruct (mapOutcome f l'); reflexivity.
  - destruct (f x) as [y|]; simpl; [|reflexivity]. rewrite IH.
    destruct (mapOutcome f l) as [ys|]; simpl; [|reflexivity].
    destruct (mapOutcome f l'); reflexivity.
Qed.

Lemma filter_blank_repeat (k : nat) (l : list string) :
  filter (fun name => negb (name =? "")%string) (map trim (repeat "" k ++ l))
  = filter (fun name => negb (name =? "")%string) (map trim l).
Proof. induction k as [|k IH]; simpl; [reflexivity | exact IH]. Qed.

(** X16 (src/unnamed/part_000, getStaticWednesdayCentersFromSheet): the
    number of cells with a text is taken for the row of the last one, so
    empty cells above the names cost as many names at the end: with [k]
    empty cells on top of the names, the centres returned are those of the
    names without the last [k]. *)
Theorem static_centres_gap (T : Texts) (k : nat) (names : list value) :
  Forall (fun v => hasText T v = true) names ->
  Part000.getStaticWednesdayCentersFromSheet T
    (Some (repeat (VStr "") k ++ names)%list)
  = Part000.getStaticWednesdayCentersFromSheet T
      (Some (firstn (List.length names - k) names)).
Proof.
  intros Hnames.
  assert (Hkept : Forall (fun v => hasText T v = true)
                    (firstn (List.length names - k) names)).
  { apply Forall_forall. intros v Hv. rewrite Forall_forall in Hnames.
    apply Hnames. rewrite <- (firstn_skipn (List.length names - k) names).
    apply in_or_app. now left. }
  pose proof (static_centres_no_gap T _ Hkept) as Hright.
  destruct (mapOutcome_hasText T _ Hkept) as (texts & Htexts & _ & _).
  rewrite Htexts in Hright. rewrite Hright.
  unfold Part000.getStaticWednesdayCentersFromSheet.
  rewrite filter_app, (filter_hasText_all T names Hnames).
  rewrite (filter_hasText_none T (repeat (VStr "") k)), app_nil_l
    by (apply Forall_forall; intros v Hv; apply repeat_spec in Hv; now subst).
  destruct (List.length names =? 0)%nat eqn:En.
  { apply Nat.eqb_eq in En. rewrite En in Htexts. cbn in Htexts.
    injection Htexts as <-. reflexivity. }
  rewrite firstn_app, firstn_repeat, repeat_length, mapOutcome_app, blank_texts, Htexts.
  cbn [bind]. apply filter_blank_repeat.
Qed.

Lemma static_centres_gap_witness :
  Part000.getStaticWednesdayCentersFromSheet plainTexts
    (Some (repeat (VStr "") 1 ++ [VStr "ALWAR"; VStr "BEHROR"; VStr "BHIWADI"])%list)
  = ["ALWAR"; "BEHROR"].
Proof.
  rewrite (static_centres_gap plainTexts 1 [VStr "ALWAR"; VStr "BEHROR"; VStr "BHIWADI"]).
  - vm_compute. reflexivity.
  - repeat constructor.
Defined.

(** ** Padding of date texts *)






(** ** The cleanup list *)

Lemma splitOn_nonempty sep s : splitOn sep s <> [].
Proof.
  destruct s as [|a r]; cbn [splitOn]; [discriminate|].
  destruct (Ascii.eqb a sep); [discriminate|]. destruct (splitOn sep r); discriminate.
Qed.

Lemma splitOn_app sep p b :
  splitOn sep (p ++ String sep b) = (splitOn sep p ++ splitOn sep b)%list.
Proof.
  induction p as [|a r IH]; cbn [append splitOn].
  - now rewrite Ascii.eqb_refl.
  - destruct (Ascii.eqb a sep); [now rewrite IH|]. rewrite IH.
    pose proof (splitOn_nonempty sep r) as Hne.
    destruct (splitOn sep r); [congruence | reflexivity].
Qed.

Lemma splitOn_commaFree s : commaFree s = true -> splitOn "," s = [s].
Proof.
  induction s as [|a r IH]; cbn [commaFree splitOn]; [reflexivity|].
  intros H. apply andb_prop in H. destruct H as [Ha Hr].
  apply negb_true_iff in Ha. rewrite Ha, (IH Hr). reflexivity.
Qed.

Lemma append_assoc (a b c : string) : ((a ++ b) ++ c = a ++ (b ++ c))%string.
Proof. induction a as [|x a IH]; simpl; [reflexivity | now rewrite IH]. Qed.

Lemma cleanup_ids_step (prop : option string) (a b : string) :
  commaFree a = true -> commaFree b = true ->
  fst (deleteTemporaryFile (Some (addToCleanupList prop a b)))
  = (fst (deleteTemporaryFile prop) ++ [a; b])%list
  /\ snd (deleteTemporaryFile (Some (addToCleanupList prop a b))) = None.
Proof.
  intros Ha Hb.
  assert (Hpair : splitOn "," (a ++ "," ++ b) = [a; b]).
  { change (a ++ "," ++ b)%string with (a ++ String "," b)%string.
    now rewrite splitOn_app, (splitOn_commaFree a Ha), (splitOn_commaFree b Hb). }
  assert (Hlast : forall p,
            splitOn "," (p ++ "," ++ a ++ "," ++ b) = (splitOn "," p ++ [a; b])%list).
  { intros p. change (p ++ "," ++ a ++ "," ++ b)%string
      with (p ++ String "," (a ++ "," ++ b))%string.
    now rewrite splitOn_app, Hpair. }
  assert (Hne : forall p q, (p ++ "," ++ q =? "")%string = false).
  { intros p q. apply String.eqb_neq. destruct p; discriminate. }
  unfold deleteTemporaryFile, addToCleanupList.
  destruct prop as [p|].
  - destruct (p =? "")%string eqn:Ep.
    + rewrite Hne, Hpair. auto.
    + rewrite Hne, Hlast. auto.
  - cbn [String.eqb]. rewrite Hne, Hpair. auto.
Qed.

(** X18 (src/Code.js, exportFilteredDataToExcel, exportCompleteDataToExcel
    and deleteTemporaryFile): the cleanup list loses no file.  After any
    run of exports, started with no list, the cleanup asks to trash the
    temporary spreadsheet and the Excel file of every export, in the order
    of the exports, and removes the list. *)
Theorem cleanup_round_trip (exports : list (string * string)) :
  Forall (fun export => commaFree (fst export) = true /\ commaFree (snd export) = true)
    exports ->
  deleteTemporaryFile (recordExports None exports)
  = (flat_map (fun export => [fst export; snd export]) exports, None).
Proof.
  intros Hfree.
  assert (Hgen : forall prop,
            fst (deleteTemporaryFile (recordExports prop exports))
            = (fst (deleteTemporaryFile prop)
               ++ flat_map (fun export => [fst export; snd export]) exports)%list
            /\ (exports <> [] ->
                snd (deleteTemporaryFile (recordExports prop exports)) = None)).
  { unfold recordExports.
    induction Hfree as [|[a b] rest [Ha Hb] _ IH]; intros prop; cbn [fold_left flat_map].
    - rewrite app_nil_r. split; [reflexivity | congruence].
    - destruct (IH (Some (addToCleanupList prop a b))) as [IH1 IH2].
      destruct (cleanup_ids_step prop a b Ha Hb) as [Hs1 Hs2].
      cbn [fst snd] in *. split.
      + rewrite IH1, Hs1, <- app_assoc. reflexivity.
      + intros _. destruct rest as [|e rest]; [exact Hs2 | apply IH2; discriminate]. }
  destruct exports as [|e exports]; [reflexivity|].
  destruct (Hgen None) as [H1 H2]. specialize (H2 ltac:(discriminate)).
  destruct (deleteTemporaryFile (recordExports None (e :: exports))) as [ids prop].
  cbn [fst snd] in *. now subst.
Qed.

Lemma cleanup_round_trip_witness :
  deleteTemporaryFile (recordExports None [("s1", "x1"); ("s2", "x2")])
  = (["s1"; "x1"; "s2"; "x2"], None).
Proof.
  apply (cleanup_round_trip [("s1", "x1"); ("s2", "x2")]).
  repeat constructor.
Defined.

(** ** The sheets of the exports *)

Section SheetFacts.
Local Open Scope nat_scope.

Lemma dateHeaderOps_spec datesHeaderRow dates : forall columnIndex,
  snd (dateHeaderOps datesHeaderRow dates columnIndex) = columnIndex + List.length dates
  /\ forall op,
       In op (fst (dateHeaderOps datesHeaderRow dates columnIndex)) <->
       exists j dateStr,
         nth_error dates j = Some dateStr
         /\ op = SetValue datesHeaderRow (columnIndex + j) dateStr.
Proof.
  induction dates as [|d dates IH]; intros c; cbn [dateHeaderOps].
  - split; [simpl; lia|]. intros op. split; [intros []|].
    intros (j & x & Hj & _). destruct j; discriminate.
  - specialize (IH (S c)). destruct (dateHeaderOps datesHeaderRow dates (S c)) as [ops l].
    cbn [fst snd] in *. destruct IH as [Hl Hops]. split; [simpl; lia|].
    intros op. cbn [In]. rewrite Hops. split.
    + intros [<-|(j & x & Hj & ->)].
      * exists 0, d. split; [reflexivity | f_equal; lia].
      * exists (S j), x. split; [exact Hj | f_equal; lia].
    + intros ([|j] & x & Hj & ->).
      * left. injection Hj as ->. f_equal. lia.
      * right. exists j, x. split; [exact Hj | f_equal; lia].
Qed.

Lemma dateCellOps_spec rowIndex dateData dates : forall columnIndex,
  snd (dateCellOps rowIndex dateData dates columnIndex) = columnIndex + List.length dates
  /\ forall op,
       In op (fst (dateCellOps rowIndex dateData dates columnIndex)) <->
       exists j dateStr details,
         nth_error dates j = Some dateStr
         /\ getProp dateStr dateData = Some details
         /\ op = SetValue rowIndex (columnIndex + j) (fieldOrEmpty "totalSangat" details).
Proof.
  induction dates as [|d dates IH]; intros c; cbn [dateCellOps].
  - split; [simpl; lia|]. intros op. split; [intros []|].
    intros (j & x & details & Hj & _). destruct j; discriminate.
  - specialize (IH (S c)). destruct (dateCellOps rowIndex dateData dates (S c)) as [ops l].
    cbn [fst snd] in *. destruct IH as [Hl Hops]. split; [simpl; lia|].
    intros op.
    assert (Hrest : In op ops <->
              exists j dateStr details,
                nth_error (d :: dates) (S j) = Some dateStr
                /\ getProp dateStr dateData = Some details
                /\ op = SetValue rowIndex (c + S j) (fieldOrEmpty "totalSangat" details)).
    { rewrite Hops. split; intros (j & x & details & Hj & Hg & ->);
        exists j, x, details; (split; [exact Hj|]); (split; [exact Hg|]); f_equal; lia. }
    destruct (getProp d dateData) as [details|] eqn:Ed; cbn [In]; rewrite Hrest; split.
    + intros [<-|(j & x & e & Hj & Hg & ->)].
      * exists 0, d, details. split; [reflexivity|]. split; [exact Ed | f_equal; lia].
      * exists (S j), x, e. auto.
    + intros ([|j] & x & e & Hj & Hg & ->).
      * left. injection Hj as <-. rewrite Ed in Hg. injection Hg as <-. f_equal. lia.
      * right. exists j, x, e. auto.
    + intros (j & x & e & Hj & Hg & ->). exists (S j), x, e. auto.
    + intros ([|j] & x & e & Hj & Hg & ->).
      * injection Hj as <-. congruence.
      * exists j, x, e. auto.
Qed.

Lemma centreRowOps_spec dates rows : forall rowIndex columnIndex,
  snd (centreRowOps dates rows rowIndex columnIndex)
  = match rows with [] => columnIndex | _ => 3 + List.length dates end
  /\ forall op,
       In op (fst (centreRowOps dates rows rowIndex columnIndex)) <->
       exists i row,
         nth_error rows i = Some row
         /\ (In op (centreHeadOps (rowIndex + i) row)
             \/ In op (fst (dateCellOps (rowIndex + i) (rowDateData row) dates 3))).
Proof.
  induction rows as [|row rows IH]; intros r c; cbn [centreRowOps].
  - split; [reflexivity|]. intros op. split; [intros []|].
    intros (i & x & Hi & _). destruct i; discriminate.
  - pose proof (dateCellOps_spec r (rowDateData row) dates 3) as [Hc _].
    destruct (dateCellOps r (rowDateData row) dates 3) as [cells after] eqn:Ecells.
    cbn [snd] in Hc. specialize (IH (S r) after).
    destruct (centreRowOps dates rows (S r) after) as [ops l]. cbn [fst snd] in *.
    destruct IH as [Hl Hops]. split.
    { rewrite Hl. destruct rows; [exact Hc | reflexivity]. }
    intros op. rewrite !in_app_iff, Hops. split.
    + intros [H|[H|(i & x & Hi & H)]].
      * exists 0, row. rewrite Nat.add_0_r. auto.
      * exists 0, row. rewrite Nat.add_0_r, Ecells. auto.
      * exists (S i), x. rewrite Nat.add_succ_r. auto.
    + intros ([|i] & x & Hi & H).
      * injection Hi as <-. rewrite Nat.add_0_r, Ecells in H. tauto.
      * right. right. exists i, x. rewrite Nat.add_succ_r in H. auto.
Qed.

Lemma centreHeadOps_In rowIndex row op :
  In op (centreHeadOps rowIndex row) <->
  op = SetValue rowIndex 1 (centre row)
  \/ (isBold row = true /\ op = SetFontWeight rowIndex 1 1 1 "bold")
  \/ (isMissingData row = true /\ op = SetFontColor rowIndex 1 "#FF0000")
  \/ op = SetValue rowIndex 2 (averageSangat row).
Proof.
  unfold centreHeadOps. rewrite !in_app_iff.
  destruct (isBold row), (isMissingData row); cbn [In]; split; intros H;
    repeat match goal with
           | H : _ \/ _ |- _ => destruct H as [H|H]
           | H : _ /\ _ |- _ => destruct H as [? H]
           | H : False |- _ => destruct H
           end; subst; try discriminate; auto 10.
Qed.

(** X19 (src/Code.js and src/unnamed/part_000, createPivotedExcelSheet):
    the layout of a pivoted sheet.  The date of position [j] heads column
    [3 + j]; the centre of position [i] fills row [4 + i], its name in red
    exactly when it is flagged as missing data; and the cell of that row
    under that date is written exactly when the centre has data on the
    date, with its attendance text. *)
Theorem pivoted_sheet_layout (result : pivotResult) (title : string) :
  (forall j dateStr,
     nth_error (sortedDates result) j = Some dateStr ->
     In (SetValue 3 (3 + j) dateStr) (createPivotedExcelSheet result title))
  /\ (forall i row,
        nth_error (templateData result) i = Some row ->
        In (SetValue (4 + i) 1 (centre row)) (createPivotedExcelSheet result title)
        /\ In (SetValue (4 + i) 2 (averageSangat row))
             (createPivotedExcelSheet result title)
        /\ (In (SetFontColor (4 + i) 1 "#FF0000") (createPivotedExcelSheet result title)
            <-> isMissingData row = true)
        /\ forall j dateStr content,
             nth_error (sortedDates result) j = Some dateStr ->
             (In (SetValue (4 + i) (3 + j) content) (createPivotedExcelSheet result title)
              <-> exists details,
                    getProp dateStr (rowDateData row) = Some details
                    /\ content = fieldOrEmpty "totalSangat" details))
  /\ In (AutoResizeColumns 1 (2 + List.length (sortedDates result)))
       (createPivotedExcelSheet result title).
Proof.
  unfold createPivotedExcelSheet.
  pose proof (dateHeaderOps_spec 3 (sortedDates result) 3) as [Hhl Hh].
  destruct (dateHeaderOps 3 (sortedDates result) 3) as [headers columnIndex].
  pose proof (centreRowOps_spec (sortedDates result) (templateData result) (3 + 1)
                columnIndex) as [Hrl Hr].
  destruct (centreRowOps (sortedDates result) (templateData result) (3 + 1) columnIndex)
    as [rows lastColumnIndex].
  cbn [fst snd] in *.
  assert (Hlast : lastColumnIndex - 1 = 2 + List.length (sortedDates result)).
  { rewrite Hrl. destruct (templateData result); lia. }
  split; [|split].
  - intros j d Hj. rewrite !in_app_iff. right. left. apply Hh. eauto.
  - intros i row Hi.
    assert (Hrow : forall op,
              In op (centreHeadOps (4 + i) row)
              \/ In op (fst (dateCellOps (4 + i) (rowDateData row) (sortedDates result) 3)) ->
              In op rows).
    { intros op H. apply Hr. exists i, row. auto. }
    assert (Hcases : forall op,
              In op ([SetValue 1 1 title; SetFontSize 1 1 14; SetFontWeight 1 1 1 1 "bold";
                      SetValue 3 1 "Centre"; SetValue 3 2 "Avg. Sangat"]
                     ++ headers
                     ++ [SetFontWeight 3 1 1 (columnIndex - 1) "bold";
                         SetBackground 3 1 1 (columnIndex - 1) "#f3f3f3"]
                     ++ rows ++ [AutoResizeColumns 1 (lastColumnIndex - 1)])%list ->
              (match op with
               | SetValue r _ _ => r <= 3
               | SetFontColor _ _ _ => False
               | _ => True
               end)
              \/ In op rows).
    { intros op. rewrite !in_app_iff. cbn [In].
      intros [H|[H|[H|[H|H]]]]; auto.
      - left. repeat (destruct H as [<-|H]; [simpl; auto; lia|]). destruct H.
      - left. apply Hh in H. destruct H as (j & d & _ & ->). simpl. lia.
      - left. repeat (destruct H as [<-|H]; [exact I|]). destruct H.
      - left. destruct H as [<-|[]]. exact I. }
    assert (Hrows : forall op,
              In op rows ->
              match op with
              | SetValue r c content =>
                  4 <= r
                  /\ (r = 4 + i ->
                      (c = 1 /\ content = centre row)
                      \/ (c = 2 /\ content = averageSangat row)
                      \/ exists j d details,
                           nth_error (sortedDates result) j = Some d
                           /\ getProp d (rowDateData row) = Some details
                           /\ c = 3 + j
                           /\ content = fieldOrEmpty "totalSangat" details)
              | SetFontColor r _ _ => r = 4 + i -> isMissingData row = true
              | _ => True
              end).
    { intros op Hop. apply Hr in Hop. destruct Hop as (i' & row' & Hi' & [H|H]).
      - apply centreHeadOps_In in H.
        destruct H as [-> |[[_ ->]|[[Hm ->]| ->]]]; try exact I.
        + split; [lia|]. intros E. assert (i' = i) by lia. subst i'.
          rewrite Hi in Hi'. injection Hi' as <-. auto.
        + intros E. assert (i' = i) by lia. subst i'.
          rewrite Hi in Hi'. injection Hi' as <-. exact Hm.
        + split; [lia|]. intros E. assert (i' = i) by lia. subst i'.
          rewrite Hi in Hi'. injection Hi' as <-. auto.
      - apply (proj2 (dateCellOps_spec _ _ _ _)) in H.
        destruct H as (j & d & details & Hj & Hg & ->). split; [lia|].
        intros E. assert (i' = i) by lia. subst i'.
        rewrite Hi in Hi'. injection Hi' as <-. right. right. eauto 10. }
    assert (Hin : forall op, In op rows ->
              In op ([SetValue 1 1 title; SetFontSize 1 1 14; SetFontWeight 1 1 1 1 "bold";
                      SetValue 3 1 "Centre"; SetValue 3 2 "Avg. Sangat"]
                     ++ headers
                     ++ [SetFontWeight 3 1 1 (columnIndex - 1) "bold";
                         SetBackground 3 1 1 (columnIndex - 1) "#f3f3f3"]
                     ++ rows ++ [AutoResizeColumns 1 (lastColumnIndex - 1)])%list).
    { intros op H. rewrite !in_app_iff. auto. }
    split; [|split; [|split]].
    + apply Hin, Hrow. left. apply centreHeadOps_In. auto.
    + apply Hin, Hrow. left. apply centreHeadOps_In. auto.
    + split.
      * intros H. apply Hcases in H. destruct H as [[]|H].
        apply Hrows in H. now apply H.
      * intros Hm. apply Hin, Hrow. left. apply centreHeadOps_In. auto.
    + intros j d content Hj. split.
      * intros H. apply Hcases in H. destruct H as [H|H]; [simpl in H; lia|].
        apply Hrows in H. destruct H as [_ H].
        destruct (H eq_refl) as [[E _]|[[E _]|(j' & d' & details & Hj' & Hg & E & ->)]];
          try lia.
        assert (j' = j) by lia. subst j'. rewrite Hj in Hj'. injection Hj' as <-. eauto.
      * intros (details & Hg & ->). apply Hin, Hrow. right.
        apply (proj2 (dateCellOps_spec _ _ _ _)). eauto 10.
  - rewrite !in_app_iff. right. right. right. right. rewrite Hlast. now left.
Qed.

Lemma pivoted_sheet_layout_witness :
  In (SetValue 4 4 "200") (createPivotedExcelSheet examplePivot "Wednesday Satsang")
  /\ forall content,
       ~ In (SetValue 5 4 content)
           (createPivotedExcelSheet examplePivot "Wednesday Satsang").
Proof.
  destruct (pivoted_sheet_layout examplePivot "Wednesday Satsang") as (_ & Hrows & _).
  assert (H0 : nth_error (templateData examplePivot) 0
               = Some (nth 0 (templateData examplePivot) (listedRow Reference.platform [] [] "")))
    by (vm_compute; reflexivity).
  assert (H1 : nth_error (templateData examplePivot) 1
               = Some (nth 1 (templateData examplePivot) (listedRow Reference.platform [] [] "")))
    by (vm_compute; reflexivity).
  assert (Hd : nth_error (sortedDates examplePivot) 1 = Some "10-03-2024")
    by (vm_compute; reflexivity).
  split.
  - pose proof (Hrows 0 _ H0) as (_ & _ & _ & Hcell).
    pose proof (proj2 (Hcell 1 "10-03-2024" "200" Hd)) as Hc. apply Hc.
    exists (eventDetailsOf [CText "Sunday"; CText "10-03-2024"; CText "ALWAR"; CText "200"]).
    split; vm_compute; reflexivity.
  - intros content Hin. pose proof (Hrows 1 _ H1) as (_ & _ & _ & Hcell).
    pose proof (proj1 (Hcell 1 "10-03-2024" content Hd)) as Hc.
    destruct (Hc Hin) as (details & Hg & _). vm_compute in Hg. discriminate Hg.
Defined.

Lemma subHeaderOps_spec subHeaderRow columns : forall columnIndex,
  snd (subHeaderOps subHeaderRow columns columnIndex) = columnIndex + List.length columns
  /\ forall op,
       In op (fst (subHeaderOps subHeaderRow columns columnIndex)) <->
       exists k col,
         nth_error columns k = Some col
         /\ op = SetValue subHeaderRow (columnIndex + k) (nameOf col).
Proof.
  induction columns as [|col columns IH]; intros c; cbn [subHeaderOps].
  - split; [simpl; lia|]. intros op. split; [intros []|].
    intros (k & x & Hk & _). destruct k; discriminate.
  - specialize (IH (S c)). destruct (subHeaderOps subHeaderRow columns (S c)) as [ops l].
    cbn [fst snd] in *. destruct IH as [Hl Hops]. split; [simpl; lia|].
    intros op. cbn [In]. rewrite Hops. split.
    + intros [<-|(k & x & Hk & ->)].
      * exists 0, col. split; [reflexivity | f_equal; lia].
      * exists (S k), x. split; [exact Hk | f_equal; lia].
    + intros ([|k] & x & Hk & ->).
      * left. injection Hk as ->. f_equal. lia.
      * right. exists k, x. split; [exact Hk | f_equal; lia].
Qed.

Lemma detailOps_spec rowIndex eventData columns : forall columnIndex,
  snd (detailOps rowIndex eventData columns columnIndex)
  = columnIndex + List.length columns
  /\ forall op,
       In op (fst (detailOps rowIndex eventData columns columnIndex)) <->
       exists k col,
         nth_error columns k = Some col
         /\ op = SetValue rowIndex (columnIndex + k) (fieldOrEmpty (key col) eventData).
Proof.
  induction columns as [|col columns IH]; intros c; cbn [detailOps].
  - split; [simpl; lia|]. intros op. split; [intros []|].
    intros (k & x & Hk & _). destruct k; discriminate.
  - specialize (IH (S c)).
    destruct (detailOps rowIndex eventData columns (S c)) as [ops l].
    cbn [fst snd] in *. destruct IH as [Hl Hops]. split; [simpl; lia|].
    intros op. cbn [In]. rewrite Hops. split.
    + intros [<-|(k & x & Hk & ->)].
      * exists 0, col. split; [reflexivity | f_equal; lia].
      * exists (S k), x. split; [exact Hk | f_equal; lia].
    + intros ([|k] & x & Hk & ->).
      * left. injection Hk as ->. f_equal. lia.
      * right. exists k, x. split; [exact Hk | f_equal; lia].
Qed.

Lemma completeHeaderOps_spec datesHeaderRow dates : forall columnIndex,
  snd (completeHeaderOps datesHeaderRow dates columnIndex)
  = columnIndex + 9 * List.length dates
  /\ forall op,
       In op (fst (completeHeaderOps datesHeaderRow dates columnIndex)) <->
       exists j dateStr,
         nth_error dates j = Some dateStr
         /\ (In op
               [ Merge datesHeaderRow (columnIndex + 9 * j) 1 9;
                 SetValue datesHeaderRow (columnIndex + 9 * j) dateStr;
                 SetHorizontalAlignment datesHeaderRow (columnIndex + 9 * j) "center" ]
             \/ In op
                  (fst (subHeaderOps (datesHeaderRow + 1) eventDetailColumns
                          (columnIndex + 9 * j)))).
Proof.
  induction dates as [|d dates IH]; intros c; cbn [completeHeaderOps].
  - split; [simpl; lia|]. intros op. split; [intros []|].
    intros (j & x & Hj & _). destruct j; discriminate.
  - pose proof (subHeaderOps_spec (datesHeaderRow + 1) eventDetailColumns c) as [Hsl _].
    destruct (subHeaderOps (datesHeaderRow + 1) eventDetailColumns c)
      as [subs after] eqn:Es.
    cbn [snd] in Hsl. change (List.length eventDetailColumns) with 9 in *.
    specialize (IH after).
    destruct (completeHeaderOps datesHeaderRow dates after) as [ops l].
    cbn [fst snd] in *. destruct IH as [Hl Hops]. split; [cbn [List.length]; lia|].
    intros op. rewrite !in_app_iff, Hops. split.
    + intros [H|[H|(j & x & Hj & H)]].
      * exists 0, d. rewrite Nat.mul_0_r, Nat.add_0_r. auto.
      * exists 0, d. rewrite Nat.mul_0_r, Nat.add_0_r, Es. auto.
      * exists (S j), x. split; [exact Hj|].
        replace (c + 9 * S j) with (after + 9 * j) by lia. exact H.
    + intros ([|j] & x & Hj & H).
      * injection Hj as <-. rewrite Nat.mul_0_r, Nat.add_0_r, Es in H. tauto.
      * right. right. exists j, x. split; [exact Hj|].
        replace (after + 9 * j) with (c + 9 * S j) by lia. exact H.
Qed.

Lemma completeCellOps_spec rowIndex dateData dates : forall columnIndex,
  snd (completeCellOps rowIndex dateData dates columnIndex)
  = columnIndex + 9 * List.length dates
  /\ forall op,
       In op (fst (completeCellOps rowIndex dateData dates columnIndex)) <->
       exists j dateStr eventData,
         nth_error dates j = Some dateStr
         /\ getProp dateStr dateData = Some eventData
         /\ In op
              (fst (detailOps rowIndex eventData eventDetailColumns
                      (columnIndex + 9 * j))).
Proof.
  induction dates as [|d dates IH]; intros c; cbn [completeCellOps].
  - split; [simpl; lia|]. intros op. split; [intros []|].
    intros (j & x & e & Hj & _). destruct j; discriminate.
  - assert (Hshift : forall start op,
              start = c + 9 ->
              ((exists j dateStr eventData,
                  nth_error dates j = Some dateStr
                  /\ getProp dateStr dateData = Some eventData
                  /\ In op (fst (detailOps rowIndex eventData eventDetailColumns
                                   (start + 9 * j))))
               <-> exists j dateStr eventData,
                     nth_error (d :: dates) (S j) = Some dateStr
                     /\ getProp dateStr dateData = Some eventData
                     /\ In op (fst (detailOps rowIndex eventData eventDetailColumns
                                      (c + 9 * S j))))).
    { intros start op ->. split; intros (j & x & e & Hj & Hg & H); exists j, x, e;
        (split; [exact Hj|]); (split; [exact Hg|]).
      - replace (c + 9 * S j) with (c + 9 + 9 * j) by lia. exact H.
      - replace (c + 9 + 9 * j) with (c + 9 * S j) by lia. exact H. }
    destruct (getProp d dateData) as [eventData|] eqn:Ed.
    + pose proof (detailOps_spec rowIndex eventData eventDetailColumns c) as [Hdl _].
      destruct (detailOps rowIndex eventData eventDetailColumns c)
        as [details after] eqn:Edet.
      cbn [snd] in Hdl. change (List.length eventDetailColumns) with 9 in Hdl.
      specialize (IH after).
      destruct (completeCellOps rowIndex dateData dates after) as [ops l].
      cbn [fst snd] in *. destruct IH as [Hl Hops]. split; [cbn [List.length]; lia|].
      intros op. rewrite in_app_iff, Hops, (Hshift after op Hdl). split.
      * intros [H|(j & x & e & Hj & Hg & H)].
        -- exists 0, d, eventData. rewrite Nat.mul_0_r, Nat.add_0_r, Edet. auto.
        -- exists (S j), x, e. auto.
      * intros ([|j] & x & e & Hj & Hg & H).
        -- injection Hj as <-. rewrite Ed in Hg. injection Hg as <-.
           rewrite Nat.mul_0_r, Nat.add_0_r, Edet in H. auto.
        -- right. exists j, x, e. auto.
    + change (List.length eventDetailColumns) with 9. specialize (IH (c + 9)).
      destruct (completeCellOps rowIndex dateData dates (c + 9)) as [ops l].
      cbn [fst snd] in *. destruct IH as [Hl Hops]. split; [cbn [List.length]; lia|].
      intros op. rewrite Hops, (Hshift _ op eq_refl). split.
      * intros (j & x & e & Hj & Hg & H). exists (S j), x, e. auto.
      * intros ([|j] & x & e & Hj & Hg & H).
        -- injection Hj as <-. congruence.
        -- exists j, x, e. auto.
Qed.

Lemma completeRowOps_spec dates rows : forall rowIndex columnIndex,
  snd (completeRowOps dates rows rowIndex columnIndex)
  = match rows with
    | [] => columnIndex
    | _ => 3 + 9 * List.length dates
    end
  /\ forall op,
       In op (fst (completeRowOps dates rows rowIndex columnIndex)) <->
       exists i row,
         nth_error rows i = Some row
         /\ (In op (centreHeadOps (rowIndex + i) row)
             \/ In op (fst (completeCellOps (rowIndex + i) (rowDateData row) dates 3))).
Proof.
  induction rows as [|row rows IH]; intros r c; cbn [completeRowOps].
  - split; [reflexivity|]. intros op. split; [intros []|].
    intros (i & x & Hi & _). destruct i; discriminate.
  - pose proof (completeCellOps_spec r (rowDateData row) dates 3) as [Hc _].
    destruct (completeCellOps r (rowDateData row) dates 3) as [cells after] eqn:Ecells.
    cbn [snd] in Hc. specialize (IH (S r) after).
    destruct (completeRowOps dates rows (S r) after) as [ops l]. cbn [fst snd] in *.
    destruct IH as [Hl Hops]. split.
    { rewrite Hl. destruct rows; [exact Hc | reflexivity]. }
    intros op. rewrite !in_app_iff, Hops. split.
    + intros [H|[H|(i & x & Hi & H)]].
      * exists 0, row. rewrite Nat.add_0_r. auto.
      * exists 0, row. rewrite Nat.add_0_r, Ecells. auto.
      * exists (S i), x. rewrite Nat.add_succ_r. auto.
    + intros ([|i] & x & Hi & H).
      * injection Hi as <-. rewrite Nat.add_0_r, Ecells in H. tauto.
      * right. right. exists i, x. rewrite Nat.add_succ_r in H. auto.
Qed.

(** X20 (src/Code.js and src/unnamed/part_000,
    createCompletePivotedExcelSheet): the layout of a complete pivoted
    sheet.  Each date takes nine columns: the date of position [j] heads
    the merged cells from column [3 + 9 j], with the nine detail names
    under it; the details of the centre of position [i] on that date are
    written in row [5 + i] under their names, exactly when the centre has
    data on the date, so that a date without data shifts nothing; and the
    sub-header range asked for is nine columns per date wide. *)
Theorem complete_sheet_layout (result : pivotResult) (title : string) :
  (forall j dateStr,
     nth_error (sortedDates result) j = Some dateStr ->
     In (Merge 3 (3 + 9 * j) 1 9) (createCompletePivotedExcelSheet result title)
     /\ In (SetValue 3 (3 + 9 * j) dateStr) (createCompletePivotedExcelSheet result title)
     /\ forall k col,
          nth_error eventDetailColumns k = Some col ->
          In (SetValue 4 (3 + 9 * j + k) (nameOf col))
            (createCompletePivotedExcelSheet result title))
  /\ (forall i row j dateStr k col content,
        nth_error (templateData result) i = Some row ->
        nth_error (sortedDates result) j = Some dateStr ->
        nth_error eventDetailColumns k = Some col ->
        (In (SetValue (5 + i) (3 + 9 * j + k) content)
           (createCompletePivotedExcelSheet result title)
         <-> exists eventData,
               getProp dateStr (rowDateData row) = Some eventData
               /\ content = fieldOrEmpty (key col) eventData))
  /\ In (SetFontWeight 4 3 1 (9 * List.length (sortedDates result)) "bold")
       (createCompletePivotedExcelSheet result title)
  /\ In (AutoResizeColumns 1 (2 + 9 * List.length (sortedDates result)))
       (createCompletePivotedExcelSheet result title).
Proof.
  unfold createCompletePivotedExcelSheet.
  pose proof (completeHeaderOps_spec 3 (sortedDates result) 3) as [Hhl Hh].
  destruct (completeHeaderOps 3 (sortedDates result) 3) as [headers columnIndex].
  pose proof (completeRowOps_spec (sortedDates result) (templateData result) (3 + 2)
                columnIndex) as [Hrl Hr].
  destruct (completeRowOps (sortedDates result) (templateData result) (3 + 2) columnIndex)
    as [rows lastColumnIndex].
  cbn [fst snd] in *.
  assert (Hlast : lastColumnIndex - 1 = 2 + 9 * List.length (sortedDates result)).
  { rewrite Hrl. destruct (templateData result); lia. }
  assert (Hwidth : columnIndex - 3 = 9 * List.length (sortedDates result)) by lia.
  split; [|split; [|split]].
  - intros j d Hj.
    assert (Hin : forall op,
              In op
                [ Merge 3 (3 + 9 * j) 1 9; SetValue 3 (3 + 9 * j) d;
                  SetHorizontalAlignment 3 (3 + 9 * j) "center" ]
              \/ In op (fst (subHeaderOps (3 + 1) eventDetailColumns (3 + 9 * j))) ->
              In op headers).
    { intros op H. apply Hh. eauto. }
    split; [|split].
    + rewrite !in_app_iff. right. left. apply Hin. left. simpl. auto.
    + rewrite !in_app_iff. right. left. apply Hin. left. simpl. auto.
    + intros k col Hk. rewrite !in_app_iff. right. left. apply Hin. right.
      apply (proj2 (subHeaderOps_spec _ _ _)). eauto.
  - intros i row j d k col content Hi Hj Hk.
    assert (Hk9 : k < 9).
    { change 9 with (List.length eventDetailColumns). apply nth_error_Some. congruence. }
    split.
    + rewrite !in_app_iff. cbn [In].
      intros [H|[H|[H|[H|H]]]].
      * repeat (destruct H as [H|H]; [discriminate H || (injection H; lia)|]).
        destruct H.
      * apply Hh in H. destruct H as (j' & d' & _ & [H|H]).
        -- repeat (destruct H as [H|H]; [discriminate H || (injection H; lia)|]).
           destruct H.
        -- apply (proj2 (subHeaderOps_spec _ _ _)) in H.
           destruct H as (k' & col' & _ & H). injection H. lia.
      * repeat (destruct H as [H|H]; [discriminate H|]). destruct H.
      * apply Hr in H. destruct H as (i' & row' & Hi' & [H|H]).
        -- apply centreHeadOps_In in H.
           destruct H as [H|[[_ H]|[[_ H]|H]]]; try discriminate H; injection H; lia.
        -- apply (proj2 (completeCellOps_spec _ _ _ _)) in H.
           destruct H as (j' & d' & eventData & Hj' & Hg & H).
           apply (proj2 (detailOps_spec _ _ _ _)) in H.
           destruct H as (k' & col' & Hk' & H).
           assert (Hk9' : k' < 9).
           { change 9 with (List.length eventDetailColumns). apply nth_error_Some.
             congruence. }
           injection H as Hrow Hcol ->.
           assert (i' = i) by lia. assert (j' = j) by lia. assert (k' = k) by lia.
           subst i' j' k'. rewrite Hi in Hi'. injection Hi' as <-.
           rewrite Hj in Hj'. injection Hj' as <-.
           rewrite Hk in Hk'. injection Hk' as <-. eauto.
      * repeat (destruct H as [H|H]; [discriminate H|]). destruct H.
    + intros (eventData & Hg & ->). rewrite !in_app_iff. right. right. right. left.
      apply Hr. exists i, row. split; [exact Hi|]. right.
      apply (proj2 (completeCellOps_spec _ _ _ _)). exists j, d, eventData.
      split; [exact Hj|]. split; [exact Hg|].
      apply (proj2 (detailOps_spec _ _ _ _)). eauto.
  - rewrite !in_app_iff. right. right. left. rewrite Hwidth. simpl. auto.
  - rewrite !in_app_iff. right. right. right. right. rewrite Hlast. now left.
Qed.

Lemma complete_sheet_layout_witness :
  In (SetValue 5 3 "100")
    (createCompletePivotedExcelSheet examplePivot "Wednesday Satsang")
  /\ In (SetValue 4 12 "Total Sangat")
       (createCompletePivotedExcelSheet examplePivot "Wednesday Satsang")
  /\ forall content,
       ~ In (SetValue 6 12 content)
           (createCompletePivotedExcelSheet examplePivot "Wednesday Satsang").
Proof.
  destruct (complete_sheet_layout examplePivot "Wednesday Satsang")
    as (Hhead & Hrows & _).
  assert (H0 : nth_error (templateData examplePivot) 0
               = Some (nth 0 (templateData examplePivot) (listedRow Reference.platform [] [] "")))
    by (vm_compute; reflexivity).
  assert (H1 : nth_error (templateData examplePivot) 1
               = Some (nth 1 (templateData examplePivot) (listedRow Reference.platform [] [] "")))
    by (vm_compute; reflexivity).
  assert (Hd0 : nth_error (sortedDates examplePivot) 0 = Some "03-03-2024")
    by (vm_compute; reflexivity).
  assert (Hd1 : nth_error (sortedDates examplePivot) 1 = Some "10-03-2024")
    by (vm_compute; reflexivity).
  assert (Hk : nth_error eventDetailColumns 0
               = Some {| key := "totalSangat"; index := COL_SANGAT - 1 |})
    by reflexivity.
  split; [|split].
  - pose proof (proj2 (Hrows 0 _ 0 "03-03-2024" 0 _ "100" H0 Hd0 Hk)) as Hc. apply Hc.
    exists (eventDetailsOf [CText "Sunday"; CText "03-03-2024"; CText "ALWAR"; CText "100"]).
    split; vm_compute; reflexivity.
  - pose proof (Hhead 1 "10-03-2024" Hd1) as (_ & _ & Hsub).
    pose proof (Hsub 0 _ Hk) as Hc. exact Hc.
  - intros content Hin.
    pose proof (proj1 (Hrows 1 _ 1 "10-03-2024" 0 _ content H1 Hd1 Hk)) as Hc.
    destruct (Hc Hin) as (details & Hg & _). vm_compute in Hg. discriminate Hg.
Defined.

Lemma eventRowOps_spec events : forall rowIndex op,
  In op (eventRowOps events rowIndex) <->
  exists i event,
    nth_error events i = Some event
    /\ In op (fst (detailOps (rowIndex + i) (eventFields event) specialEventHeaders 1)).
Proof.
  induction events as [|event events IH]; intros r op; cbn [eventRowOps].
  - split; [intros []|]. intros (i & x & Hi & _). destruct i; discriminate.
  - rewrite in_app_iff, IH. split.
    + intros [H|(i & x & Hi & H)].
      * exists 0, event. rewrite Nat.add_0_r. auto.
      * exists (S i), x. rewrite Nat.add_succ_r. auto.
    + intros ([|i] & x & Hi & H).
      * injection Hi as <-. rewrite Nat.add_0_r in H. auto.
      * right. exists i, x. rewrite Nat.add_succ_r in H. auto.
Qed.

(** X21 (src/Code.js and src/unnamed/part_000, createSpecialExcelSheet and
    createCompleteSpecialExcelSheet): the layout of the special sheet.  The
    name of the field of position [k] heads column [1 + k]; the event of
    position [i] fills row [4 + i], each cell with the field of its column
    and nothing else; and the complete sheet holds the same cells. *)
Theorem special_sheet_layout (specialEvents : list specialEvent) :
  (forall k col,
     nth_error specialEventHeaders k = Some col ->
     In (SetValue 3 (1 + k) (nameOf col)) (createSpecialExcelSheet specialEvents))
  /\ (forall i event k col content,
        nth_error specialEvents i = Some event ->
        nth_error specialEventHeaders k = Some col ->
        (In (SetValue (4 + i) (1 + k) content) (createSpecialExcelSheet specialEvents)
         <-> content = fieldOrEmpty (key col) (eventFields event)))
  /\ (forall row col content,
        In (SetValue row col content) (createCompleteSpecialExcelSheet specialEvents)
        <-> In (SetValue row col content) (createSpecialExcelSheet specialEvents)).
Proof.
  split; [|split].
  - intros k col Hk. unfold createSpecialExcelSheet. rewrite !in_app_iff. right. left.
    apply (proj2 (subHeaderOps_spec _ _ _)). eauto.
  - intros i event k col content Hi Hk. unfold createSpecialExcelSheet.
    rewrite !in_app_iff. cbn [In]. split.
    + intros [H|[H|[H|[H|H]]]].
      * repeat (destruct H as [H|H]; [discriminate H || (injection H; lia)|]).
        destruct H.
      * apply (proj2 (subHeaderOps_spec _ _ _)) in H.
        destruct H as (k' & col' & _ & H). injection H. lia.
      * repeat (destruct H as [H|H]; [discriminate H|]). destruct H.
      * apply eventRowOps_spec in H. destruct H as (i' & event' & Hi' & H).
        apply (proj2 (detailOps_spec _ _ _ _)) in H.
        destruct H as (k' & col' & Hk' & H). injection H as Hrow Hcol ->.
        assert (i' = i) by lia. assert (k' = k) by lia. subst i' k'.
        rewrite Hi in Hi'. injection Hi' as <-.
        rewrite Hk in Hk'. injection Hk' as <-. reflexivity.
      * repeat (destruct H as [H|H]; [discriminate H|]). destruct H.
    + intros ->. right. right. right. left. apply eventRowOps_spec.
      exists i, event. split; [exact Hi|].
      apply (proj2 (detailOps_spec _ _ _ _)). eauto.
  - intros row col content. unfold createCompleteSpecialExcelSheet.
    rewrite in_app_iff. cbn [In]. split; [|auto].
    intros [H|[H|[H|[]]]]; [exact H | discriminate H | discriminate H].
Qed.

Lemma special_sheet_layout_witness :
  In (SetValue 3 3 "Centre") (createSpecialExcelSheet exampleEvents)
  /\ In (SetValue 4 3 "B") (createSpecialExcelSheet exampleEvents)
  /\ ~ In (SetValue 4 3 "A") (createSpecialExcelSheet exampleEvents).
Proof.
  destruct (special_sheet_layout exampleEvents) as (Hhead & Hrows & _).
  assert (H0 : nth_error exampleEvents 0
               = Some (nth 0 exampleEvents (eventObjectOf (specialItem "" None))))
    by (vm_compute; reflexivity).
  assert (Hk : nth_error specialEventHeaders 2
               = Some {| key := "centre"; index := COL_CENTRE - 1 |})
    by reflexivity.
  split; [|split].
  - pose proof (Hhead 2 _ Hk) as Hc. exact Hc.
  - pose proof (proj2 (Hrows 0 _ 2 _ "B" H0 Hk)) as Hc. apply Hc.
    vm_compute. reflexivity.
  - intros Hin. pose proof (proj1 (Hrows 0 _ 2 _ "A" H0 Hk) Hin) as Hc.
    vm_compute in Hc. discriminate Hc.
Defined.

End SheetFacts.

(** ** The exports *)




(** X23 (src/unnamed/part_000, exportFilteredDataToExcel and
    exportCompleteDataToExcel): on a platform whose sort conforms, no
    export of the second script file makes a spreadsheet.  Each raises the
    error of the pipeline under its own prefix, whatever Drive would do. *)
Theorem part000_exports_always_fail (P : Platform) (T : Texts) (sheet : option table)
  (configuration : option (list value)) (convert : workbook -> outcome string)
  (timestamp : string) (hasSheet1 : bool) (clockMonth : string)
  (requestedMonth : option string) :
  SortConforms P ->
  exists message,
    exportFilteredDataToExcel
      (Part000.getDataForDashboard P T sheet configuration clockMonth)
      convert timestamp hasSheet1 clockMonth requestedMonth
    = Threw ("Error: Export failed: " ++ message)
    /\ exportCompleteDataToExcel
         (Part000.getDataForDashboard P T sheet configuration clockMonth)
         convert timestamp hasSheet1 clockMonth requestedMonth
       = Threw ("Error: Complete export failed: " ++ message)
    /\ In message
         [ "Failed to load data: Sheet 'Dashboard' not found!";
           "No data rows found.";
           "Failed to load data: parsedDate is not defined";
           "No data with valid dates found." ].
Proof.
  intros Hsort.
  unfold exportFilteredDataToExcel, exportCompleteDataToExcel, export.
  match goal with
  | |- context [Part000.getDataForDashboard P T sheet configuration clockMonth ?req] =>
      destruct (part000_dashboard_result P T sheet configuration clockMonth req
                  Hsort) as (message & -> & Hin)
  end.
  cbn [error]. exists message. split; [|split; [|exact Hin]];
    simpl in Hin; destruct Hin as [<-|[<-|[<-|[<-|[]]]]]; reflexivity.
Qed.

Lemma part000_exports_always_fail_witness :
  exists message,
    exportFilteredDataToExcel
      (Part000.getDataForDashboard Reference.platform plainTexts (Some exampleSheet) None
         "2024-03")
      exampleConvert "20240401_090000" true "2024-03" None
    = Threw ("Error: Export failed: " ++ message)
    /\ exportCompleteDataToExcel
         (Part000.getDataForDashboard Reference.platform plainTexts (Some exampleSheet)
            None "2024-03")
         exampleConvert "20240401_090000" true "2024-03" None
       = Threw ("Error: Complete export failed: " ++ message)
    /\ In message
         [ "Failed to load data: Sheet 'Dashboard' not found!";
           "No data rows found.";
           "Failed to load data: parsedDate is not defined";
           "No data with valid dates found." ].
Proof.
  exact (part000_exports_always_fail Reference.platform plainTexts (Some exampleSheet)
           None exampleConvert "20240401_090000" true "2024-03" None
           reference_sort_conforms).
Defined.




(** ** Cells and date columns *)

Section Columns.
Variable P : Platform.
Hypothesis Hsort : SortConforms P.
Variable dataItems : list dataItem.

Lemma centreNames_In c :
  In c (sortedCentreNames P (processedDataOf P dataItems))
  <-> In c (map brCentre (bucketRows P dataItems)).
Proof using Hsort.
  unfold sortedCentreNames.
  destruct (Hsort string (localeCompare P) (ownKeys (processedDataOf P dataItems)))
    as [Hperm _].
  assert (Hkeys : forall x, In x (ownKeys (processedDataOf P dataItems))
                            <-> In x (map brCentre (bucketRows P dataItems))).
  { intros x. unfold processedDataOf. rewrite forEachItem_rows. simpl.
    rewrite <- centres_key_iff. split; apply Permutation_in;
      [apply ownKeys_perm | apply Permutation_sym, ownKeys_perm]. }
  rewrite <- Hkeys. split; apply Permutation_in;
    [apply Permutation_sym, Hperm | apply Hperm].
Qed.

Lemma centreNames_NoDup : NoDup (sortedCentreNames P (processedDataOf P dataItems)).
Proof using Hsort.
  unfold sortedCentreNames.
  destruct (Hsort string (localeCompare P) (ownKeys (processedDataOf P dataItems)))
    as [Hperm _].
  eapply Permutation_NoDup; [exact Hperm|].
  eapply Permutation_NoDup; [apply Permutation_sym, ownKeys_perm|].
  unfold processedDataOf. rewrite forEachItem_rows. simpl.
  apply centres_NoDup. constructor.
Qed.

Lemma sortedDateKeys_In k :
  In k (sortedDateKeysOf P (uniqueDateInfoOf P dataItems))
  <-> In k (map brKey (bucketRows P dataItems)).
Proof using Hsort.
  unfold sortedDateKeysOf.
  match goal with
  | |- In k (arraySort P string ?cmp ?l) <-> _ =>
      destruct (Hsort string cmp l) as [Hperm _]
  end.
  rewrite <- (dateKeys_iff P dataItems k). split; intros H.
  - apply (Permutation_in _ (Permutation_sym Hperm)) in H.
    exact (Permutation_in _ (ownKeys_perm _) H).
  - apply (Permutation_in _ Hperm).
    exact (Permutation_in _ (Permutation_sym (ownKeys_perm _)) H).
Qed.

Lemma aggregate_keys c agg k :
  getProp c (processedDataOf P dataItems) = Some agg ->
  (In k (map fst (dateData agg))
   <-> exists r, In r (bucketRows P dataItems) /\ brCentre r = c /\ brKey r = k).
Proof using Type.
  intros Hget. unfold processedDataOf in Hget.
  rewrite forEachItem_rows in Hget. simpl in Hget.
  rewrite centres_get in Hget. simpl in Hget. fold (bucketRows P dataItems) in Hget.
  set (cells := cellsOf c (bucketRows P dataItems)) in *.
  assert (Hagg : agg = foldCells P newCentre cells).
  { destruct cells; [discriminate | now injection Hget as <-]. }
  destruct (foldCells_spec P cells newCentre) as (Hd & _). simpl in Hd.
  rewrite <- Hagg in Hd. rewrite Hd, map_map.
  change (map (fun x => fst (cellOf x)) (firstRows [] cells))
    with (map fst (firstRows [] cells)).
  rewrite firstRows_keys. unfold cells, cellsOf. rewrite map_map. simpl.
  rewrite in_map_iff. split.
  - intros (r & <- & Hr). apply filter_In in Hr. destruct Hr as [Hr Hc].
    apply String.eqb_eq in Hc. eauto.
  - intros (r & Hr & Hc & <-). exists r. split; [reflexivity|].
    apply filter_In. split; [assumption|]. now apply String.eqb_eq.
Qed.

Lemma aggregate_of_centre c :
  In c (map brCentre (bucketRows P dataItems)) ->
  exists agg, getProp c (processedDataOf P dataItems) = Some agg.
Proof using Type.
  intros Hc. destruct (getProp c (processedDataOf P dataItems)) eqn:E; [eauto|].
  exfalso. apply getProp_None_iff in E. apply E.
  unfold processedDataOf. rewrite forEachItem_rows. simpl. now apply centres_key_iff.
Qed.

Lemma listedRow_aggregate keys c :
  rowDateData (listedRow P (processedDataOf P dataItems) keys c) = []
  \/ exists agg,
       getProp (centre (listedRow P (processedDataOf P dataItems) keys c))
         (processedDataOf P dataItems) = Some agg
       /\ rowDateData (listedRow P (processedDataOf P dataItems) keys c) = dateData agg.
Proof using Type.
  unfold listedRow. cbn [rowDateData centre].
  destruct (getProp c (processedDataOf P dataItems)) as [agg|]; eauto.
Qed.

Lemma rows_of_aggregates keys listed extras :
  Forall (fun row =>
            exists agg,
              getProp (centre row) (processedDataOf P dataItems) = Some agg
              /\ rowDateData row = dateData agg) extras ->
  (forall c, In c (sortedCentreNames P (processedDataOf P dataItems)) ->
             ~ In c listed -> In c (map centre extras)) ->
  RowsOfAggregates P dataItems
    {| templateData :=
         (map (listedRow P (processedDataOf P dataItems) keys) listed ++ extras)%list;
       sortedDates := sortedDateKeysOf P (uniqueDateInfoOf P dataItems) |}.
Proof using Hsort.
  intros Hextras Hall. unfold RowsOfAggregates. cbn [templateData sortedDates].
  split; [reflexivity|]. split.
  - intros row Hin. apply in_app_or in Hin. destruct Hin as [Hin|Hin].
    + apply in_map_iff in Hin. destruct Hin as (c & <- & _). apply listedRow_aggregate.
    + right. rewrite Forall_forall in Hextras. now apply Hextras.
  - intros c agg Hget.
    destruct (in_dec string_dec c listed) as [Hl|Hl].
    + exists (listedRow P (processedDataOf P dataItems) keys c). split.
      * apply in_or_app. left. now apply in_map.
      * unfold listedRow. cbn [rowDateData]. now rewrite Hget.
    + assert (Hc : In c (sortedCentreNames P (processedDataOf P dataItems))).
      { apply centreNames_In. unfold processedDataOf in Hget.
        rewrite forEachItem_rows in Hget. simpl in Hget.
        apply getProp_Some_key in Hget. now apply centres_key_iff in Hget. }
      specialize (Hall c Hc Hl). apply in_map_iff in Hall.
      destruct Hall as (row & Hcr & Hin). exists row. split; [now apply in_or_app; right|].
      rewrite Forall_forall in Hextras. destruct (Hextras row Hin) as (agg' & Hg & ->).
      rewrite Hcr, Hget in Hg. now injection Hg as <-.
Qed.

Lemma columns_of_aggregates r :
  RowsOfAggregates P dataItems r ->
  (forall row k details,
     In row (templateData r) -> getProp k (rowDateData row) = Some details ->
     In k (sortedDates r))
  /\ (forall k,
        In k (sortedDates r) ->
        exists row details,
          In row (templateData r) /\ getProp k (rowDateData row) = Some details).
Proof using Hsort.
  intros (Hd & Hrows & Haggs). rewrite Hd. split.
  - intros row k details Hin Hget. apply sortedDateKeys_In.
    destruct (Hrows row Hin) as [Hnil|(agg & Hagg & Hrd)].
    + rewrite Hnil in Hget. discriminate.
    + rewrite Hrd in Hget. apply getProp_Some_key in Hget.
      apply (aggregate_keys _ _ _ Hagg) in Hget. destruct Hget as (r0 & Hr0 & _ & <-).
      now apply in_map.
  - intros k Hk. apply sortedDateKeys_In in Hk. apply in_map_iff in Hk.
    destruct Hk as (r0 & <- & Hr0).
    destruct (aggregate_of_centre (brCentre r0)) as [agg Hagg]; [now apply in_map|].
    destruct (Haggs _ _ Hagg) as (row & Hin & Hrd).
    assert (Hkey : In (brKey r0) (map fst (dateData agg))).
    { apply (aggregate_keys _ _ _ Hagg). eauto. }
    destruct (getProp (brKey r0) (dateData agg)) as [details|] eqn:E.
    + exists row, details. rewrite Hrd. auto.
    + apply getProp_None_iff in E. contradiction.
Qed.

End Columns.

(** X26 (src/Code.js and src/unnamed/part_000, processAndSortData): the
    date columns of a pivot are exactly the dates of its cells.  Every
    cell of every row stands under one of the sorted dates, and every
    sorted date has a cell in some row. *)
Theorem cells_and_columns (P : Platform) (dataItems : list dataItem)
  (selectedMonth : string) (isSundayData : bool)
  (allRelevantCenters : option (list string)) (r : pivotResult) :
  SortConforms P ->
  CodeJs.processAndSortData P dataItems selectedMonth isSundayData = Returned r
  \/ Part000.processAndSortData P dataItems selectedMonth isSundayData
       allRelevantCenters = Returned r ->
  (forall row k details,
     In row (templateData r) -> getProp k (rowDateData row) = Some details ->
     In k (sortedDates r))
  /\ (forall k,
        In k (sortedDates r) ->
        exists row details,
          In row (templateData r) /\ getProp k (rowDateData row) = Some details).
Proof.
  intros Hsort [Hr|Hr].
  - apply codejs_processAndSortData_inv in Hr. cbv zeta in Hr.
    destruct Hr as [(_ & _ & ->)|(extras & Hx & ->)].
    { split; [intros row k details []|intros k []]. }
    apply (columns_of_aggregates P Hsort dataItems).
    apply codejs_appendExtras_inv in Hx. destruct Hx as [Hm Hf].
    apply (rows_of_aggregates P Hsort dataItems).
    + eapply Forall_impl; [|exact Hf]. intros row Hrow.
      apply codejs_extraRow_inv in Hrow. now destruct Hrow as (_ & _ & Hagg).
    + intros c Hc Hl. unfold processedDataOf in *. rewrite Hm. apply filter_In.
      split; [assumption|]. apply negb_true_iff. now apply includes_false_iff.
  - apply part000_processAndSortData_inv in Hr. cbv zeta in Hr.
    destruct Hr as (extras & Hx & ->).
    apply (columns_of_aggregates P Hsort dataItems).
    apply part000_appendExtras_inv in Hx. destruct Hx as [Hf Hm].
    apply (rows_of_aggregates P Hsort dataItems).
    + eapply Forall_impl; [|exact Hf]. intros row Hrow.
      apply part000_extraRow_inv in Hrow. now destruct Hrow as (_ & _ & Hagg).
    + intros c Hc Hl. unfold processedDataOf in *.
      rewrite (Hm (centreNames_NoDup P Hsort dataItems)). apply filter_In.
      split; [assumption|]. apply negb_true_iff. now apply includes_false_iff.
Qed.

Lemma cells_and_columns_witness :
  exists row details,
    In row (templateData examplePivot)
    /\ getProp "10-03-2024" (rowDateData row) = Some details.
Proof.
  assert (Hr : CodeJs.processAndSortData Reference.platform extraCentreBucket "2024-03"
                 false = Returned examplePivot) by (vm_compute; reflexivity).
  pose proof (proj2 (cells_and_columns Reference.platform extraCentreBucket "2024-03"
                       false None examplePivot reference_sort_conforms (or_introl Hr))
                "10-03-2024") as Hcol.
  apply Hcol. vm_compute. auto.
Defined.
